(** * ce-wallet-service: ledger and escrow engine

    A shallow embedding of the balance-changing services of the wallet
    service and the properties of its ledger:

    - [escrowService]        (initiateEscrowDeposit, verifyEscrowDeposit,
                              holdEscrow, releaseEscrow, refundEscrow)
    - [brandRechargeService] (initiateRecharge, verifyRecharge, handleWebhook)
    - [transactionService]   (createTransaction, updateTransactionStatus,
                              requestWithdrawal, processWithdrawal) and the
                              withdrawal route that calls it
    - [brandWalletService]   (getOrCreateBrandWallet and its helpers)
    - [creatorUnlockService] (unlockCreator)

    Modelling conventions.

    - The relational store is a record of tables; a table is the list of its
      rows in insertion order.  [knex] queries become list functions:
      [.where(..).first()] is [find], [.where(..).update(..)] rewrites every
      matching row, [.returning('*')] is the list of rewritten rows and
      [.insert(..)] appends a row whose [id] the store generates.
    - Money and token columns are exact decimals ([numeric]) in the store; they
      are represented by [Z] (a count of the smallest unit).  On such a column
      [parseFloat(col) || 0] reads the stored number, so it is the identity.
    - [await]-ed service functions are computations in a state-and-error
      monad over the store.  [db.transaction()] / [commit] / [rollback] is
      the [with_trx] combinator: the writes of the body are kept when it
      returns and discarded when it throws.  The store serves every
      statement it is sent; releaseEscrow, whose claim is about atomicity,
      is also given with its fault points ([stmt]): the runs in which the
      store rejects one of its statements.
    - [new Date()] is the [now] argument of each operation.
    - Fire-and-forget notifications and log lines have no effect on the store
      and are left out. *)

From Stdlib Require Import ZArith List String Bool Lia Permutation.
Import ListNotations.

Set Implicit Arguments.

(** ** Identifiers, time, enumerations *)

(** Row identifiers are UUIDs generated by the store or handed in by the
    caller; only their equality matters. *)
Definition Id := nat.
Bind Scope nat_scope with Id.
Definition Timestamp := Z.

Inductive Status :=
| pending | processing | completed | failed | cancelled | reversed.

Definition status_eqb (a b : Status) : bool :=
  match a, b with
  | pending, pending | processing, processing | completed, completed
  | failed, failed | cancelled, cancelled | reversed, reversed => true
  | _, _ => false
  end.

Inductive CurrencyType := token | escrow.

(** [transaction_type] of [brand_transactions]. *)
Inductive BrandTransactionType :=
| token_credit | escrow_deposit | escrow_hold | escrow_release
| escrow_refund | creator_unlock.

(** [transaction_type] of the creators' [transactions] table
    ([TransactionType] of transactionService, plus ['earning'] written by
    releaseEscrow). *)
Inductive TransactionType :=
| deposit | withdrawal | gift_sent | gift_received | campaign_earning
| campaign_payment | refund | adjustment | earning.

Definition is_withdrawal (t : TransactionType) : bool :=
  match t with withdrawal => true | _ => false end.

Inductive VerificationStatus := vs_pending | vs_verified | vs_rejected.

Definition is_verified (v : VerificationStatus) : bool :=
  match v with vs_verified => true | _ => false end.

(** ** Errors

    One constructor per [throw new Error(..)] of the services; messages that
    interpolate numbers carry them as arguments. *)
Inductive Error :=
| AmountMustBePositive            (* 'Amount must be greater than 0' *)
| BrandWalletNotFound             (* 'Brand wallet not found' *)
| InsufficientEscrowBalance (available required : Z)
| InsufficientEscrowOnHold (on_hold required : Z)
| TransactionNotFoundOrProcessed  (* 'Transaction not found or already processed' *)
| InvalidPaymentSignature         (* failure_reason 'Invalid payment signature' *)
| PaymentVerificationFailed       (* 'Payment verification failed...' *)
| InvalidTokenAmount              (* 'Invalid token amount in transaction' *)
| CreditTokensFailed              (* 'Payment successful but failed to credit tokens...' *)
| CreditEscrowFailed              (* 'Failed to credit escrow...' *)
| WalletNotFoundWebhook           (* 'Wallet not found' (webhook) *)
| BankAccountNotFound             (* 'Bank account not found' *)
| BankAccountNotVerified          (* 'Bank account must be verified for withdrawals' *)
| WalletNotFound                  (* 'Wallet not found' *)
| InsufficientBalance             (* 'Insufficient balance' *)
| TransactionNotFound             (* 'Transaction not found' *)
| NotAWithdrawal                  (* 'Transaction is not a withdrawal' *)
| CannotBeProcessed               (* 'Transaction cannot be processed' *)
| NoBrandLinked                   (* 'No brand linked to this user...' *)
| NoActivePackage                 (* 'No active package found for brand' *)
| AlreadyUnlocked                 (* 'Creator profile is already unlocked' *)
| CreatorNotFound                 (* 'Creator not found' *)
| PackageNotFound                 (* 'Package not found or inactive' *)
| InvalidPackageType              (* 'Invalid package type. Please select a brand package.' *)
| FreePackageNotPurchasable       (* 'This is a free package and cannot be purchased.' *)
| BrandWalletNotSetUp             (* 'Brand wallet not found. Please complete your profile setup.' *)
| InsufficientTokenBalance (required available : Z)
| TypeError                       (* property read on [undefined] *)
| UndefinedBinding                (* knex: 'Undefined binding(s) detected ...' *)
| StorageError.                   (* a statement rejected by the store *)

(** ** Rows *)

(** JSON [metadata] of a brand transaction: the keys the services read back
    ([package_*], [tokens_included], [validity_days]) and the references
    they record.  An absent key is [None]; an unparseable blob reads as
    the empty object. *)
Record Metadata := mkMetadata {
  md_package_id : option Id;
  md_package_name : option string;
  md_package_display_name : option string;
  md_package_type : option string;
  md_tokens_included : option Z;
  md_validity_days : option Z;
  md_razorpay_order_id : option string;
  md_razorpay_payment_id : option string;
  md_processed_via : option string;
  md_campaign_id : option Id;
  md_application_id : option Id;
  md_creator_id : option Id;
  md_brand_id : option Id
}.

Definition empty_metadata : Metadata :=
  mkMetadata None None None None None None None None None None None None None.

Record BrandWallet := mkBrandWallet {
  bw_brand_id : Id;
  bw_user_id : Id;
  token_balance : Z;
  total_tokens_credited : Z;
  total_tokens_debited : Z;
  escrow_balance : Z;
  escrow_on_hold : Z;
  total_escrow_deposited : Z;
  total_escrow_released : Z;
  total_escrow_refunded : Z;
  current_package : string;
  current_package_id : option Id;
  package_activated_at : option Timestamp;
  package_expires_at : option Timestamp;
  bw_last_transaction_at : option Timestamp;
  bw_updated_at : option Timestamp
}.

Record BrandTransaction := mkBrandTransaction {
  bt_id : Id;
  bt_brand_id : Id;
  bt_user_id : Id;
  bt_transaction_type : BrandTransactionType;
  bt_amount : Z;
  bt_currency_type : CurrencyType;
  bt_balance_after : Z;
  bt_reference_type : string;
  bt_reference_id : option Id;
  bt_payment_gateway_id : option string;
  bt_status : Status;
  bt_metadata : Metadata;
  bt_failure_reason : option Error;
  bt_processed_at : option Timestamp
}.

(** Creator wallet ([wallets]). *)
Record Wallet := mkWallet {
  w_user_id : Id;
  balance : Z;
  pending_balance : Z;
  total_earnings : Z;
  total_withdrawals : Z;
  w_last_transaction_at : option Timestamp;
  w_updated_at : option Timestamp
}.

(** Creator ledger row ([transactions]).  [balance_after] is a column that
    releaseEscrow fills and createTransaction does not. *)
Record Transaction := mkTransaction {
  t_id : Id;
  t_user_id : Id;
  t_transaction_type : TransactionType;
  t_amount : Z;
  t_status : Status;
  t_balance_after : option Z;
  t_reference_type : option string;
  t_reference_id : option Id;
  t_payment_method : option string;
  t_bank_account_id : option Id;
  t_external_transaction_id : option string;
  t_failure_reason : option string;
  t_processed_at : option Timestamp;
  t_metadata : Metadata
}.

Record BankAccount := mkBankAccount {
  ba_id : Id;
  ba_user_id : Id;
  bank_name : string;
  account_number : string;
  verification_status : VerificationStatus;
  is_primary : bool;
  ba_is_active : bool
}.

Record Package := mkPackage {
  pk_id : Id;
  user_type : string;
  package_type : option string;
  pk_name : string;
  display_name : string;
  tokens_included : Z;
  price : Z;
  campaign_token_cost : Z;
  report_token_cost : Z;
  validity_days : option Z;
  pk_is_active : bool;
  sort_order : Z
}.

Record Brand := mkBrand { br_id : Id; br_user_id : Id; br_name : string }.

Record User := mkUser { u_id : Id; username : string }.

Record UnlockedCreator := mkUnlockedCreator {
  uc_id : Id;
  uc_brand_id : Id;
  uc_creator_id : Id;
  unlocked_by_user_id : Id;
  uc_transaction_id : Id;
  tokens_spent : Z;
  uc_package_id : Id;
  uc_package_name : string;
  unlocked_at : Timestamp
}.

(** ** The store *)

Record Db := mkDb {
  brand_wallets : list BrandWallet;
  brand_transactions : list BrandTransaction;
  wallets : list Wallet;
  transactions : list Transaction;
  bank_accounts : list BankAccount;
  packages : list Package;
  brands : list Brand;
  ce_users : list User;
  brand_unlocked_creators : list UnlockedCreator;
  next_id : Id   (* the store's id generator *)
}.

Definition set_brand_wallets (v : list BrandWallet) (d : Db) : Db :=
  mkDb v (brand_transactions d) (wallets d) (transactions d) (bank_accounts d)
       (packages d) (brands d) (ce_users d) (brand_unlocked_creators d) (next_id d).

Definition set_brand_transactions (v : list BrandTransaction) (d : Db) : Db :=
  mkDb (brand_wallets d) v (wallets d) (transactions d) (bank_accounts d)
       (packages d) (brands d) (ce_users d) (brand_unlocked_creators d) (next_id d).

Definition set_wallets (v : list Wallet) (d : Db) : Db :=
  mkDb (brand_wallets d) (brand_transactions d) v (transactions d) (bank_accounts d)
       (packages d) (brands d) (ce_users d) (brand_unlocked_creators d) (next_id d).

Definition set_transactions (v : list Transaction) (d : Db) : Db :=
  mkDb (brand_wallets d) (brand_transactions d) (wallets d) v (bank_accounts d)
       (packages d) (brands d) (ce_users d) (brand_unlocked_creators d) (next_id d).

Definition set_brand_unlocked_creators (v : list UnlockedCreator) (d : Db) : Db :=
  mkDb (brand_wallets d) (brand_transactions d) (wallets d) (transactions d)
       (bank_accounts d) (packages d) (brands d) (ce_users d) v (next_id d).

Definition set_next_id (v : Id) (d : Db) : Db :=
  mkDb (brand_wallets d) (brand_transactions d) (wallets d) (transactions d)
       (bank_accounts d) (packages d) (brands d) (ce_users d)
       (brand_unlocked_creators d) v.

(** ** The service monad: store state and thrown errors *)

Inductive result (A : Type) :=
| Ok (a : A)
| Err (e : Error).

Arguments Ok {A} a.
Arguments Err {A} e.

Definition M (A : Type) := Db -> result A * Db.

Definition ret {A} (a : A) : M A := fun d => (Ok a, d).

Definition bind {A B} (m : M A) (k : A -> M B) : M B :=
  fun d => match m d with
           | (Ok a, d') => k a d'
           | (Err e, d') => (Err e, d')
           end.

Definition throw {A} (e : Error) : M A := fun d => (Err e, d).

Definition gets {A} (f : Db -> A) : M A := fun d => (Ok (f d), d).

Definition modify (f : Db -> Db) : M unit := fun d => (Ok tt, f d).

Declare Scope svc_scope.
Delimit Scope svc_scope with svc.
Notation "x <- m ;; k" := (bind m (fun x => k))
  (at level 61, m at next level, right associativity) : svc_scope.
Notation "m ;; k" := (bind m (fun _ => k))
  (at level 61, right associativity) : svc_scope.

(** [const trx = await db.transaction(); try { body; await trx.commit(); }
     catch (e) { await trx.rollback(); throw e; }] *)
Definition with_trx {A} (body : M A) : M A :=
  fun d => match body d with
           | (Ok a, d') => (Ok a, d')
           | (Err e, _) => (Err e, d)
           end.

(** An awaited statement that the store can reject (lost connection, crash,
    failed commit).  The statements of an operation are numbered in program
    order; [fault = Some k] is the run in which the store rejects statement
    [k], [fault = None] the run in which every statement is served. *)
Definition stmt {A} (fault : option nat) (k : nat) (m : M A) : M A :=
  match fault with
  | Some j => if Nat.eqb j k then throw StorageError else m
  | None => m
  end.

(** [try { body } catch (error) { handler(error) }] *)
Definition try_catch {A} (body : M A) (handler : Error -> M A) : M A :=
  fun d => match body d with
           | (Ok a, d') => (Ok a, d')
           | (Err e, d') => handler e d'
           end.

(** ** Query helpers *)

(** [.where(p).update(f)] *)
Definition update_where {R} (p : R -> bool) (f : R -> R) (rows : list R) : list R :=
  map (fun r => if p r then f r else r) rows.

(** the rows [.where(p).update(f).returning('*')] hands back *)
Definition returning {R} (p : R -> bool) (f : R -> R) (rows : list R) : list R :=
  map f (filter p rows).

(** The store draws a fresh id for an inserted row. *)
Definition fresh_id : M Id :=
  fun d => (Ok (next_id d), set_next_id (S (next_id d)) d).

(** JavaScript truthiness defaults: [s || d] on strings, [n || d] on numbers. *)
Definition str_or (o : option string) (d : string) : string :=
  match o with
  | Some s => if String.eqb s EmptyString then d else s
  | None => d
  end.

Definition num_or (n : Z) (d : Z) : Z := if Z.eqb n 0 then d else n.

(** [parseInt(x, 10) || 0] on a metadata key holding an integer or absent. *)
Definition parseInt_or0 (o : option Z) : Z :=
  match o with Some n => n | None => 0%Z end.

Definition opt_string_eqb (o : option string) (s : string) : bool :=
  match o with Some x => String.eqb x s | None => false end.

Local Open Scope string_scope.
Local Open Scope list_scope.
Local Open Scope Z_scope.
Local Open Scope svc_scope.

(** ** Column updates on wallet rows *)

Definition set_token_balance (v : Z) (w : BrandWallet) : BrandWallet :=
  mkBrandWallet (bw_brand_id w) (bw_user_id w) v (total_tokens_credited w)
    (total_tokens_debited w) (escrow_balance w) (escrow_on_hold w)
    (total_escrow_deposited w) (total_escrow_released w) (total_escrow_refunded w)
    (current_package w) (current_package_id w) (package_activated_at w)
    (package_expires_at w) (bw_last_transaction_at w) (bw_updated_at w).

Definition set_total_tokens_credited (v : Z) (w : BrandWallet) : BrandWallet :=
  mkBrandWallet (bw_brand_id w) (bw_user_id w) (token_balance w) v
    (total_tokens_debited w) (escrow_balance w) (escrow_on_hold w)
    (total_escrow_deposited w) (total_escrow_released w) (total_escrow_refunded w)
    (current_package w) (current_package_id w) (package_activated_at w)
    (package_expires_at w) (bw_last_transaction_at w) (bw_updated_at w).

Definition set_total_tokens_debited (v : Z) (w : BrandWallet) : BrandWallet :=
  mkBrandWallet (bw_brand_id w) (bw_user_id w) (token_balance w)
    (total_tokens_credited w) v (escrow_balance w) (escrow_on_hold w)
    (total_escrow_deposited w) (total_escrow_released w) (total_escrow_refunded w)
    (current_package w) (current_package_id w) (package_activated_at w)
    (package_expires_at w) (bw_last_transaction_at w) (bw_updated_at w).

Definition set_escrow_balance (v : Z) (w : BrandWallet) : BrandWallet :=
  mkBrandWallet (bw_brand_id w) (bw_user_id w) (token_balance w)
    (total_tokens_credited w) (total_tokens_debited w) v (escrow_on_hold w)
    (total_escrow_deposited w) (total_escrow_released w) (total_escrow_refunded w)
    (current_package w) (current_package_id w) (package_activated_at w)
    (package_expires_at w) (bw_last_transaction_at w) (bw_updated_at w).

Definition set_escrow_on_hold (v : Z) (w : BrandWallet) : BrandWallet :=
  mkBrandWallet (bw_brand_id w) (bw_user_id w) (token_balance w)
    (total_tokens_credited w) (total_tokens_debited w) (escrow_balance w) v
    (total_escrow_deposited w) (total_escrow_released w) (total_escrow_refunded w)
    (current_package w) (current_package_id w) (package_activated_at w)
    (package_expires_at w) (bw_last_transaction_at w) (bw_updated_at w).

Definition set_total_escrow_deposited (v : Z) (w : BrandWallet) : BrandWallet :=
  mkBrandWallet (bw_brand_id w) (bw_user_id w) (token_balance w)
    (total_tokens_credited w) (total_tokens_debited w) (escrow_balance w)
    (escrow_on_hold w) v (total_escrow_released w) (total_escrow_refunded w)
    (current_package w) (current_package_id w) (package_activated_at w)
    (package_expires_at w) (bw_last_transaction_at w) (bw_updated_at w).

Definition set_total_escrow_released (v : Z) (w : BrandWallet) : BrandWallet :=
  mkBrandWallet (bw_brand_id w) (bw_user_id w) (token_balance w)
    (total_tokens_credited w) (total_tokens_debited w) (escrow_balance w)
    (escrow_on_hold w) (total_escrow_deposited w) v (total_escrow_refunded w)
    (current_package w) (current_package_id w) (package_activated_at w)
    (package_expires_at w) (bw_last_transaction_at w) (bw_updated_at w).

Definition set_total_escrow_refunded (v : Z) (w : BrandWallet) : BrandWallet :=
  mkBrandWallet (bw_brand_id w) (bw_user_id w) (token_balance w)
    (total_tokens_credited w) (total_tokens_debited w) (escrow_balance w)
    (escrow_on_hold w) (total_escrow_deposited w) (total_escrow_released w) v
    (current_package w) (current_package_id w) (package_activated_at w)
    (package_expires_at w) (bw_last_transaction_at w) (bw_updated_at w).

(** [current_package], [current_package_id], [package_activated_at] and
    [package_expires_at] written together (the subscription mapping). *)
Definition set_package_mapping (name : string) (pid : option Id)
    (activated expires : option Timestamp) (w : BrandWallet) : BrandWallet :=
  mkBrandWallet (bw_brand_id w) (bw_user_id w) (token_balance w)
    (total_tokens_credited w) (total_tokens_debited w) (escrow_balance w)
    (escrow_on_hold w) (total_escrow_deposited w) (total_escrow_released w)
    (total_escrow_refunded w) name pid activated expires
    (bw_last_transaction_at w) (bw_updated_at w).

(** [last_transaction_at: new Date(), updated_at: new Date()] *)
Definition touch (now : Timestamp) (w : BrandWallet) : BrandWallet :=
  mkBrandWallet (bw_brand_id w) (bw_user_id w) (token_balance w)
    (total_tokens_credited w) (total_tokens_debited w) (escrow_balance w)
    (escrow_on_hold w) (total_escrow_deposited w) (total_escrow_released w)
    (total_escrow_refunded w) (current_package w) (current_package_id w)
    (package_activated_at w) (package_expires_at w) (Some now) (Some now).

Definition set_balance (v : Z) (w : Wallet) : Wallet :=
  mkWallet (w_user_id w) v (pending_balance w) (total_earnings w)
    (total_withdrawals w) (w_last_transaction_at w) (w_updated_at w).

Definition set_pending_balance (v : Z) (w : Wallet) : Wallet :=
  mkWallet (w_user_id w) (balance w) v (total_earnings w)
    (total_withdrawals w) (w_last_transaction_at w) (w_updated_at w).

Definition set_total_earnings (v : Z) (w : Wallet) : Wallet :=
  mkWallet (w_user_id w) (balance w) (pending_balance w) v
    (total_withdrawals w) (w_last_transaction_at w) (w_updated_at w).

Definition set_total_withdrawals (v : Z) (w : Wallet) : Wallet :=
  mkWallet (w_user_id w) (balance w) (pending_balance w) (total_earnings w)
    v (w_last_transaction_at w) (w_updated_at w).

Definition touch_wallet (now : Timestamp) (w : Wallet) : Wallet :=
  mkWallet (w_user_id w) (balance w) (pending_balance w) (total_earnings w)
    (total_withdrawals w) (Some now) (Some now).

(** ** Row selectors *)

Definition by_brand_id (b : Id) (w : BrandWallet) : bool := Nat.eqb (bw_brand_id w) b.
Definition by_user_id (u : Id) (w : Wallet) : bool := Nat.eqb (w_user_id w) u.
Definition bt_by_id (i : Id) (t : BrandTransaction) : bool := Nat.eqb (bt_id t) i.
Definition t_by_id (i : Id) (t : Transaction) : bool := Nat.eqb (t_id t) i.

(** [db('brand_wallets').where('brand_id', b).first()] *)
Definition brand_wallet_of (b : Id) (d : Db) : option BrandWallet :=
  find (by_brand_id b) (brand_wallets d).

(** [db('wallets').where('user_id', u).first()] *)
Definition wallet_of (u : Id) (d : Db) : option Wallet :=
  find (by_user_id u) (wallets d).

(** [.where('brand_id', b).<update f>.returning('*')] on [brand_wallets] *)
Definition update_brand_wallet (b : Id) (f : BrandWallet -> BrandWallet)
  : M (list BrandWallet) :=
  fun d => (Ok (returning (by_brand_id b) f (brand_wallets d)),
            set_brand_wallets (update_where (by_brand_id b) f (brand_wallets d)) d).

(** [.where('user_id', u).<update f>] on [wallets] *)
Definition update_wallet (u : Id) (f : Wallet -> Wallet) : M unit :=
  modify (fun d => set_wallets (update_where (by_user_id u) f (wallets d)) d).

(** [.where('id', i).update(f)] on [brand_transactions] *)
Definition update_brand_transaction (i : Id)
    (f : BrandTransaction -> BrandTransaction) : M unit :=
  modify (fun d =>
    set_brand_transactions (update_where (bt_by_id i) f (brand_transactions d)) d).

(** [db('brand_transactions').insert(row).returning('*')]: the row is given
    as a function of the generated id. *)
Definition insert_brand_transaction (row : Id -> BrandTransaction)
  : M BrandTransaction :=
  i <- fresh_id ;;
  modify (fun d => set_brand_transactions (brand_transactions d ++ [row i]) d) ;;
  ret (row i).

(** [db('transactions').insert(row).returning('*')] *)
Definition insert_transaction (row : Id -> Transaction) : M Transaction :=
  i <- fresh_id ;;
  modify (fun d => set_transactions (transactions d ++ [row i]) d) ;;
  ret (row i).

(** ** escrowService *)

Record HoldEscrowInput := mkHoldEscrowInput {
  he_brand_id : Id;
  he_user_id : Id;
  he_amount : Z;
  he_campaign_id : Id;
  he_campaign_title : string
}.

Record HoldEscrowResult := mkHoldEscrowResult {
  he_escrow_balance : Z;
  he_escrow_on_hold : Z
}.

Record ReleaseEscrowInput := mkReleaseEscrowInput {
  re_brand_id : Id;
  re_user_id : Id;
  re_amount : Z;
  re_campaign_id : Id;
  re_application_id : Id;
  re_creator_id : Id;
  re_creator_name : option string
}.

Record ReleaseEscrowResult := mkReleaseEscrowResult {
  re_escrow_on_hold : Z;
  re_total_released : Z;
  re_creator_payment_amount : Z
}.

Record RefundEscrowInput := mkRefundEscrowInput {
  rf_brand_id : Id;
  rf_user_id : Id;
  rf_amount : Z;
  rf_campaign_id : Id;
  rf_reason : string
}.

Record RefundEscrowResult := mkRefundEscrowResult {
  rf_escrow_balance : Z;
  rf_escrow_on_hold : Z;
  rf_total_refunded : Z
}.

(** Metadata of the escrow rows: the references they record. *)
Definition escrow_metadata (campaign application creator brand : option Id) : Metadata :=
  mkMetadata None None None None None None None None None
             campaign application creator brand.

(** Hold escrow for a campaign (move from available to on_hold). *)
Definition holdEscrow (now : Timestamp) (input : HoldEscrowInput) : M HoldEscrowResult :=
  let brand_id := he_brand_id input in
  let amount := he_amount input in
  if amount <=? 0 then throw AmountMustBePositive else
  with_trx (
    wallet <- gets (brand_wallet_of brand_id) ;;
    match wallet with
    | None => throw BrandWalletNotFound
    | Some wallet =>
      let currentBalance := escrow_balance wallet in
      if currentBalance <? amount
      then throw (InsufficientEscrowBalance currentBalance amount)
      else
        updated <- update_brand_wallet brand_id (fun w =>
          touch now (set_escrow_on_hold (escrow_on_hold w + amount)
                    (set_escrow_balance (escrow_balance w - amount) w))) ;;
        match updated with
        | [] => throw TypeError
        | updatedWallet :: _ =>
          insert_brand_transaction (fun i =>
            mkBrandTransaction i brand_id (he_user_id input) escrow_hold amount
              escrow (escrow_balance updatedWallet) "campaign"
              (Some (he_campaign_id input)) None completed
              (escrow_metadata (Some (he_campaign_id input)) None None None)
              None (Some now)) ;;
          ret (mkHoldEscrowResult (escrow_balance updatedWallet)
                                  (escrow_on_hold updatedWallet))
        end
    end).

(** Release escrow to creator (pay creator from on_hold).

    The statements sent to the store, in program order:
    0 [db.transaction()], 1 the read of the brand wallet, 2 its update,
    3 the insert of the brand transaction, 4 the read of the creator wallet,
    5 its insert (only when the creator has none), 6 its update, 7 the insert
    of the creator transaction, 8 [trx.commit()].  Statement 0 is awaited
    before the [try]; the others are inside it, so the [catch] rolls the
    transaction back when one of them is rejected. *)
Definition release_statements : nat := 9%nat.

Definition releaseEscrow_under (fault : option nat) (now : Timestamp)
    (input : ReleaseEscrowInput) : M ReleaseEscrowResult :=
  let brand_id := re_brand_id input in
  let amount := re_amount input in
  let creator_id := re_creator_id input in
  if amount <=? 0 then throw AmountMustBePositive else
  stmt fault 0 (ret tt) ;;
  with_trx (
    wallet <- stmt fault 1 (gets (brand_wallet_of brand_id)) ;;
    match wallet with
    | None => throw BrandWalletNotFound
    | Some wallet =>
      let currentOnHold := escrow_on_hold wallet in
      if currentOnHold <? amount
      then throw (InsufficientEscrowOnHold currentOnHold amount)
      else
        updated <- stmt fault 2 (update_brand_wallet brand_id (fun w =>
          touch now (set_total_escrow_released (total_escrow_released w + amount)
                    (set_escrow_on_hold (escrow_on_hold w - amount) w)))) ;;
        match updated with
        | [] => throw TypeError
        | updatedWallet :: _ =>
          (* brand transaction record (escrow release) *)
          stmt fault 3 (insert_brand_transaction (fun i =>
            mkBrandTransaction i brand_id (re_user_id input) escrow_release amount
              escrow (escrow_balance updatedWallet) "application"
              (Some (re_application_id input)) None completed
              (escrow_metadata (Some (re_campaign_id input))
                 (Some (re_application_id input)) (Some creator_id) None)
              None (Some now))) ;;
          (* get or create the creator wallet *)
          existing <- stmt fault 4 (gets (wallet_of creator_id)) ;;
          creatorWallet <-
            match existing with
            | Some cw => ret cw
            | None =>
              let cw := mkWallet creator_id 0 0 0 0 None None in
              stmt fault 5
                (modify (fun d => set_wallets (wallets d ++ [cw]) d) ;;
                 ret cw)
            end ;;
          let newCreatorBalance := balance creatorWallet + amount in
          stmt fault 6 (update_wallet creator_id (fun w =>
            touch_wallet now (set_total_earnings (total_earnings w + amount)
                             (set_balance (balance w + amount) w)))) ;;
          (* creator transaction record *)
          stmt fault 7 (insert_transaction (fun i =>
            mkTransaction i creator_id earning amount completed
              (Some newCreatorBalance) (Some "campaign")
              (Some (re_campaign_id input)) None None None None None
              (escrow_metadata (Some (re_campaign_id input))
                 (Some (re_application_id input)) None (Some brand_id)))) ;;
          stmt fault 8 (ret tt) ;;
          ret (mkReleaseEscrowResult (escrow_on_hold updatedWallet)
                 (total_escrow_released updatedWallet) amount)
        end
    end).

(** The run in which the store serves every statement. *)
Definition releaseEscrow (now : Timestamp) (input : ReleaseEscrowInput)
  : M ReleaseEscrowResult :=
  releaseEscrow_under None now input.

(** Whether statement [k] is sent by a release that goes through on [d]:
    the creator wallet is inserted only when the creator has none, so
    statement 5 is sent in those runs only. *)
Definition release_sends (k : nat) (input : ReleaseEscrowInput) (d : Db) : bool :=
  match wallet_of (re_creator_id input) d with
  | Some _ => negb (Nat.eqb k 5)
  | None => true
  end.

(** Refund escrow (move from on_hold back to available balance). *)
Definition refundEscrow (now : Timestamp) (input : RefundEscrowInput)
  : M RefundEscrowResult :=
  let brand_id := rf_brand_id input in
  let amount := rf_amount input in
  if amount <=? 0 then throw AmountMustBePositive else
  with_trx (
    wallet <- gets (brand_wallet_of brand_id) ;;
    match wallet with
    | None => throw BrandWalletNotFound
    | Some wallet =>
      let currentOnHold := escrow_on_hold wallet in
      if currentOnHold <? amount
      then throw (InsufficientEscrowOnHold currentOnHold amount)
      else
        updated <- update_brand_wallet brand_id (fun w =>
          touch now (set_total_escrow_refunded (total_escrow_refunded w + amount)
                    (set_escrow_balance (escrow_balance w + amount)
                    (set_escrow_on_hold (escrow_on_hold w - amount) w)))) ;;
        match updated with
        | [] => throw TypeError
        | updatedWallet :: _ =>
          insert_brand_transaction (fun i =>
            mkBrandTransaction i brand_id (rf_user_id input) escrow_refund amount
              escrow (escrow_balance updatedWallet) "campaign"
              (Some (rf_campaign_id input)) None completed
              (escrow_metadata (Some (rf_campaign_id input)) None None None)
              None (Some now)) ;;
          ret (mkRefundEscrowResult (escrow_balance updatedWallet)
                 (escrow_on_hold updatedWallet) (total_escrow_refunded updatedWallet))
        end
    end).

Record InitiateEscrowDepositInput := mkInitiateEscrowDepositInput {
  ied_amount : Z;
  ied_brand_id : Id;
  ied_user_id : Id;
  ied_campaign_id : option Id
}.

Record InitiateEscrowDepositResponse := mkInitiateEscrowDepositResponse {
  requires_payment : bool;
  amount_to_pay : Z;
  current_balance : Z;
  ied_order_id : option string;
  ied_transaction_id : option Id
}.

(** Initiate escrow deposit: check whether a payment is needed and record
    the pending transaction for the shortfall.  [razorpayOrderId] is the id
    of the order the payment authority creates for the shortfall. *)
Definition initiateEscrowDeposit (razorpayOrderId : string)
    (input : InitiateEscrowDepositInput) : M InitiateEscrowDepositResponse :=
  let amount := ied_amount input in
  if amount <=? 0 then throw AmountMustBePositive else
  wallet <- gets (brand_wallet_of (ied_brand_id input)) ;;
  match wallet with
  | None => throw BrandWalletNotSetUp
  | Some wallet =>
    let currentBalance := escrow_balance wallet in
    (* enough balance already: no payment needed *)
    if amount <=? currentBalance
    then ret (mkInitiateEscrowDepositResponse false 0 currentBalance None None)
    else
      let amountToPay := amount - currentBalance in
      transaction <- insert_brand_transaction (fun i =>
        mkBrandTransaction i (ied_brand_id input) (ied_user_id input)
          escrow_deposit amountToPay escrow currentBalance
          (match ied_campaign_id input with
           | Some _ => "campaign"
           | None => "direct_deposit"
           end)
          (ied_campaign_id input) (Some razorpayOrderId) pending
          (mkMetadata None None None None None None (Some razorpayOrderId)
             None None None None None None)
          None None) ;;
      ret (mkInitiateEscrowDepositResponse true amountToPay currentBalance
             (Some razorpayOrderId) (Some (bt_id transaction)))
  end.

(** ** Column updates on brand transactions *)

Definition set_md_payment (payment_id : string) (via : option string)
    (m : Metadata) : Metadata :=
  mkMetadata (md_package_id m) (md_package_name m) (md_package_display_name m)
    (md_package_type m) (md_tokens_included m) (md_validity_days m)
    (md_razorpay_order_id m) (Some payment_id)
    (match via with Some v => Some v | None => md_processed_via m end)
    (md_campaign_id m) (md_application_id m) (md_creator_id m) (md_brand_id m).

(** [update({ status: 'completed', balance_after, processed_at,
              metadata: metadata || {razorpay_payment_id, ..} })] *)
Definition bt_complete (newBalance : Z) (now : Timestamp) (payment_id : string)
    (via : option string) (t : BrandTransaction) : BrandTransaction :=
  mkBrandTransaction (bt_id t) (bt_brand_id t) (bt_user_id t)
    (bt_transaction_type t) (bt_amount t) (bt_currency_type t) newBalance
    (bt_reference_type t) (bt_reference_id t) (bt_payment_gateway_id t)
    completed (set_md_payment payment_id via (bt_metadata t))
    (bt_failure_reason t) (Some now).

(** [update({ status: 'failed', failure_reason })]; [payment_id] is the key
    merged into the metadata, when the update merges one. *)
Definition bt_fail (reason : Error) (payment_id : option string)
    (t : BrandTransaction) : BrandTransaction :=
  mkBrandTransaction (bt_id t) (bt_brand_id t) (bt_user_id t)
    (bt_transaction_type t) (bt_amount t) (bt_currency_type t)
    (bt_balance_after t) (bt_reference_type t) (bt_reference_id t)
    (bt_payment_gateway_id t) failed
    (match payment_id with
     | Some p => set_md_payment p None (bt_metadata t)
     | None => bt_metadata t
     end)
    (Some reason) (bt_processed_at t).

(** The pending-transaction lookup of the verify functions:
    [.where('id', i).where('payment_gateway_id', o).where('status', 'pending')] *)
Definition pending_by_id_and_order (i : Id) (order_id : string)
    (t : BrandTransaction) : bool :=
  Nat.eqb (bt_id t) i
  && opt_string_eqb (bt_payment_gateway_id t) order_id
  && status_eqb (bt_status t) pending.

(** The webhook's lookup:
    [.where('payment_gateway_id', o).where('status', 'pending')] *)
Definition pending_by_order (order_id : string) (t : BrandTransaction) : bool :=
  opt_string_eqb (bt_payment_gateway_id t) order_id
  && status_eqb (bt_status t) pending.

Record VerifyInput := mkVerifyInput {
  razorpay_order_id : string;
  razorpay_payment_id : string;
  razorpay_signature : string;
  transaction_id : Id
}.

Record VerifyEscrowDepositResult := mkVerifyEscrowDepositResult {
  ved_new_balance : Z;
  ved_amount_credited : Z;
  ved_transaction_id : Id
}.

Record VerifyRechargeResponse := mkVerifyRechargeResponse {
  vr_transaction_id : Id;
  vr_tokens_credited : Z;
  vr_new_balance : Z;
  vr_package_name : string
}.

(** A payment entity that names its order: [order_id] and [id], strings as
    the gateway sends them. *)
Record PaymentEntity := mkPaymentEntity { pe_order_id : string; pe_id : string }.

(** The [payload] argument of the webhook.  It is typed [any] and comes
    straight from the request body, so it need not be what the gateway
    sends.  The handler tells these shapes apart:
    - [mkWebhookPayload entity]: a value on which [payload.payment?.entity]
      can be read, with [entity] the payment entity, [None] when that read
      gives nothing;
    - [payload_without_order_id id]: the entity is there but its [order_id]
      is [undefined];
    - [payload_null]: [null];
    - [payload_undefined]: the body has no [payload] key. *)
Inductive WebhookPayload :=
| mkWebhookPayload (entity : option PaymentEntity)
| payload_without_order_id (payment_id : string)
| payload_null
| payload_undefined.

(** The payment entity of a payload that carries one with an order id. *)
Definition payment_entity (payload : WebhookPayload) : option PaymentEntity :=
  match payload with
  | mkWebhookPayload entity => entity
  | _ => None
  end.

Inductive WebhookMessage :=
| InvalidSignature          (* 'Invalid signature' *)
| NoPaymentEntity           (* 'No payment entity in payload' *)
| TransactionAlreadyProcessed (* 'Transaction already processed' *)
| PaymentProcessed          (* 'Payment processed successfully' *)
| ProcessingError (e : Error) (* error.message *)
| EventNotHandled.          (* 'Event not handled' *)

Record WebhookResult := mkWebhookResult {
  processed : bool;
  message : WebhookMessage
}.

Definition ms_per_day : Z := 24 * 60 * 60 * 1000.

Section PaymentGateway.

(** The payment authority: [razorpayService.verifyPaymentSignature] (HMAC over
    [order_id|payment_id] with the key secret) and the webhook HMAC over the
    raw payload, keyed by [RAZORPAY_WEBHOOK_SECRET] when one is configured. *)
Variable verifyPaymentSignature : string -> string -> string -> bool.
Variable webhookSecretConfigured : bool.
Variable webhookExpectedSignature : WebhookPayload -> string.

(** Verify escrow deposit payment and credit to wallet. *)
Definition verifyEscrowDeposit (now : Timestamp) (input : VerifyInput)
  : M VerifyEscrowDepositResult :=
  let tid := transaction_id input in
  found <- gets (fun d =>
    find (pending_by_id_and_order tid (razorpay_order_id input))
         (brand_transactions d)) ;;
  match found with
  | None => throw TransactionNotFoundOrProcessed
  | Some transaction =>
    if negb (verifyPaymentSignature (razorpay_order_id input)
               (razorpay_payment_id input) (razorpay_signature input))
    then
      update_brand_transaction tid (bt_fail InvalidPaymentSignature None) ;;
      throw PaymentVerificationFailed
    else
      let amountToCredit := bt_amount transaction in
      try_catch
        (with_trx (
           updated <- update_brand_wallet (bt_brand_id transaction) (fun w =>
             touch now
               (set_total_escrow_deposited (total_escrow_deposited w + amountToCredit)
               (set_escrow_balance (escrow_balance w + amountToCredit) w))) ;;
           match updated with
           | [] => throw TypeError
           | wallet :: _ =>
             let newBalance := escrow_balance wallet in
             update_brand_transaction tid
               (bt_complete newBalance now (razorpay_payment_id input) None) ;;
             ret (mkVerifyEscrowDepositResult newBalance amountToCredit tid)
           end))
        (fun error =>
           update_brand_transaction tid (bt_fail error None) ;;
           throw CreditEscrowFailed)
  end.

(** The wallet update built by verifyRecharge:
    tokens are always credited; the package mapping is written only for
    subscription packages. *)
Definition walletUpdate (now : Timestamp) (newBalance tokensToCredit : Z)
    (packageType packageName : string) (packageId : option Id)
    (validityDays : option Z) (w : BrandWallet) : BrandWallet :=
  let credited :=
    touch now (set_total_tokens_credited (total_tokens_credited w + tokensToCredit)
              (set_token_balance newBalance w)) in
  if String.eqb packageType "subscription"
  then set_package_mapping packageName packageId (Some now)
         (match validityDays with
          | Some days => if days =? 0 then None else Some (now + days * ms_per_day)
          | None => None
          end)
         credited
  else credited.

(** Verify payment and credit tokens. *)
Definition verifyRecharge (now : Timestamp) (input : VerifyInput)
  : M VerifyRechargeResponse :=
  let tid := transaction_id input in
  (* Step 1: find the pending transaction *)
  found <- gets (fun d =>
    find (pending_by_id_and_order tid (razorpay_order_id input))
         (brand_transactions d)) ;;
  match found with
  | None => throw TransactionNotFoundOrProcessed
  | Some transaction =>
    (* Step 2: verify the signature *)
    if negb (verifyPaymentSignature (razorpay_order_id input)
               (razorpay_payment_id input) (razorpay_signature input))
    then
      update_brand_transaction tid
        (bt_fail InvalidPaymentSignature (Some (razorpay_payment_id input))) ;;
      throw PaymentVerificationFailed
    else
      (* Step 3: package details from the metadata *)
      let metadata := bt_metadata transaction in
      let tokensToCredit := parseInt_or0 (md_tokens_included metadata) in
      let packageId := md_package_id metadata in
      let packageName := str_or (md_package_name metadata) "unknown" in
      let packageDisplayName := str_or (md_package_display_name metadata) packageName in
      let packageType := str_or (md_package_type metadata) "subscription" in
      let validityDays := md_validity_days metadata in
      if tokensToCredit <=? 0 then throw InvalidTokenAmount else
      (* Step 4: credit tokens inside a database transaction *)
      try_catch
        (with_trx (
           wallet <- gets (brand_wallet_of (bt_brand_id transaction)) ;;
           match wallet with
           | None => throw BrandWalletNotFound
           | Some wallet =>
             let currentBalance := token_balance wallet in
             let newBalance := currentBalance + tokensToCredit in
             update_brand_wallet (bt_brand_id transaction)
               (walletUpdate now newBalance tokensToCredit packageType
                  packageName packageId validityDays) ;;
             update_brand_transaction tid
               (bt_complete newBalance now (razorpay_payment_id input) None) ;;
             ret (mkVerifyRechargeResponse tid tokensToCredit newBalance
                    packageDisplayName)
           end))
        (fun error =>
           update_brand_transaction tid
             (bt_fail error (Some (razorpay_payment_id input))) ;;
           throw CreditTokensFailed)
  end.

(** Handle the gateway webhook for the [payment.captured] event.  The
    signature check and the lookup of the pending transaction come before
    the [try]: what throws there reaches the caller.
    [crypto.update(JSON.stringify(undefined))] throws a [TypeError], as does
    the read of [payload.payment] on [null] or [undefined]; the lookup
    [.where('payment_gateway_id', undefined)] is refused by the query
    builder. *)
Definition handleWebhook (now : Timestamp) (event : string)
    (payload : WebhookPayload) (signature : string) : M WebhookResult :=
  (* verify the webhook signature *)
  invalid <-
    (if webhookSecretConfigured then
       match payload with
       | payload_undefined => throw TypeError
       | _ => ret (negb (String.eqb signature (webhookExpectedSignature payload)))
       end
     else ret false) ;;
  if invalid then ret (mkWebhookResult false InvalidSignature)
  else if String.eqb event "payment.captured" then
    match payload with
    | payload_undefined | payload_null => throw TypeError
    | payload_without_order_id _ => throw UndefinedBinding
    | mkWebhookPayload None => ret (mkWebhookResult false NoPaymentEntity)
    | mkWebhookPayload (Some payment) =>
      let orderId := pe_order_id payment in
      let paymentId := pe_id payment in
      found <- gets (fun d =>
        find (pending_by_order orderId) (brand_transactions d)) ;;
      match found with
      | None => ret (mkWebhookResult false TransactionAlreadyProcessed)
      | Some transaction =>
        try_catch
          (let metadata := bt_metadata transaction in
           let tokensToCredit := parseInt_or0 (md_tokens_included metadata) in
           let packageName := str_or (md_package_name metadata) "unknown" in
           with_trx (
             wallet <- gets (brand_wallet_of (bt_brand_id transaction)) ;;
             match wallet with
             | None => throw WalletNotFoundWebhook
             | Some wallet =>
               let currentBalance := token_balance wallet in
               let newBalance := currentBalance + tokensToCredit in
               update_brand_wallet (bt_brand_id transaction) (fun w =>
                 touch now
                   (set_package_mapping packageName (current_package_id w)
                      (Some now) (package_expires_at w)
                   (set_total_tokens_credited
                      (total_tokens_credited w + tokensToCredit)
                   (set_token_balance newBalance w)))) ;;
               update_brand_transaction (bt_id transaction)
                 (bt_complete newBalance now paymentId (Some "webhook")) ;;
               ret (mkWebhookResult true PaymentProcessed)
             end))
          (fun error => ret (mkWebhookResult false (ProcessingError error)))
      end
    end
  else ret (mkWebhookResult false EventNotHandled).

End PaymentGateway.

(** ** transactionService *)

(** A string option that JavaScript treats as present: [data?.key] truthy. *)
Definition truthy (o : option string) : option string :=
  match o with
  | Some s => if String.eqb s EmptyString then None else Some s
  | None => None
  end.

(** Create a transaction: the row is inserted with [status: 'pending'] and
    without a [balance_after]. *)
Definition createTransaction (user_id : Id) (transaction_type : TransactionType)
    (amount : Z) (reference_id : option Id) (reference_type : option string)
    (payment_method : option string) (bank_account_id : option Id)
    (external_transaction_id : option string) : M Transaction :=
  insert_transaction (fun i =>
    mkTransaction i user_id transaction_type amount pending None
      reference_type reference_id payment_method bank_account_id
      external_transaction_id None None empty_metadata).

(** Get transaction by id. *)
Definition getTransactionById (transactionId : Id) : M (option Transaction) :=
  gets (fun d => find (t_by_id transactionId) (transactions d)).

(** The [updates] object of updateTransactionStatus applied to a row. *)
Definition apply_status_updates (now : Timestamp) (status : Status)
    (external_transaction_id failure_reason : option string)
    (t : Transaction) : Transaction :=
  mkTransaction (t_id t) (t_user_id t) (t_transaction_type t) (t_amount t)
    status (t_balance_after t) (t_reference_type t) (t_reference_id t)
    (t_payment_method t) (t_bank_account_id t)
    (match truthy external_transaction_id with
     | Some e => Some e
     | None => t_external_transaction_id t
     end)
    (match truthy failure_reason with
     | Some r => Some r
     | None => t_failure_reason t
     end)
    (if status_eqb status completed then Some now else t_processed_at t)
    (t_metadata t).

(** Update transaction status. *)
Definition updateTransactionStatus (now : Timestamp) (transactionId : Id)
    (status : Status) (external_transaction_id failure_reason : option string)
  : M (option Transaction) :=
  let updates := apply_status_updates now status external_transaction_id
                   failure_reason in
  fun d =>
    (Ok (hd_error (returning (t_by_id transactionId) updates (transactions d))),
     set_transactions (update_where (t_by_id transactionId) updates (transactions d)) d).

(** Request withdrawal. *)
Definition requestWithdrawal (now : Timestamp) (userId : Id) (amount : Z)
    (bankAccountId : Id) : M Transaction :=
  (* the bank account must belong to the user and be verified *)
  bankAccount <- gets (fun d =>
    find (fun a => Nat.eqb (ba_id a) bankAccountId && Nat.eqb (ba_user_id a) userId)
         (bank_accounts d)) ;;
  match bankAccount with
  | None => throw BankAccountNotFound
  | Some bankAccount =>
    if negb (is_verified (verification_status bankAccount))
    then throw BankAccountNotVerified
    else
      (* check the wallet balance *)
      wallet <- gets (wallet_of userId) ;;
      match wallet with
      | None => throw WalletNotFound
      | Some wallet =>
        if balance wallet <? amount then throw InsufficientBalance else
        (* create the withdrawal transaction *)
        transaction <- createTransaction userId withdrawal (- amount) None None
                         (Some "bank_transfer") (Some bankAccountId) None ;;
        (* update the wallet's pending balance *)
        update_wallet userId (fun w =>
          touch_wallet now (set_pending_balance (pending_balance w + amount)
                           (set_balance (balance w - amount) w))) ;;
        ret transaction
      end
  end.

(** Process withdrawal (admin/system). *)
Definition processWithdrawal (now : Timestamp) (transactionId : Id) (success : bool)
    (externalTransactionId failureReason : option string)
  : M (option Transaction) :=
  found <- gets (fun d => find (t_by_id transactionId) (transactions d)) ;;
  match found with
  | None => throw TransactionNotFound
  | Some transaction =>
    if negb (is_withdrawal (t_transaction_type transaction))
    then throw NotAWithdrawal
    else if negb (status_eqb (t_status transaction) pending)
            && negb (status_eqb (t_status transaction) processing)
    then throw CannotBeProcessed
    else
      let amount := Z.abs (t_amount transaction) in
      (if success then
         updateTransactionStatus now transactionId completed
           externalTransactionId None ;;
         update_wallet (t_user_id transaction) (fun w =>
           touch_wallet now
             (set_total_withdrawals (total_withdrawals w + amount)
             (set_pending_balance (pending_balance w - amount) w)))
       else
         updateTransactionStatus now transactionId failed None failureReason ;;
         update_wallet (t_user_id transaction) (fun w =>
           touch_wallet now
             (set_pending_balance (pending_balance w - amount)
             (set_balance (balance w + amount) w)))) ;;
      getTransactionById transactionId
  end.

(** ** The withdrawal route *)

(** The minimum withdrawal the API declares: the route's validator
    [body('amount').isFloat({ min: 100 })] and the API documentation
    ("Minimum withdrawal amount is 100"). *)
Definition minimumWithdrawal : Z := 100.

(** What the validation chain of [POST /withdrawals],
    [body('amount').isFloat({ min: 100 })], finds for an amount. *)
Definition amount_validation_passes (amount : Z) : bool :=
  minimumWithdrawal <=? amount.

(** [POST /withdrawals].  The validation chain records its findings on the
    request; the handler never reads them (there is no
    [validationResult(req)] in the routes), takes [amount] and
    [bank_account_id] from the body and calls the service: [201] with the
    transaction, [400] with the message of a thrown error. *)
Definition post_withdrawals (now : Timestamp) (userId : Id) (amount : Z)
    (bank_account_id : Id) : Db -> (nat * result Transaction) * Db :=
  fun d =>
    let findings := amount_validation_passes amount in
    match requestWithdrawal now userId amount bank_account_id d with
    | (Ok transaction, d') => ((201%nat, Ok transaction), d')
    | (Err e, d') => ((400%nat, Err e), d')
    end.

(** ** brandWalletService *)

(** [Math.ceil(a / b)] for a positive [b]. *)
Definition ceil_div (a b : Z) : Z := - ((- a) / b).

(** Calculate package days remaining at time [now]. *)
Definition calculatePackageDaysRemaining (now : Timestamp)
    (expiresAt : option Timestamp) : option Z :=
  match expiresAt with
  | None => None
  | Some expiry =>
    let diffTime := expiry - now in
    let diffDays := ceil_div diffTime ms_per_day in
    Some (if 0 <? diffDays then diffDays else 0)
  end.

(** The [stats] block of a wallet response. *)
Record BrandWalletStats := mkBrandWalletStats {
  st_token_balance : Z;
  st_escrow_balance : Z;
  st_escrow_on_hold : Z;
  available_escrow : Z;
  total_tokens_used : Z;
  package_days_remaining : option Z;
  is_package_expired : bool
}.

Record BrandWalletResponse := mkBrandWalletResponse {
  wallet : BrandWallet;
  package : option Package;
  stats : BrandWalletStats
}.

(** "Calculate stats": the stats of a wallet row read at time [now].  The
    days remaining and the expiry flag come from the clock, so the same row
    gives other stats at another time. *)
Definition brand_wallet_stats (now : Timestamp) (w : BrandWallet)
  : BrandWalletStats :=
  let daysRemaining := calculatePackageDaysRemaining now (package_expires_at w) in
  let isExpired :=
    match daysRemaining with
    | Some days => days <=? 0
    | None => false
    end in
  mkBrandWalletStats (token_balance w) (escrow_balance w) (escrow_on_hold w)
    (escrow_balance w - escrow_on_hold w) (total_tokens_debited w)
    daysRemaining isExpired.

(** Get brand by user_id. *)
Definition getBrandByUserId (userId : Id) : M (option Brand) :=
  gets (fun d => find (fun b => Nat.eqb (br_user_id b) userId) (brands d)).

(** [.orderBy('sort_order', 'asc').first()]: the first row of least
    [sort_order]. *)
Fixpoint first_by_sort_order (rows : list Package) : option Package :=
  match rows with
  | [] => None
  | p :: rest =>
    match first_by_sort_order rest with
    | Some q => if sort_order q <? sort_order p then Some q else Some p
    | None => Some p
    end
  end.

(** Get free package for brands (price = 0). *)
Definition getFreeBrandPackage : M (option Package) :=
  gets (fun d =>
    first_by_sort_order
      (filter (fun p => String.eqb (user_type p) "brand"
                        && (price p =? 0) && pk_is_active p)
              (packages d))).

(** Get package by name and user type. *)
Definition getPackageByName (userType name : string) : M (option Package) :=
  gets (fun d =>
    find (fun p => String.eqb (user_type p) userType
                   && String.eqb (pk_name p) name && pk_is_active p)
         (packages d)).

(** A validity in days that JavaScript treats as present. *)
Definition truthy_days (o : option Z) : option Z :=
  match o with
  | Some n => if n =? 0 then None else Some n
  | None => None
  end.

(** Get or create the brand wallet for a user.  The handler for a
    unique-constraint violation on the insert needs a concurrent insert of
    the same wallet and has no sequential run. *)
Definition getOrCreateBrandWallet (now : Timestamp) (userId : Id)
  : M BrandWalletResponse :=
  (* Step 1: brand linked to this user *)
  brand <- getBrandByUserId userId ;;
  match brand with
  | None => throw NoBrandLinked
  | Some brand =>
    let brandId := br_id brand in
    (* Step 2: check if the wallet exists *)
    existing <- gets (brand_wallet_of brandId) ;;
    wallet <-
      match existing with
      | Some w => ret w
      | None =>
        (* Step 3: create one with the free package *)
        freePackage <- getFreeBrandPackage ;;
        let packageExpiresAt :=
          match freePackage with
          | Some fp =>
            match truthy_days (validity_days fp) with
            | Some days => Some (now + days * ms_per_day)
            | None => None
            end
          | None => None
          end in
        with_trx (
          let newWallet :=
            match freePackage with
            | Some fp =>
              mkBrandWallet brandId userId (tokens_included fp) (tokens_included fp)
                0 0 0 0 0 0 (pk_name fp) None (Some now) packageExpiresAt
                (Some now) None
            | None =>
              mkBrandWallet brandId userId 0 0 0 0 0 0 0 0 "none" None None
                packageExpiresAt None None
            end in
          modify (fun d => set_brand_wallets (brand_wallets d ++ [newWallet]) d) ;;
          match freePackage with
          | Some fp =>
            if 0 <? tokens_included fp then
              insert_brand_transaction (fun i =>
                mkBrandTransaction i brandId userId token_credit
                  (tokens_included fp) token (tokens_included fp) "package"
                  (Some (pk_id fp)) None completed
                  (mkMetadata None (Some (pk_name fp)) (Some (display_name fp))
                     None (Some (tokens_included fp)) None None None None
                     None None None None)
                  None (Some now)) ;;
              ret newWallet
            else ret newWallet
          | None => ret newWallet
          end)
      end ;;
    (* Step 4: current package details *)
    pkg <-
      (if String.eqb (current_package wallet) EmptyString
          || String.eqb (current_package wallet) "none"
       then ret None
       else getPackageByName "brand" (current_package wallet)) ;;
    (* Step 5: stats *)
    ret (mkBrandWalletResponse wallet pkg (brand_wallet_stats now wallet))
  end.

(** ** creatorUnlockService *)

Record UnlockCreatorInput := mkUnlockCreatorInput {
  brand_user_id : Id;
  creator_id : Id
}.

Record UnlockCreatorResult := mkUnlockCreatorResult {
  unlock_id : Id;
  ur_creator_id : Id;
  ur_tokens_spent : Z;
  remaining_token_balance : Z;
  ur_unlocked_at : Timestamp
}.

(** Unlock a creator profile for a brand: deducts [report_token_cost] tokens
    of the brand's active package.  [getOrCreateBrandWallet] runs on the
    plain connection, so what it writes is outside the rolled-back scope. *)
Definition unlockCreator (now : Timestamp) (input : UnlockCreatorInput)
  : M UnlockCreatorResult :=
  let creator := creator_id input in
  (* 1. brand wallet and package info *)
  walletData <- getOrCreateBrandWallet now (brand_user_id input) ;;
  with_trx (
    let brandId := bw_brand_id (wallet walletData) in
    let tokenBalance := token_balance (wallet walletData) in
    match package walletData with
    | None => throw NoActivePackage
    | Some pkg =>
      let reportTokenCost := num_or (report_token_cost pkg) 5 in
      (* 2. already unlocked? *)
      alreadyUnlocked <- gets (fun d =>
        find (fun u => Nat.eqb (uc_brand_id u) brandId
                       && Nat.eqb (uc_creator_id u) creator)
             (brand_unlocked_creators d)) ;;
      match alreadyUnlocked with
      | Some _ => throw AlreadyUnlocked
      | None =>
        (* 3. does the creator exist? *)
        found <- gets (fun d =>
          find (fun u => Nat.eqb (u_id u) creator) (ce_users d)) ;;
        match found with
        | None => throw CreatorNotFound
        | Some _ =>
          (* 4. enough tokens? *)
          if tokenBalance <? reportTokenCost
          then throw (InsufficientTokenBalance reportTokenCost tokenBalance)
          else
            (* 5. deduct tokens from the brand wallet *)
            let newTokenBalance := tokenBalance - reportTokenCost in
            update_brand_wallet brandId (fun w =>
              touch now
                (set_total_tokens_debited (total_tokens_debited w + reportTokenCost)
                (set_token_balance newTokenBalance w))) ;;
            (* 6. transaction record *)
            transaction <- insert_brand_transaction (fun i =>
              mkBrandTransaction i brandId (brand_user_id input) creator_unlock
                reportTokenCost token newTokenBalance "creator_unlock"
                (Some creator) None completed
                (mkMetadata (Some (pk_id pkg)) (Some (pk_name pkg)) None None
                   None None None None None None None (Some creator) None)
                None (Some now)) ;;
            (* 7. unlock record *)
            unlock <- fresh_id ;;
            modify (fun d =>
              set_brand_unlocked_creators
                (brand_unlocked_creators d ++
                 [mkUnlockedCreator unlock brandId creator (brand_user_id input)
                    (bt_id transaction) reportTokenCost (pk_id pkg) (pk_name pkg)
                    now]) d) ;;
            ret (mkUnlockCreatorResult unlock creator reportTokenCost
                   newTokenBalance now)
        end
      end
    end).

(** ** brandRechargeService: initiation *)

(** Get brand wallet by brand id (without auto-creation). *)
Definition getBrandWalletByBrandId (now : Timestamp) (brandId : Id)
  : M (option BrandWalletResponse) :=
  found <- gets (brand_wallet_of brandId) ;;
  match found with
  | None => ret None
  | Some w =>
    pkg <-
      (if String.eqb (current_package w) EmptyString
          || String.eqb (current_package w) "none"
       then ret None
       else getPackageByName "brand" (current_package w)) ;;
    ret (Some (mkBrandWalletResponse w pkg (brand_wallet_stats now w)))
  end.

Record InitiateRechargeInput := mkInitiateRechargeInput {
  ir_package_id : Id;
  ir_brand_id : Id;
  ir_user_id : Id
}.

Record InitiateRechargeResponse := mkInitiateRechargeResponse {
  ir_order_id : string;
  ir_amount : Z;             (* in paise *)
  ir_transaction_id : Id;
  ir_tokens_included : Z
}.

(** Initiate wallet recharge.  [razorpayOrderId] is the id of the order the
    payment authority creates for the package price; [now] is the time at
    which the wallet is read. *)
Definition initiateRecharge (now : Timestamp) (razorpayOrderId : string)
    (input : InitiateRechargeInput) : M InitiateRechargeResponse :=
  (* Step 1: validate the package *)
  pkg <- gets (fun d =>
    find (fun p => Nat.eqb (pk_id p) (ir_package_id input) && pk_is_active p)
         (packages d)) ;;
  match pkg with
  | None => throw PackageNotFound
  | Some pkg =>
    if negb (String.eqb (user_type pkg) "brand") then throw InvalidPackageType
    else if price pkg <=? 0 then throw FreePackageNotPurchasable
    else
      (* Step 2: the brand wallet must exist *)
      walletData <- getBrandWalletByBrandId now (ir_brand_id input) ;;
      match walletData with
      | None => throw BrandWalletNotSetUp
      | Some walletData =>
        (* Step 6: pending transaction keyed by the order id *)
        let tokensIncluded := tokens_included pkg in
        transaction <- insert_brand_transaction (fun i =>
          mkBrandTransaction i (ir_brand_id input) (ir_user_id input)
            token_credit (price pkg) token
            (token_balance (wallet walletData)) "package" (Some (pk_id pkg))
            (Some razorpayOrderId) pending
            (mkMetadata (Some (pk_id pkg)) (Some (pk_name pkg))
               (Some (display_name pkg))
               (Some (str_or (package_type pkg) "subscription"))
               (Some tokensIncluded) (validity_days pkg)
               (Some razorpayOrderId) None None None None None None)
            None None) ;;
        ret (mkInitiateRechargeResponse razorpayOrderId (price pkg * 100)
               (bt_id transaction) tokensIncluded)
      end
  end.

(** ** Observations on the store *)

(** The state a computation leaves behind, whatever its outcome. *)
Definition exec {A} (m : M A) (d : Db) : Db := snd (m d).

(** A creator's spendable balance and lifetime earnings; a creator without a
    wallet row has none. *)
Definition creator_balance (u : Id) (d : Db) : Z :=
  match wallet_of u d with Some w => balance w | None => 0 end.

Definition creator_total_earnings (u : Id) (d : Db) : Z :=
  match wallet_of u d with Some w => total_earnings w | None => 0 end.

(** One hold of [amount] for a campaign followed by the refund of the same
    amount for that campaign. *)
Definition hold_then_refund (now : Timestamp) (brand user campaign : Id)
    (title reason : string) (amount : Z) (d : Db) : Db :=
  exec (refundEscrow now (mkRefundEscrowInput brand user amount campaign reason))
       (exec (holdEscrow now (mkHoldEscrowInput brand user amount campaign title)) d).

(** Ids handed out so far are below the generator: every creator
    transaction row was inserted through it. *)
Definition transaction_ids_fresh (d : Db) : bool :=
  forallb (fun t => Nat.ltb (t_id t) (next_id d)) (transactions d).

(** *** What a release does, as the ledger sees it

    With [w] the brand's wallet row before: the on-hold amount goes down and
    the released total up by [amount], the creator's balance and earnings go
    up by [amount], and exactly one completed row is appended to each ledger,
    each carrying [amount] and the reference to the other side. *)
Definition release_effect (now : Timestamp) (input : ReleaseEscrowInput)
    (d : Db) (w : BrandWallet) : Prop :=
  let amount := re_amount input in
  exists r d' w' cw' bt ct,
    releaseEscrow now input d = (Ok r, d')
    /\ brand_wallet_of (re_brand_id input) d' = Some w'
    /\ escrow_on_hold w' = escrow_on_hold w - amount
    /\ total_escrow_released w' = total_escrow_released w + amount
    /\ escrow_balance w' = escrow_balance w
    /\ wallet_of (re_creator_id input) d' = Some cw'
    /\ balance cw' = creator_balance (re_creator_id input) d + amount
    /\ total_earnings cw' = creator_total_earnings (re_creator_id input) d + amount
    /\ brand_transactions d' = brand_transactions d ++ [bt]
    /\ transactions d' = transactions d ++ [ct]
    /\ bt_brand_id bt = re_brand_id input /\ bt_amount bt = amount
    /\ bt_transaction_type bt = escrow_release /\ bt_status bt = completed
    /\ md_creator_id (bt_metadata bt) = Some (re_creator_id input)
    /\ t_user_id ct = re_creator_id input /\ t_amount ct = amount
    /\ t_transaction_type ct = earning /\ t_status ct = completed
    /\ md_brand_id (t_metadata ct) = Some (re_brand_id input).

(** The row requestWithdrawal inserts when the store hands out id [i]. *)
Definition withdrawal_row (i userId : Id) (amount : Z) (bankAccountId : Id)
  : Transaction :=
  mkTransaction i userId withdrawal (- amount) pending None None None
    (Some "bank_transfer") (Some bankAccountId) None None None empty_metadata.

(** The wallet writes of processWithdrawal for a reserved [amount]. *)
Definition settle_wallet (now : Timestamp) (success : bool) (amount : Z) (w : Wallet)
  : Wallet :=
  if success
  then touch_wallet now (set_total_withdrawals (total_withdrawals w + amount)
                        (set_pending_balance (pending_balance w - amount) w))
  else touch_wallet now (set_pending_balance (pending_balance w - amount)
                        (set_balance (balance w + amount) w)).

(** The second unlock of a pair reported as a success. *)
Definition unlock_again_succeeds (now now' : Timestamp) (input : UnlockCreatorInput)
    (d : Db) : Prop :=
  forall r d1,
    unlockCreator now input d = (Ok r, d1) ->
    exists r' d2, unlockCreator now' input d1 = (Ok r', d2).

(** ** A sample store

    One brand (id 1, owned by user 10) on the "pro" subscription, one creator
    (user 20) with a verified bank account (id 30), and a catalogue with a
    subscription, a top-up and a priced package that carries no tokens. *)

Definition pro_package : Package :=
  mkPackage 100 "brand" (Some "subscription") "pro" "Pro" 50 4999 10 5 (Some 30)
            true 1.

Definition booster_package : Package :=
  mkPackage 101 "brand" (Some "topup") "booster" "Booster" 25 999 10 5 None true 2.

Definition audit_package : Package :=
  mkPackage 102 "brand" (Some "subscription") "audit" "Audit seat" 0 1999 10 5
            (Some 30) true 3.

Definition sample_brand_wallet : BrandWallet :=
  mkBrandWallet 1 10 20 20 0 1000 500 1500 0 0 "pro" (Some 100%nat) (Some 5) (Some 99)
                None None.

Definition sample_wallet : Wallet := mkWallet 20 10000 0 10000 0 None None.

Definition sample_db : Db :=
  mkDb [sample_brand_wallet] [] [sample_wallet] []
       [mkBankAccount 30 20 "HDFC Bank" "000123456" vs_verified true true]
       [pro_package; booster_package; audit_package]
       [mkBrand 1 10 "Acme"] [mkUser 20 "creator"] [] 1000.

(** A payment authority whose only valid signature is ["sig_ok"], and a
    webhook secret under which the payload signs as ["hmac_ok"]. *)
Definition sample_verifyPaymentSignature (order payment signature : string) : bool :=
  String.eqb signature "sig_ok".

Definition sample_webhookExpectedSignature (p : WebhookPayload) : string := "hmac_ok".

(** The sample store after a recharge was initiated for package [pkg] under
    gateway order [order]; the pending transaction gets id 1000. *)
Definition sample_db_initiated (order : string) (pkg : Id) : Db :=
  exec (initiateRecharge 6 order (mkInitiateRechargeInput pkg 1 10)) sample_db.

(** The sample store after an escrow deposit towards a total of [amount] was
    initiated under gateway order [order]. *)
Definition sample_db_deposit (order : string) (amount : Z) : Db :=
  exec (initiateEscrowDeposit order (mkInitiateEscrowDepositInput amount 1 10 None))
       sample_db.

Definition sample_verify (order : string) : VerifyInput :=
  mkVerifyInput order "pay_1" "sig_ok" 1000.

Definition sample_release (amount : Z) : ReleaseEscrowInput :=
  mkReleaseEscrowInput 1 10 amount 7 8 20 (Some "creator").

Definition sample_unlock : UnlockCreatorInput := mkUnlockCreatorInput 10 20.

(** The escrow pair of every brand wallet the services can look up is
    non-negative. *)
Definition escrow_nonneg (d : Db) : Prop :=
  forall b w, brand_wallet_of b d = Some w ->
              0 <= escrow_balance w /\ 0 <= escrow_on_hold w.


(** * Further services *)

(** ** bankAccountService

    A bank-account row keeps the columns the services read back (owner, bank
    name, account number, verification status, primary and active flags).
    Holder name, IFSC code, branch, account type, PAN and cheque references,
    verification notes and [verified_at] are stored and never read by a
    service; they are not part of the row. *)

Definition set_bank_accounts (v : list BankAccount) (d : Db) : Db :=
  mkDb (brand_wallets d) (brand_transactions d) (wallets d) (transactions d) v
       (packages d) (brands d) (ce_users d) (brand_unlocked_creators d) (next_id d).

Definition set_is_primary (v : bool) (a : BankAccount) : BankAccount :=
  mkBankAccount (ba_id a) (ba_user_id a) (bank_name a) (account_number a)
    (verification_status a) v (ba_is_active a).

Definition set_is_active (v : bool) (a : BankAccount) : BankAccount :=
  mkBankAccount (ba_id a) (ba_user_id a) (bank_name a) (account_number a)
    (verification_status a) (is_primary a) v.

Definition set_verification_status (v : VerificationStatus) (a : BankAccount)
  : BankAccount :=
  mkBankAccount (ba_id a) (ba_user_id a) (bank_name a) (account_number a)
    v (is_primary a) (ba_is_active a).

Definition ba_by_id (i : Id) (a : BankAccount) : bool := Nat.eqb (ba_id a) i.
Definition ba_by_user (u : Id) (a : BankAccount) : bool := Nat.eqb (ba_user_id a) u.

(** [.where('user_id', u).where('is_active', true)] *)
Definition active_of (u : Id) (a : BankAccount) : bool :=
  Nat.eqb (ba_user_id a) u && ba_is_active a.

(** [.where('id', i).where('user_id', u)] *)
Definition owned_account (i u : Id) (a : BankAccount) : bool :=
  Nat.eqb (ba_id a) i && Nat.eqb (ba_user_id a) u.

(** [.where(p).update(f)] on [bank_accounts] *)
Definition update_bank_accounts (p : BankAccount -> bool)
    (f : BankAccount -> BankAccount) : M unit :=
  modify (fun d => set_bank_accounts (update_where p f (bank_accounts d)) d).

(** Add a bank account: primary when the user has no active account yet. *)
Definition addBankAccount (userId : Id) (bankName accountNumber : string)
  : M BankAccount :=
  existingAccounts <- gets (fun d =>
    List.length (filter (active_of userId) (bank_accounts d))) ;;
  let isPrimary := Nat.eqb existingAccounts 0 in
  i <- fresh_id ;;
  let account :=
    mkBankAccount i userId bankName accountNumber vs_pending isPrimary true in
  modify (fun d => set_bank_accounts (bank_accounts d ++ [account]) d) ;;
  ret account.

(** Get the user's bank accounts: the active ones, primary first, then
    newest first.  [created_at] is the insertion time, so newest first is the
    reverse of the table order. *)
Definition getBankAccounts (userId : Id) : M (list BankAccount) :=
  gets (fun d =>
    let newest_first := rev (filter (active_of userId) (bank_accounts d)) in
    filter is_primary newest_first
    ++ filter (fun a => negb (is_primary a)) newest_first).

(** Get bank account by id. *)
Definition getBankAccountById (accountId : Id) : M (option BankAccount) :=
  gets (fun d => find (ba_by_id accountId) (bank_accounts d)).

(** Set primary bank account. *)
Definition setPrimaryAccount (userId accountId : Id) : M unit :=
  account <- gets (fun d => find (owned_account accountId userId) (bank_accounts d)) ;;
  match account with
  | None => throw BankAccountNotFound
  | Some _ =>
    (* remove primary from all accounts of the user *)
    update_bank_accounts (ba_by_user userId) (set_is_primary false) ;;
    (* set the new primary *)
    update_bank_accounts (ba_by_id accountId) (set_is_primary true)
  end.

(** Delete (deactivate) bank account. *)
Definition deleteBankAccount (userId accountId : Id) : M unit :=
  account <- gets (fun d => find (owned_account accountId userId) (bank_accounts d)) ;;
  match account with
  | None => throw BankAccountNotFound
  | Some account =>
    update_bank_accounts (ba_by_id accountId) (set_is_active false) ;;
    (* if it was primary, make another one primary *)
    if is_primary account then
      nextAccount <- gets (fun d => find (active_of userId) (bank_accounts d)) ;;
      match nextAccount with
      | Some nextAccount =>
        update_bank_accounts (ba_by_id (ba_id nextAccount)) (set_is_primary true)
      | None => ret tt
      end
    else ret tt
  end.

(** Verify bank account (admin): [undefined] when no row has the id. *)
Definition verifyBankAccount (accountId : Id) (verified : bool)
  : M (option BankAccount) :=
  let f := set_verification_status (if verified then vs_verified else vs_rejected) in
  fun d =>
    (Ok (hd_error (returning (ba_by_id accountId) f (bank_accounts d))),
     set_bank_accounts (update_where (ba_by_id accountId) f (bank_accounts d)) d).

(** ** escrowService: reading the balances *)

Record EscrowBalance := mkEscrowBalance {
  eb_escrow_balance : Z;
  eb_escrow_on_hold : Z;
  eb_available_balance : Z;
  eb_total_deposited : Z;
  eb_total_released : Z;
  eb_total_refunded : Z
}.

(** Get current escrow balance details. *)
Definition getEscrowBalance (brandId : Id) : M EscrowBalance :=
  wallet <- gets (brand_wallet_of brandId) ;;
  match wallet with
  | None => throw BrandWalletNotFound
  | Some wallet =>
    ret (mkEscrowBalance (escrow_balance wallet) (escrow_on_hold wallet)
           (escrow_balance wallet) (total_escrow_deposited wallet)
           (total_escrow_released wallet) (total_escrow_refunded wallet))
  end.

(** ** brandWalletService: token costs *)

Record TokenCosts := mkTokenCosts {
  tc_campaign_token_cost : Z;
  tc_report_token_cost : Z
}.

(** Get token costs from the current package; [null] when the user has no
    brand, no wallet, no package mapping or no such active package. *)
Definition getTokenCosts (userId : Id) : M (option TokenCosts) :=
  brand <- getBrandByUserId userId ;;
  match brand with
  | None => ret None
  | Some brand =>
    wallet <- gets (brand_wallet_of (br_id brand)) ;;
    match wallet with
    | None => ret None
    | Some wallet =>
      if String.eqb (current_package wallet) EmptyString
         || String.eqb (current_package wallet) "none"
      then ret None
      else
        pkg <- getPackageByName "brand" (current_package wallet) ;;
        match pkg with
        | None => ret None
        | Some pkg =>
          ret (Some (mkTokenCosts (num_or (campaign_token_cost pkg) 1)
                                  (num_or (report_token_cost pkg) 1)))
        end
    end
  end.

(** ** creatorUnlockService: lookups and previews *)

Definition unlocked_pair (brandId creatorId : Id) (u : UnlockedCreator) : bool :=
  Nat.eqb (uc_brand_id u) brandId && Nat.eqb (uc_creator_id u) creatorId.

(** Check if a brand has already unlocked a creator. *)
Definition isCreatorUnlocked (brandId creatorId : Id) : M bool :=
  gets (fun d =>
    match find (unlocked_pair brandId creatorId) (brand_unlocked_creators d) with
    | Some _ => true
    | None => false
    end).

(** Get the report token cost for a brand based on its active package. *)
Definition getReportTokenCost (now : Timestamp) (brandUserId : Id) : M Z :=
  walletData <- getOrCreateBrandWallet now brandUserId ;;
  match package walletData with
  | None => throw NoActivePackage
  | Some pkg => ret (num_or (report_token_cost pkg) 5)
  end.

Record UnlockCost := mkUnlockCost {
  token_cost : Z;
  uc_current_balance : Z;
  can_unlock : bool
}.

(** Get unlock cost for a brand (preview before unlocking). *)
Definition getUnlockCost (now : Timestamp) (brandUserId : Id) : M UnlockCost :=
  walletData <- getOrCreateBrandWallet now brandUserId ;;
  match package walletData with
  | None => throw NoActivePackage
  | Some pkg =>
    let tokenCost := num_or (report_token_cost pkg) 5 in
    let currentBalance := token_balance (wallet walletData) in
    ret (mkUnlockCost tokenCost currentBalance (tokenCost <=? currentBalance))
  end.

(** [[...new Set(ids)]]: the distinct ids in order of first occurrence. *)
Fixpoint unique (ids : list Id) : list Id :=
  match ids with
  | [] => []
  | x :: rest => x :: filter (fun y => negb (Nat.eqb y x)) (unique rest)
  end.

Definition mem (x : Id) (l : list Id) : bool := existsb (Nat.eqb x) l.

(** The [creator_id]s of the brand's unlock rows among [ids]:
    [.where('brand_id', b).whereIn('creator_id', ids).select('creator_id')] *)
Definition unlocked_among (brandId : Id) (ids : list Id) (d : Db) : list Id :=
  map uc_creator_id
    (filter (fun u => Nat.eqb (uc_brand_id u) brandId && mem (uc_creator_id u) ids)
            (brand_unlocked_creators d)).

(** Check if a brand has unlocked specific creators (bulk check).  The
    answer is an object keyed by creator id: one entry per distinct id, in
    the order in which the keys are first assigned (a repeated id assigns
    the same value again). *)
Definition checkUnlockedCreators (now : Timestamp) (brandUserId : Id)
    (creatorIds : list Id) : M (list (Id * bool)) :=
  match creatorIds with
  | [] => ret []
  | _ =>
    walletData <- getOrCreateBrandWallet now brandUserId ;;
    let brandId := bw_brand_id (wallet walletData) in
    unlockedSet <- gets (unlocked_among brandId creatorIds) ;;
    ret (map (fun creatorId => (creatorId, mem creatorId unlockedSet))
             (unique creatorIds))
  end.

(** ** creatorUnlockService: bulk unlock *)

Record UnlockedEntry := mkUnlockedEntry {
  ue_creator_id : Id;
  ue_unlock_id : Id;
  ue_tokens_spent : Z
}.

Record BulkUnlockResult := mkBulkUnlockResult {
  total_requested : nat;
  total_unlocked : nat;
  total_tokens_spent : Z;
  bulk_remaining_token_balance : Z;
  unlocked : list UnlockedEntry;
  skipped : list (Id * string);
  failed_unlocks : list (Id * string)
}.

Definition push_skipped (creatorId : Id) (reason : string) (r : BulkUnlockResult)
  : BulkUnlockResult :=
  mkBulkUnlockResult (total_requested r) (total_unlocked r) (total_tokens_spent r)
    (bulk_remaining_token_balance r) (unlocked r)
    (skipped r ++ [(creatorId, reason)]) (failed_unlocks r).

Definition push_failed (creatorId : Id) (reason : string) (r : BulkUnlockResult)
  : BulkUnlockResult :=
  mkBulkUnlockResult (total_requested r) (total_unlocked r) (total_tokens_spent r)
    (bulk_remaining_token_balance r) (unlocked r) (skipped r)
    (failed_unlocks r ++ [(creatorId, reason)]).

(** [result.unlocked.push(..); result.total_unlocked++;
     result.total_tokens_spent += reportTokenCost] *)
Definition push_unlocked (creatorId unlockId : Id) (cost : Z) (r : BulkUnlockResult)
  : BulkUnlockResult :=
  mkBulkUnlockResult (total_requested r) (S (total_unlocked r))
    (total_tokens_spent r + cost) (bulk_remaining_token_balance r)
    (unlocked r ++ [mkUnlockedEntry creatorId unlockId cost])
    (skipped r) (failed_unlocks r).

Definition set_bulk_remaining (v : Z) (r : BulkUnlockResult) : BulkUnlockResult :=
  mkBulkUnlockResult (total_requested r) (total_unlocked r) (total_tokens_spent r)
    v (unlocked r) (skipped r) (failed_unlocks r).

(** Step 4 of bulkUnlockCreators: the loop over the distinct creator ids,
    carrying the running [tokenBalance] and the [result]. *)
Fixpoint bulk_unlock_loop (now : Timestamp) (brandId brandUserId : Id)
    (pkg : Package) (reportTokenCost : Z) (alreadyUnlockedSet : list Id)
    (existingCreators : list User) (ids : list Id)
    (tokenBalance : Z) (result : BulkUnlockResult) : M (Z * BulkUnlockResult) :=
  match ids with
  | [] => ret (tokenBalance, result)
  | creatorId :: rest =>
    let continue := bulk_unlock_loop now brandId brandUserId pkg reportTokenCost
                      alreadyUnlockedSet existingCreators rest in
    if mem creatorId alreadyUnlockedSet then
      continue tokenBalance (push_skipped creatorId "Already unlocked" result)
    else
      match find (fun u => Nat.eqb (u_id u) creatorId) existingCreators with
      | None =>
        continue tokenBalance (push_failed creatorId "Creator not found" result)
      | Some _ =>
        if tokenBalance <? reportTokenCost then
          continue tokenBalance
            (push_failed creatorId "Insufficient token balance" result)
        else
          (* deduct tokens *)
          let tokenBalance' := tokenBalance - reportTokenCost in
          transaction <- insert_brand_transaction (fun i =>
            mkBrandTransaction i brandId brandUserId creator_unlock
              reportTokenCost token tokenBalance' "creator_unlock"
              (Some creatorId) None completed
              (mkMetadata (Some (pk_id pkg)) (Some (pk_name pkg)) None None
                 None None None None None None None (Some creatorId) None)
              None (Some now)) ;;
          unlock <- fresh_id ;;
          modify (fun d =>
            set_brand_unlocked_creators
              (brand_unlocked_creators d ++
               [mkUnlockedCreator unlock brandId creatorId brandUserId
                  (bt_id transaction) reportTokenCost (pk_id pkg) (pk_name pkg)
                  now]) d) ;;
          continue tokenBalance'
            (push_unlocked creatorId unlock reportTokenCost result)
      end
  end.

(** Bulk unlock multiple creator profiles: deducts tokens for each creator,
    continuing until tokens run out or all creators are processed. *)
Definition bulkUnlockCreators (now : Timestamp) (brandUserId : Id)
    (creatorIds : list Id) : M BulkUnlockResult :=
  (* remove duplicates *)
  let uniqueCreatorIds := unique creatorIds in
  let result :=
    mkBulkUnlockResult (List.length uniqueCreatorIds) 0 0 0 [] [] [] in
  (* 1. brand wallet and package info *)
  walletData <- getOrCreateBrandWallet now brandUserId ;;
  with_trx (
    let brandId := bw_brand_id (wallet walletData) in
    let tokenBalance := token_balance (wallet walletData) in
    match package walletData with
    | None => throw NoActivePackage
    | Some pkg =>
      let reportTokenCost := num_or (report_token_cost pkg) 5 in
      (* 2. already unlocked creators *)
      alreadyUnlockedSet <- gets (unlocked_among brandId uniqueCreatorIds) ;;
      (* 3. which creators exist *)
      existingCreators <- gets (fun d =>
        filter (fun u => mem (u_id u) uniqueCreatorIds) (ce_users d)) ;;
      (* 4. process each creator *)
      looped <- bulk_unlock_loop now brandId brandUserId pkg reportTokenCost
                  alreadyUnlockedSet existingCreators uniqueCreatorIds
                  tokenBalance result ;;
      let tokenBalance := fst looped in
      let result := snd looped in
      (* 5. update the brand wallet with the final balance *)
      (if Nat.ltb 0 (total_unlocked result) then
         update_brand_wallet brandId (fun w =>
           touch now
             (set_total_tokens_debited
                (total_tokens_debited w + total_tokens_spent result)
             (set_token_balance tokenBalance w))) ;;
         ret tt
       else ret tt) ;;
      ret (set_bulk_remaining tokenBalance result)
    end).

Record BulkUnlockCost := mkBulkUnlockCost {
  token_cost_per_creator : Z;
  total_creators : nat;
  already_unlocked : nat;
  to_unlock : Z;
  total_token_cost : Z;
  buc_current_balance : Z;
  can_unlock_all : bool;
  can_unlock_count : Z
}.

(** Get bulk unlock cost preview. *)
Definition getBulkUnlockCost (now : Timestamp) (brandUserId : Id)
    (creatorIds : list Id) : M BulkUnlockCost :=
  walletData <- getOrCreateBrandWallet now brandUserId ;;
  let brandId := bw_brand_id (wallet walletData) in
  match package walletData with
  | None => throw NoActivePackage
  | Some pkg =>
    let tokenCostPerCreator := num_or (report_token_cost pkg) 5 in
    let currentBalance := token_balance (wallet walletData) in
    let uniqueCreatorIds := unique creatorIds in
    alreadyUnlockedCount <- gets (fun d =>
      List.length (unlocked_among brandId uniqueCreatorIds d)) ;;
    let toUnlockCount :=
      Z.of_nat (List.length uniqueCreatorIds) - Z.of_nat alreadyUnlockedCount in
    let totalTokenCost := toUnlockCount * tokenCostPerCreator in
    let canUnlockCount := currentBalance / tokenCostPerCreator in
    ret (mkBulkUnlockCost tokenCostPerCreator (List.length uniqueCreatorIds)
           alreadyUnlockedCount toUnlockCount totalTokenCost currentBalance
           (totalTokenCost <=? currentBalance)
           (Z.min canUnlockCount toUnlockCount))
  end.

(** ** transactionService: the summary *)

Definition sumZ (l : list Z) : Z := fold_right Z.add 0 l.

(** [SUM(CASE WHEN <type in types> THEN <f amount> ELSE 0 END)] over the rows
    selected by [p]; the sum over no rows reads as 0. *)
Definition sum_case (p : Transaction -> bool) (types : TransactionType -> bool)
    (f : Z -> Z) (rows : list Transaction) : Z :=
  sumZ (map (fun t => if types (t_transaction_type t) then f (t_amount t) else 0)
            (filter p rows)).

(** [.where('transaction_type', 'withdrawal')
     .whereIn('status', ['pending', 'processing'])] for a user *)
Definition unsettled_withdrawal (userId : Id) (t : Transaction) : bool :=
  Nat.eqb (t_user_id t) userId
  && is_withdrawal (t_transaction_type t)
  && (status_eqb (t_status t) pending || status_eqb (t_status t) processing).

(** [.sum('amount as total')] over the user's unsettled withdrawals. *)
Definition unsettled_total (userId : Id) (d : Db) : Z :=
  sumZ (map t_amount (filter (unsettled_withdrawal userId) (transactions d))).

Record TransactionSummary := mkTransactionSummary {
  ts_total_deposits : Z;
  ts_total_withdrawals : Z;
  ts_total_earnings : Z;
  ts_total_spent : Z;
  ts_pending_withdrawals : Z
}.

(** Get transaction summary for user. *)
Definition getTransactionSummary (userId : Id) : M TransactionSummary :=
  gets (fun d =>
    let done := fun t => Nat.eqb (t_user_id t) userId
                         && status_eqb (t_status t) completed in
    let rows := transactions d in
    mkTransactionSummary
      (sum_case done (fun ty => match ty with deposit => true | _ => false end)
                (fun a => a) rows)
      (sum_case done is_withdrawal Z.abs rows)
      (sum_case done (fun ty => match ty with
                                | gift_received | campaign_earning => true
                                | _ => false end) (fun a => a) rows)
      (sum_case done (fun ty => match ty with
                                | gift_sent | campaign_payment => true
                                | _ => false end) Z.abs rows)
      (Z.abs (unsettled_total userId d))).

(** ** newWalletService

    The wallet row of the model has no [currency] column (always ['INR']). *)

(** Get or create wallet for user. *)
Definition getOrCreateWallet (userId : Id) : M Wallet :=
  existing <- gets (wallet_of userId) ;;
  match existing with
  | Some w => ret w
  | None =>
    let w := mkWallet userId 0 0 0 0 None None in
    modify (fun d => set_wallets (wallets d ++ [w]) d) ;;
    ret w
  end.

Record Balance := mkBalance {
  b_balance : Z;
  b_pending_balance : Z;
  b_available_balance : Z
}.

(** Get wallet balance. *)
Definition getBalance (userId : Id) : M Balance :=
  w <- getOrCreateWallet userId ;;
  ret (mkBalance (balance w) (pending_balance w) (balance w - pending_balance w)).

(** [.where('user_id', u).update(f).returning('*')] on [wallets] *)
Definition update_wallet_returning (u : Id) (f : Wallet -> Wallet)
  : M (option Wallet) :=
  fun d => (Ok (hd_error (returning (by_user_id u) f (wallets d))),
            set_wallets (update_where (by_user_id u) f (wallets d)) d).

(** Add earnings to wallet. *)
Definition addEarnings (now : Timestamp) (userId : Id) (amount : Z)
  : M (option Wallet) :=
  getOrCreateWallet userId ;;
  update_wallet_returning userId (fun w =>
    touch_wallet now (set_total_earnings (total_earnings w + amount)
                     (set_balance (balance w + amount) w))).

(** Deduct from wallet. *)
Definition deductFromWallet (now : Timestamp) (userId : Id) (amount : Z)
  : M (option Wallet) :=
  w <- getOrCreateWallet userId ;;
  if balance w <? amount then throw InsufficientBalance
  else
    update_wallet_returning userId (fun w =>
      touch_wallet now (set_balance (balance w - amount) w)).

Record WalletSummary := mkWalletSummary {
  ws_wallet : Wallet;
  ws_total_earnings : Z;
  ws_total_withdrawals : Z;
  ws_pending_withdrawals : Z;
  ws_available_for_withdrawal : Z
}.

(** Get wallet summary with stats. *)
Definition getWalletSummary (userId : Id) : M WalletSummary :=
  w <- getOrCreateWallet userId ;;
  pendingWithdrawals <- gets (fun d => Z.abs (unsettled_total userId d)) ;;
  ret (mkWalletSummary w (total_earnings w) (total_withdrawals w)
         pendingWithdrawals (balance w - pendingWithdrawals)).

(** ** The catalogue under edit *)

(** The store with its [packages] table replaced (an edit of the catalogue
    by its administrators). *)
Definition set_packages (v : list Package) (d : Db) : Db :=
  mkDb (brand_wallets d) (brand_transactions d) (wallets d) (transactions d)
       (bank_accounts d) v (brands d) (ce_users d) (brand_unlocked_creators d)
       (next_id d).

(** ** Invariants of the further properties *)

(** The escrow books of every brand wallet balance: what was deposited is
    either available, on hold or released. *)
Definition escrow_books_balance (d : Db) : Prop :=
  forall b w, brand_wallet_of b d = Some w ->
              escrow_balance w + escrow_on_hold w + total_escrow_released w
              = total_escrow_deposited w.

(** Ids of stored brand transactions come from the store's generator. *)
Definition brand_transaction_ids_fresh (d : Db) : bool :=
  forallb (fun t => Nat.ltb (bt_id t) (next_id d)) (brand_transactions d).

(** Ids of stored bank accounts come from the store's generator. *)
Definition bank_account_ids_fresh (d : Db) : bool :=
  forallb (fun a => Nat.ltb (ba_id a) (next_id d)) (bank_accounts d).

(** The rows [getBankAccounts] lists for a user. *)
Definition listed_accounts (u : Id) (d : Db) : list BankAccount :=
  match fst (getBankAccounts u d) with
  | Ok l => l
  | Err _ => []
  end.

(** What a creator's wallet accounts for: spendable, reserved and paid out. *)
Definition creator_funds (u : Id) (d : Db) : Z :=
  match wallet_of u d with
  | Some w => balance w + pending_balance w + total_withdrawals w
  | None => 0
  end.

(** The reserved and the paid-out amounts of a creator (0 for a creator
    without wallet, as in the row that is created for them). *)
Definition creator_pending_balance (u : Id) (d : Db) : Z :=
  match wallet_of u d with Some w => pending_balance w | None => 0 end.

Definition creator_total_withdrawals (u : Id) (d : Db) : Z :=
  match wallet_of u d with Some w => total_withdrawals w | None => 0 end.

(** The figures [getTransactionSummary] reports for a user. *)
Definition transaction_summary_of (u : Id) (d : Db) : TransactionSummary :=
  match fst (getTransactionSummary u d) with
  | Ok s => s
  | Err _ => mkTransactionSummary 0 0 0 0 0
  end.

(** The pending row initiateRecharge inserts for package [pkg] under gateway
    order [order], for a brand whose wallet holds [w]. *)
Definition recharge_row (i : Id) (order : string) (input : InitiateRechargeInput)
    (pkg : Package) (w : BrandWallet) : BrandTransaction :=
  mkBrandTransaction i (ir_brand_id input) (ir_user_id input) token_credit
    (price pkg) token (token_balance w) "package" (Some (pk_id pkg))
    (Some order) pending
    (mkMetadata (Some (pk_id pkg)) (Some (pk_name pkg)) (Some (display_name pkg))
       (Some (str_or (package_type pkg) "subscription"))
       (Some (tokens_included pkg)) (validity_days pkg) (Some order)
       None None None None None None)
    None None.

(** The creator ids a bulk result reports, list after list. *)
Definition reported_ids (r : BulkUnlockResult) : list Id :=
  map ue_creator_id (unlocked r) ++ map fst (skipped r)
  ++ map fst (failed_unlocks r).

(** The user row of a creator. *)
Definition creator_of (creatorId : Id) (d : Db) : option User :=
  find (fun u => Nat.eqb (u_id u) creatorId) (ce_users d).

(** The payloads on which handleWebhook throws before its [try], with the
    error that reaches the caller: an undefined payload when a webhook
    secret is configured or the event is payment.captured, a null payload
    or an entity without order id when the event is payment.captured. *)
Definition webhook_throws (webhookSecretConfigured : bool) (event : string)
    (payload : WebhookPayload) (e : Error) : Prop :=
  (payload = payload_undefined /\ e = TypeError
   /\ (webhookSecretConfigured = true \/ event = "payment.captured"))
  \/ (payload = payload_null /\ e = TypeError /\ event = "payment.captured")
  \/ (exists pid, payload = payload_without_order_id pid
                  /\ e = UndefinedBinding /\ event = "payment.captured").
(** * Properties *)

Unset Implicit Arguments.

(** ** Facts about the query helpers *)

Section QueryFacts.

Context {R : Type}.
Variable p : R -> bool.
Variable f : R -> R.
Hypothesis f_keeps_p : forall r, p (f r) = p r.

Lemma find_update_where (rows : list R) :
  find p (update_where p f rows) = option_map f (find p rows).
Proof.
  induction rows as [|r rows IH]; simpl; [reflexivity|].
  destruct (p r) eqn:Hr.
  - rewrite f_keeps_p, Hr. reflexivity.
  - rewrite Hr. exact IH.
Qed.

Lemma returning_of_find (rows : list R) (r : R) :
  find p rows = Some r ->
  exists rest, returning p f rows = f r :: rest.
Proof.
  unfold returning.
  induction rows as [|x rows IH]; simpl; [discriminate|].
  destruct (p x) eqn:Hx.
  - intros [= ->]. simpl. eauto.
  - exact IH.
Qed.

End QueryFacts.

Lemma find_update_where_other {R} (p q : R -> bool) (f : R -> R) (rows : list R) :
  (forall r, q (f r) = q r) ->
  (forall r, p r = true -> q r = false) ->
  find q (update_where p f rows) = find q rows.
Proof.
  intros Hf Hpq.
  induction rows as [|r rows IH]; simpl; [reflexivity|].
  destruct (p r) eqn:Hr.
  - rewrite Hf, (Hpq r Hr). exact IH.
  - destruct (q r); [reflexivity | exact IH].
Qed.

(** After [.where(p).update(f)], no row satisfying [p] before escapes [f]:
    a selector [q] that [f] falsifies and that implies [p] finds nothing. *)
Lemma find_update_where_none {R} (p q : R -> bool) (f : R -> R) (rows : list R) :
  (forall r, q (f r) = false) ->
  (forall r, q r = true -> p r = true) ->
  find q (update_where p f rows) = None.
Proof.
  intros Hf Hqp.
  induction rows as [|r rows IH]; simpl; [reflexivity|].
  destruct (p r) eqn:Hr.
  - rewrite Hf. exact IH.
  - destruct (q r) eqn:Hq; [|exact IH].
    rewrite (Hqp r Hq) in Hr. discriminate.
Qed.

Lemma find_app_none {R} (q : R -> bool) (l1 l2 : list R) :
  find q l1 = None -> find q (l1 ++ l2) = find q l2.
Proof.
  induction l1 as [|r l1 IH]; simpl; [reflexivity|].
  destruct (q r); [discriminate | exact IH].
Qed.

(** Unfolding the monad in goals. *)
Ltac run :=
  cbv beta iota zeta delta
    [bind ret throw gets modify with_trx try_catch stmt fresh_id exec
     update_brand_wallet update_wallet update_brand_transaction
     insert_brand_transaction insert_transaction].

(** Projections of an updated store. *)
Ltac db_simpl :=
  cbn [brand_wallets brand_transactions wallets transactions bank_accounts
       packages brands ce_users brand_unlocked_creators next_id
       set_brand_wallets set_brand_transactions set_wallets set_transactions
       set_brand_unlocked_creators set_next_id fst snd] in *.

(** Case split on an integer test of the source, closing impossible sides. *)
Ltac ztest :=
  match goal with
  | |- context [?a <=? ?b] => destruct (Z.leb_spec a b); try lia
  | |- context [?a <? ?b] => destruct (Z.ltb_spec a b); try lia
  end.

Lemma with_trx_error {A} (body : M A) (d d' : Db) (e : Error) :
  with_trx body d = (Err e, d') -> d' = d.
Proof.
  unfold with_trx. destruct (body d) as [[a|e0] d0]; intros [= _ <-]; reflexivity.
Qed.

(** ** escrowService: what each operation does *)

Section HoldFacts.

Variables (now : Timestamp) (input : HoldEscrowInput) (d : Db).

Lemma holdEscrow_rejects_nonpositive :
  he_amount input <= 0 -> holdEscrow now input d = (Err AmountMustBePositive, d).
Proof. intros H. unfold holdEscrow; cbv zeta. ztest. reflexivity. Qed.

Lemma holdEscrow_rejects_missing_wallet :
  brand_wallet_of (he_brand_id input) d = None ->
  exists e, holdEscrow now input d = (Err e, d).
Proof.
  intros Hw. unfold holdEscrow; cbv zeta. ztest; [eexists; reflexivity|].
  run. rewrite Hw. eexists; reflexivity.
Qed.

Lemma holdEscrow_rejects_insufficient w :
  0 < he_amount input -> brand_wallet_of (he_brand_id input) d = Some w ->
  escrow_balance w < he_amount input ->
  holdEscrow now input d =
    (Err (InsufficientEscrowBalance (escrow_balance w) (he_amount input)), d).
Proof.
  intros H Hw Hlt. unfold holdEscrow; cbv zeta. ztest.
  run. rewrite Hw. ztest. reflexivity.
Qed.

Lemma holdEscrow_succeeds w :
  0 < he_amount input -> brand_wallet_of (he_brand_id input) d = Some w ->
  he_amount input <= escrow_balance w ->
  exists d',
    holdEscrow now input d =
      (Ok (mkHoldEscrowResult (escrow_balance w - he_amount input)
                              (escrow_on_hold w + he_amount input)), d')
    /\ brand_wallets d' =
         update_where (by_brand_id (he_brand_id input)) (fun w =>
           touch now (set_escrow_on_hold (escrow_on_hold w + he_amount input)
                     (set_escrow_balance (escrow_balance w - he_amount input) w)))
           (brand_wallets d)
    /\ brand_transactions d' =
         brand_transactions d ++
         [mkBrandTransaction (next_id d) (he_brand_id input) (he_user_id input)
            escrow_hold (he_amount input) escrow
            (escrow_balance w - he_amount input) "campaign"
            (Some (he_campaign_id input)) None completed
            (escrow_metadata (Some (he_campaign_id input)) None None None)
            None (Some now)]
    /\ wallets d' = wallets d
    /\ transactions d' = transactions d.
Proof.
  intros H Hw Hle. unfold holdEscrow; cbv zeta. ztest.
  run. rewrite Hw. ztest.
  destruct (returning_of_find (by_brand_id (he_brand_id input))
              (fun w => touch now
                 (set_escrow_on_hold (escrow_on_hold w + he_amount input)
                 (set_escrow_balance (escrow_balance w - he_amount input) w)))
              _ _ Hw) as [rest Hret].
  rewrite Hret. simpl.
  eexists. repeat split.
Qed.

End HoldFacts.

Section RefundFacts.

Variables (now : Timestamp) (input : RefundEscrowInput) (d : Db).

Lemma refundEscrow_rejects_nonpositive :
  rf_amount input <= 0 -> refundEscrow now input d = (Err AmountMustBePositive, d).
Proof. intros H. unfold refundEscrow; cbv zeta. ztest. reflexivity. Qed.

Lemma refundEscrow_succeeds w :
  0 < rf_amount input -> brand_wallet_of (rf_brand_id input) d = Some w ->
  rf_amount input <= escrow_on_hold w ->
  exists d',
    refundEscrow now input d =
      (Ok (mkRefundEscrowResult (escrow_balance w + rf_amount input)
             (escrow_on_hold w - rf_amount input)
             (total_escrow_refunded w + rf_amount input)), d')
    /\ brand_wallets d' =
         update_where (by_brand_id (rf_brand_id input)) (fun w =>
           touch now
             (set_total_escrow_refunded (total_escrow_refunded w + rf_amount input)
             (set_escrow_balance (escrow_balance w + rf_amount input)
             (set_escrow_on_hold (escrow_on_hold w - rf_amount input) w))))
           (brand_wallets d)
    /\ brand_transactions d' =
         brand_transactions d ++
         [mkBrandTransaction (next_id d) (rf_brand_id input) (rf_user_id input)
            escrow_refund (rf_amount input) escrow
            (escrow_balance w + rf_amount input) "campaign"
            (Some (rf_campaign_id input)) None completed
            (escrow_metadata (Some (rf_campaign_id input)) None None None)
            None (Some now)]
    /\ wallets d' = wallets d
    /\ transactions d' = transactions d.
Proof.
  intros H Hw Hle. unfold refundEscrow; cbv zeta. ztest.
  run. rewrite Hw. ztest.
  destruct (returning_of_find (by_brand_id (rf_brand_id input))
              (fun w => touch now
                 (set_total_escrow_refunded (total_escrow_refunded w + rf_amount input)
                 (set_escrow_balance (escrow_balance w + rf_amount input)
                 (set_escrow_on_hold (escrow_on_hold w - rf_amount input) w))))
              _ _ Hw) as [rest Hret].
  rewrite Hret. simpl.
  eexists. repeat split.
Qed.

End RefundFacts.

(** ** Hold / refund round trip *)

Section RoundTrip.

Variables (now : Timestamp) (brand user campaign : Id) (title reason : string).
Variable amount : Z.

(** One cycle on a store whose wallet row for [brand] is [w]. *)
Lemma hold_then_refund_restores (d : Db) (w : BrandWallet) :
  brand_wallet_of brand d = Some w ->
  amount <= escrow_balance w -> 0 <= escrow_on_hold w ->
  exists w',
    brand_wallet_of brand
      (hold_then_refund now brand user campaign title reason amount d) = Some w'
    /\ escrow_balance w' = escrow_balance w
    /\ escrow_on_hold w' = escrow_on_hold w.
Proof.
  intros Hw Hle Hoh. unfold hold_then_refund, exec.
  destruct (Z.le_gt_cases amount 0) as [Hneg|Hpos].
  - (* both calls are rejected by the amount guard *)
    rewrite holdEscrow_rejects_nonpositive by exact Hneg. simpl.
    rewrite refundEscrow_rejects_nonpositive by exact Hneg. simpl.
    exists w. auto.
  - destruct (holdEscrow_succeeds now
                (mkHoldEscrowInput brand user amount campaign title) d w)
      as (d1 & Hrun1 & Hbw1 & _); simpl; try assumption; try lia.
    rewrite Hrun1. simpl.
    assert (Hw1 : brand_wallet_of brand d1 =
                  Some (touch now (set_escrow_on_hold (escrow_on_hold w + amount)
                                  (set_escrow_balance (escrow_balance w - amount) w)))).
    { unfold brand_wallet_of. rewrite Hbw1. simpl.
      rewrite find_update_where by reflexivity.
      unfold brand_wallet_of in Hw. rewrite Hw. reflexivity. }
    destruct (refundEscrow_succeeds now
                (mkRefundEscrowInput brand user amount campaign reason) d1 _
                Hpos Hw1 ltac:(simpl; lia))
      as (d2 & Hrun2 & Hbw2 & _).
    rewrite Hrun2. simpl.
    eexists. split.
    + unfold brand_wallet_of. rewrite Hbw2. simpl.
      rewrite find_update_where by reflexivity.
      unfold brand_wallet_of in Hw1. rewrite Hw1. reflexivity.
    + simpl. split; lia.
Qed.

Lemma hold_then_refund_iter (n : nat) (d : Db) (w : BrandWallet) :
  brand_wallet_of brand d = Some w ->
  amount <= escrow_balance w -> 0 <= escrow_on_hold w ->
  exists w',
    brand_wallet_of brand
      (Nat.iter n (hold_then_refund now brand user campaign title reason amount) d)
      = Some w'
    /\ escrow_balance w' = escrow_balance w
    /\ escrow_on_hold w' = escrow_on_hold w.
Proof.
  intros Hw Hle Hoh.
  induction n as [|n (wn & Hwn & Hb & Ho)]; simpl.
  - exists w. auto.
  - destruct (hold_then_refund_restores _ _ Hwn) as (w' & Hw' & Hb' & Ho'); try lia.
    exists w'. repeat split; [exact Hw' | lia | lia].
Qed.

End RoundTrip.

(** C4. For every brand wallet and every amount covered by its escrow
    balance, a hold of that amount followed by a refund of the same amount
    for the same campaign leaves [escrow_balance] and [escrow_on_hold] at
    their values before the hold, and so does any number of such cycles.
    For a positive amount both calls succeed, the hold moving the amount to
    on-hold and the refund moving it back; a non-positive amount is rejected
    by both without touching the wallet. *)
Theorem hold_refund_round_trip
    (now : Timestamp) (brand user campaign : Id) (title reason : string)
    (amount : Z) (d : Db) (w : BrandWallet) (n : nat) :
  brand_wallet_of brand d = Some w ->
  amount <= escrow_balance w ->
  0 <= escrow_on_hold w ->
  (exists wn,
     brand_wallet_of brand
       (Nat.iter n (hold_then_refund now brand user campaign title reason amount) d)
       = Some wn
     /\ escrow_balance wn = escrow_balance w
     /\ escrow_on_hold wn = escrow_on_hold w)
  /\ (0 < amount ->
      exists d1 r2 d2 w1,
        holdEscrow now (mkHoldEscrowInput brand user amount campaign title) d
          = (Ok (mkHoldEscrowResult (escrow_balance w - amount)
                                    (escrow_on_hold w + amount)), d1)
        /\ brand_wallet_of brand d1 = Some w1
        /\ escrow_balance w1 = escrow_balance w - amount
        /\ escrow_on_hold w1 = escrow_on_hold w + amount
        /\ refundEscrow now (mkRefundEscrowInput brand user amount campaign reason) d1
           = (Ok r2, d2)
        /\ rf_escrow_balance r2 = escrow_balance w
        /\ rf_escrow_on_hold r2 = escrow_on_hold w)
  /\ (amount <= 0 ->
      holdEscrow now (mkHoldEscrowInput brand user amount campaign title) d
        = (Err AmountMustBePositive, d)
      /\ refundEscrow now (mkRefundEscrowInput brand user amount campaign reason) d
         = (Err AmountMustBePositive, d)).
Proof.
  intros Hw Hle Hoh. split; [|split].
  - apply hold_then_refund_iter; assumption.
  - intros Hpos.
    destruct (holdEscrow_succeeds now
                (mkHoldEscrowInput brand user amount campaign title) d w)
      as (d1 & Hrun1 & Hbw1 & _); simpl; try assumption.
    assert (Hw1 : brand_wallet_of brand d1 =
                  Some (touch now (set_escrow_on_hold (escrow_on_hold w + amount)
                                  (set_escrow_balance (escrow_balance w - amount) w)))).
    { unfold brand_wallet_of. rewrite Hbw1. simpl.
      rewrite find_update_where by reflexivity.
      unfold brand_wallet_of in Hw. rewrite Hw. reflexivity. }
    destruct (refundEscrow_succeeds now
                (mkRefundEscrowInput brand user amount campaign reason) d1 _
                Hpos Hw1 ltac:(simpl; lia))
      as (d2 & Hrun2 & _).
    simpl in Hrun1, Hrun2.
    do 4 eexists. split; [exact Hrun1|].
    split; [exact Hw1|]. split; [reflexivity|]. split; [reflexivity|].
    split; [exact Hrun2|]. simpl. split; lia.
  - intros Hneg. split.
    + apply holdEscrow_rejects_nonpositive. exact Hneg.
    + apply refundEscrow_rejects_nonpositive. exact Hneg.
Qed.

(** ** Release *)

Lemma wallet_of_credit (u : Id) (f : Wallet -> Wallet) (rows : list Wallet) :
  (forall w, w_user_id (f w) = w_user_id w) ->
  find (by_user_id u) (update_where (by_user_id u) f rows)
  = option_map f (find (by_user_id u) rows).
Proof.
  intros Hf. apply find_update_where.
  intros r. unfold by_user_id. rewrite Hf. reflexivity.
Qed.

Lemma releaseEscrow_rejects_nonpositive now input d :
  re_amount input <= 0 ->
  releaseEscrow now input d = (Err AmountMustBePositive, d).
Proof. intros H. unfold releaseEscrow, releaseEscrow_under; cbv zeta. ztest. reflexivity. Qed.

(** A release that throws leaves the store as it found it. *)
Lemma releaseEscrow_error_rolls_back now input d e d' :
  releaseEscrow now input d = (Err e, d') -> d' = d.
Proof.
  unfold releaseEscrow, releaseEscrow_under; cbv zeta. ztest.
  - intros [= _ <-]. reflexivity.
  - apply with_trx_error.
Qed.

Lemma releaseEscrow_succeeds now input d w :
  0 < re_amount input ->
  brand_wallet_of (re_brand_id input) d = Some w ->
  re_amount input <= escrow_on_hold w ->
  release_effect now input d w.
Proof.
  intros Hpos Hw Hle. unfold release_effect; cbv zeta.
  unfold releaseEscrow, releaseEscrow_under; cbv zeta. ztest.
  run. rewrite Hw. ztest.
  destruct (returning_of_find (by_brand_id (re_brand_id input))
              (fun w => touch now
                 (set_total_escrow_released (total_escrow_released w + re_amount input)
                 (set_escrow_on_hold (escrow_on_hold w - re_amount input) w)))
              _ _ Hw) as [rest Hret].
  rewrite Hret. db_simpl.
  unfold creator_balance, creator_total_earnings.
  destruct (wallet_of (re_creator_id input) d) as [cw|] eqn:Hcw;
    unfold wallet_of in *; db_simpl; rewrite Hcw;
    do 6 eexists; (split; [reflexivity|]);
    unfold brand_wallet_of; db_simpl.
  - split.
    { rewrite find_update_where by reflexivity.
      unfold brand_wallet_of in Hw. rewrite Hw. reflexivity. }
    do 3 (split; [reflexivity|]).
    split.
    { rewrite wallet_of_credit by reflexivity. rewrite Hcw. reflexivity. }
    repeat split.
  - split.
    { rewrite find_update_where by reflexivity.
      unfold brand_wallet_of in Hw. rewrite Hw. reflexivity. }
    do 3 (split; [reflexivity|]).
    split.
    { rewrite wallet_of_credit by reflexivity.
      rewrite (find_app_none _ _ _ Hcw). simpl.
      unfold by_user_id. simpl. rewrite Nat.eqb_refl. reflexivity. }
    repeat split.
Qed.

(** The amount guard comes before the first statement: whatever the store
    does, an amount of 0 or less is rejected and nothing is written. *)
Lemma releaseEscrow_under_rejects_nonpositive fault now input d :
  re_amount input <= 0 ->
  releaseEscrow_under fault now input d = (Err AmountMustBePositive, d).
Proof. intros H. unfold releaseEscrow_under; cbv zeta. ztest. reflexivity. Qed.

(** Whichever statement the store rejects, a release that throws leaves the
    store as it found it. *)
Lemma releaseEscrow_under_error_rolls_back fault now input d e d' :
  releaseEscrow_under fault now input d = (Err e, d') -> d' = d.
Proof.
  unfold releaseEscrow_under; cbv zeta. ztest.
  - intros [= _ <-]. reflexivity.
  - destruct fault as [j|]; cbv beta iota delta [stmt bind ret].
    + destruct (Nat.eqb j 0).
      * intros [= _ <-]. reflexivity.
      * apply with_trx_error.
    + apply with_trx_error.
Qed.

(** On a release that would go through, rejecting any statement that is sent
    aborts the whole: the caller gets the storage error and the store is the
    one before the call, also when the brand side was already written. *)
Lemma releaseEscrow_under_fault now input d w k :
  0 < re_amount input ->
  brand_wallet_of (re_brand_id input) d = Some w ->
  re_amount input <= escrow_on_hold w ->
  (k < release_statements)%nat ->
  releaseEscrow_under (Some k) now input d
  = if release_sends k input d then (Err StorageError, d)
    else releaseEscrow now input d.
Proof.
  intros Hpos Hw Hle Hk. unfold release_sends, releaseEscrow.
  destruct (returning_of_find (by_brand_id (re_brand_id input))
              (fun w => touch now
                 (set_total_escrow_released (total_escrow_released w + re_amount input)
                 (set_escrow_on_hold (escrow_on_hold w - re_amount input) w)))
              _ _ Hw) as [rest Hret].
  unfold release_statements in Hk.
  destruct (wallet_of (re_creator_id input) d) as [cw|] eqn:Hcw;
    unfold wallet_of in Hcw;
    do 9 (destruct k as [|k]; [
      unfold releaseEscrow_under; cbv zeta; ztest; run; cbn [Nat.eqb negb];
      try reflexivity;
      rewrite Hw; ztest; try reflexivity; rewrite Hret; db_simpl;
      try reflexivity;
      unfold wallet_of; db_simpl; rewrite Hcw; reflexivity |]);
    lia.
Qed.

(** C1 (as amended). An amount of 0 or less is rejected with 'Amount must be
    greater than 0' and nothing is written.  For every brand wallet, every
    creator and every positive amount covered by the wallet's on-hold escrow,
    release lowers the brand's [escrow_on_hold] and raises its
    [total_escrow_released] by the amount, raises the creator's [balance] and
    [total_earnings] by the amount (creating the creator's wallet when there
    is none), and appends exactly one completed row of that amount to each
    ledger, each naming the other side.  The whole runs in one storage
    transaction: when the store rejects any one of the statements of such a
    release, the commit included, the caller gets the storage error and the
    store is the one before the call, so the brand is never debited without
    the creator being credited; and a release that fails for any reason, on
    any input, leaves the store untouched. *)
Theorem release_conservation
    (now : Timestamp) (input : ReleaseEscrowInput) (d : Db) :
  (re_amount input <= 0 ->
   forall fault,
     releaseEscrow_under fault now input d = (Err AmountMustBePositive, d))
  /\ (forall w,
        brand_wallet_of (re_brand_id input) d = Some w ->
        0 < re_amount input ->
        re_amount input <= escrow_on_hold w ->
        release_effect now input d w
        /\ (forall k, (k < release_statements)%nat ->
              releaseEscrow_under (Some k) now input d
              = if release_sends k input d then (Err StorageError, d)
                else releaseEscrow now input d))
  /\ (forall fault e d',
        releaseEscrow_under fault now input d = (Err e, d') -> d' = d).
Proof.
  split; [|split].
  - intros Hle fault. apply releaseEscrow_under_rejects_nonpositive. exact Hle.
  - intros w Hw Hpos Hle. split.
    + apply releaseEscrow_succeeds; assumption.
    + intros k Hk. apply releaseEscrow_under_fault with (w := w); assumption.
  - intros fault e d'. apply releaseEscrow_under_error_rolls_back.
Qed.

(** ** Verification of payments *)

Lemma find_weaken {R} (p q : R -> bool) (rows : list R) (r : R) :
  (forall x, q x = true -> p x = true) ->
  find q rows = Some r -> exists r0, find p rows = Some r0.
Proof.
  intros Hqp.
  induction rows as [|x rows IH]; simpl; [discriminate|].
  destruct (p x) eqn:Hp; [eauto|].
  destruct (q x) eqn:Hq; [|exact IH].
  rewrite (Hqp x Hq) in Hp. discriminate.
Qed.

Lemma pending_by_id_and_order_id i o t :
  pending_by_id_and_order i o t = true -> bt_by_id i t = true.
Proof.
  unfold pending_by_id_and_order, bt_by_id.
  intros H. apply andb_prop in H as [H _]. apply andb_prop in H as [H _]. exact H.
Qed.

(** Once the rows with id [i] are completed, no pending row with that id is
    left, whatever order reference is asked for. *)
Lemma no_pending_after_complete i o nb now pay via rows :
  find (pending_by_id_and_order i o)
       (update_where (bt_by_id i) (bt_complete nb now pay via) rows) = None.
Proof.
  apply find_update_where_none.
  - intros r. unfold pending_by_id_and_order. simpl.
    apply andb_false_r.
  - intros r. apply pending_by_id_and_order_id.
Qed.

Lemma token_balance_walletUpdate now nb tk ty name pid vd w :
  token_balance (walletUpdate now nb tk ty name pid vd w) = nb.
Proof. unfold walletUpdate. destruct (String.eqb ty "subscription"); reflexivity. Qed.

Lemma brand_id_walletUpdate now nb tk ty name pid vd w :
  bw_brand_id (walletUpdate now nb tk ty name pid vd w) = bw_brand_id w.
Proof. unfold walletUpdate. destruct (String.eqb ty "subscription"); reflexivity. Qed.

Section VerifyFacts.

Variable verifyPaymentSignature : string -> string -> string -> bool.

(** What a successful verifyRecharge has done. *)
Lemma verifyRecharge_success now input d r d1 :
  verifyRecharge verifyPaymentSignature now input d = (Ok r, d1) ->
  exists t w,
    find (pending_by_id_and_order (transaction_id input) (razorpay_order_id input))
         (brand_transactions d) = Some t
    /\ verifyPaymentSignature (razorpay_order_id input) (razorpay_payment_id input)
         (razorpay_signature input) = true
    /\ 0 < parseInt_or0 (md_tokens_included (bt_metadata t))
    /\ brand_wallet_of (bt_brand_id t) d = Some w
    /\ vr_tokens_credited r = parseInt_or0 (md_tokens_included (bt_metadata t))
    /\ vr_new_balance r = token_balance w + vr_tokens_credited r
    /\ brand_wallets d1 =
         update_where (by_brand_id (bt_brand_id t))
           (walletUpdate now (vr_new_balance r) (vr_tokens_credited r)
              (str_or (md_package_type (bt_metadata t)) "subscription")
              (str_or (md_package_name (bt_metadata t)) "unknown")
              (md_package_id (bt_metadata t)) (md_validity_days (bt_metadata t)))
           (brand_wallets d)
    /\ brand_transactions d1 =
         update_where (bt_by_id (transaction_id input))
           (bt_complete (vr_new_balance r) now (razorpay_payment_id input) None)
           (brand_transactions d).
Proof.
  unfold verifyRecharge; cbv zeta. run.
  destruct (find _ (brand_transactions d)) as [t|] eqn:Ht; [|discriminate].
  destruct (verifyPaymentSignature _ _ _) eqn:Hsig; simpl; [|discriminate].
  ztest; [discriminate|].
  destruct (brand_wallet_of (bt_brand_id t) d) as [w|] eqn:Hw; [|discriminate].
  db_simpl. intros [= <- <-]. exists t, w. simpl. db_simpl.
  repeat split; try assumption; reflexivity.
Qed.

(** What a successful verifyEscrowDeposit has done. *)
Lemma verifyEscrowDeposit_success now input d r d1 :
  verifyEscrowDeposit verifyPaymentSignature now input d = (Ok r, d1) ->
  exists t w,
    find (pending_by_id_and_order (transaction_id input) (razorpay_order_id input))
         (brand_transactions d) = Some t
    /\ verifyPaymentSignature (razorpay_order_id input) (razorpay_payment_id input)
         (razorpay_signature input) = true
    /\ brand_wallet_of (bt_brand_id t) d = Some w
    /\ ved_amount_credited r = bt_amount t
    /\ ved_new_balance r = escrow_balance w + bt_amount t
    /\ brand_wallets d1 =
         update_where (by_brand_id (bt_brand_id t))
           (fun w => touch now
              (set_total_escrow_deposited (total_escrow_deposited w + bt_amount t)
              (set_escrow_balance (escrow_balance w + bt_amount t) w)))
           (brand_wallets d)
    /\ brand_transactions d1 =
         update_where (bt_by_id (transaction_id input))
           (bt_complete (ved_new_balance r) now (razorpay_payment_id input) None)
           (brand_transactions d).
Proof.
  unfold verifyEscrowDeposit; cbv zeta. run.
  destruct (find _ (brand_transactions d)) as [t|] eqn:Ht; [|discriminate].
  destruct (verifyPaymentSignature _ _ _) eqn:Hsig; simpl; [|discriminate].
  destruct (brand_wallet_of (bt_brand_id t) d) as [w|] eqn:Hw.
  - destruct (returning_of_find (by_brand_id (bt_brand_id t))
                (fun w => touch now
                   (set_total_escrow_deposited (total_escrow_deposited w + bt_amount t)
                   (set_escrow_balance (escrow_balance w + bt_amount t) w)))
                _ _ Hw) as [rest Hret].
    rewrite Hret. db_simpl. intros [= <- <-]. exists t, w. simpl.
    repeat split; try assumption; reflexivity.
  - unfold returning.
    replace (filter (by_brand_id (bt_brand_id t)) (brand_wallets d)) with (@nil BrandWallet).
    + simpl. discriminate.
    + symmetry. unfold brand_wallet_of in Hw.
      induction (brand_wallets d) as [|x l IH]; simpl in *; [reflexivity|].
      destruct (by_brand_id (bt_brand_id t) x); [discriminate | auto].
Qed.

End VerifyFacts.

(** C3. Verifying the same transaction twice credits once.  When the first
    call succeeds it found the transaction pending, added the credited
    amount to the wallet (tokens for a recharge, escrow for a deposit) and
    left the transaction completed; a second call with the same transaction
    id, whatever else it carries, finds no pending transaction, fails with
    the not-found-or-already-processed error and changes nothing. *)
Theorem verify_credits_once
    (verifyPaymentSignature : string -> string -> string -> bool)
    (now now' : Timestamp) (input input' : VerifyInput) (d d1 : Db) :
  transaction_id input' = transaction_id input ->
  (forall r,
     verifyRecharge verifyPaymentSignature now input d = (Ok r, d1) ->
     exists t w w1 t1,
       find (pending_by_id_and_order (transaction_id input) (razorpay_order_id input))
            (brand_transactions d) = Some t
       /\ brand_wallet_of (bt_brand_id t) d = Some w
       /\ brand_wallet_of (bt_brand_id t) d1 = Some w1
       /\ 0 < vr_tokens_credited r
       /\ token_balance w1 = token_balance w + vr_tokens_credited r
       /\ find (bt_by_id (transaction_id input)) (brand_transactions d1) = Some t1
       /\ bt_status t1 = completed
       /\ verifyRecharge verifyPaymentSignature now' input' d1
          = (Err TransactionNotFoundOrProcessed, d1))
  /\ (forall r,
     verifyEscrowDeposit verifyPaymentSignature now input d = (Ok r, d1) ->
     exists t w w1 t1,
       find (pending_by_id_and_order (transaction_id input) (razorpay_order_id input))
            (brand_transactions d) = Some t
       /\ brand_wallet_of (bt_brand_id t) d = Some w
       /\ brand_wallet_of (bt_brand_id t) d1 = Some w1
       /\ escrow_balance w1 = escrow_balance w + ved_amount_credited r
       /\ escrow_on_hold w1 = escrow_on_hold w
       /\ find (bt_by_id (transaction_id input)) (brand_transactions d1) = Some t1
       /\ bt_status t1 = completed
       /\ verifyEscrowDeposit verifyPaymentSignature now' input' d1
          = (Err TransactionNotFoundOrProcessed, d1)).
Proof.
  intros Hid. split; intros r Hrun.
  - destruct (verifyRecharge_success _ _ _ _ _ _ Hrun)
      as (t & w & Ht & _ & Hpos & Hw & Htk & Hnb & Hbw & Hbt).
    destruct (find_weaken (bt_by_id (transaction_id input)) _ _ _
                (pending_by_id_and_order_id _ _) Ht) as [t0 Ht0].
    do 4 eexists.
    split; [exact Ht|]. split; [exact Hw|].
    split.
    { unfold brand_wallet_of. rewrite Hbw.
      rewrite find_update_where.
      - unfold brand_wallet_of in Hw. rewrite Hw. reflexivity.
      - intros x. unfold by_brand_id. rewrite brand_id_walletUpdate. reflexivity. }
    split; [lia|].
    split; [rewrite token_balance_walletUpdate; exact Hnb|].
    split.
    { rewrite Hbt. rewrite find_update_where by reflexivity.
      rewrite Ht0. reflexivity. }
    split; [reflexivity|].
    unfold verifyRecharge; cbv zeta. run.
    rewrite Hbt, Hid. rewrite no_pending_after_complete. reflexivity.
  - destruct (verifyEscrowDeposit_success _ _ _ _ _ _ Hrun)
      as (t & w & Ht & _ & Hw & Ham & Hnb & Hbw & Hbt).
    destruct (find_weaken (bt_by_id (transaction_id input)) _ _ _
                (pending_by_id_and_order_id _ _) Ht) as [t0 Ht0].
    do 4 eexists.
    split; [exact Ht|]. split; [exact Hw|].
    split.
    { unfold brand_wallet_of. rewrite Hbw.
      rewrite find_update_where by reflexivity.
      unfold brand_wallet_of in Hw. rewrite Hw. reflexivity. }
    split; [simpl; lia|].
    split; [reflexivity|].
    split.
    { rewrite Hbt. rewrite find_update_where by reflexivity.
      rewrite Ht0. reflexivity. }
    split; [reflexivity|].
    unfold verifyEscrowDeposit; cbv zeta. run.
    rewrite Hbt, Hid. rewrite no_pending_after_complete. reflexivity.
Qed.

(** ** Withdrawals *)

Lemma fresh_id_not_found (d : Db) :
  transaction_ids_fresh d = true ->
  find (t_by_id (next_id d)) (transactions d) = None.
Proof.
  unfold transaction_ids_fresh.
  induction (transactions d) as [|t l IH]; simpl; [reflexivity|].
  intros H. apply andb_prop in H as [Ht Hl].
  unfold t_by_id at 1. apply Nat.ltb_lt in Ht.
  destruct (Nat.eqb_spec (t_id t) (next_id d)); [lia | auto].
Qed.

Section WithdrawalFacts.

Variables (now : Timestamp) (userId bankAccountId : Id) (amount : Z) (d : Db).
Variables (w : Wallet) (account : BankAccount).

Hypothesis account_found :
  find (fun a => Nat.eqb (ba_id a) bankAccountId && Nat.eqb (ba_user_id a) userId)
       (bank_accounts d) = Some account.
Hypothesis account_verified : verification_status account = vs_verified.
Hypothesis wallet_found : wallet_of userId d = Some w.
Hypothesis covered : amount <= balance w.

Lemma requestWithdrawal_succeeds :
  exists d1,
    requestWithdrawal now userId amount bankAccountId d = (Ok (withdrawal_row (next_id d) userId amount bankAccountId), d1)
    /\ transactions d1 = transactions d ++ [withdrawal_row (next_id d) userId amount bankAccountId]
    /\ wallets d1 =
         update_where (by_user_id userId) (fun w =>
           touch_wallet now (set_pending_balance (pending_balance w + amount)
                            (set_balance (balance w - amount) w)))
           (wallets d)
    /\ brand_wallets d1 = brand_wallets d
    /\ brand_transactions d1 = brand_transactions d.
Proof.
  unfold requestWithdrawal, createTransaction. run.
  rewrite account_found, account_verified. simpl.
  rewrite wallet_found. ztest.
  eexists. repeat split.
Qed.

End WithdrawalFacts.

Lemma processWithdrawal_settles now i success ext reason d tx w :
  find (t_by_id i) (transactions d) = Some tx ->
  t_transaction_type tx = withdrawal ->
  t_status tx = pending \/ t_status tx = processing ->
  wallet_of (t_user_id tx) d = Some w ->
  exists d2,
    processWithdrawal now i success ext reason d
      = (Ok (Some (apply_status_updates now (if success then completed else failed)
                     (if success then ext else None)
                     (if success then None else reason) tx)), d2)
    /\ wallet_of (t_user_id tx) d2
         = Some (settle_wallet now success (Z.abs (t_amount tx)) w)
    /\ transactions d2 =
         update_where (t_by_id i)
           (apply_status_updates now (if success then completed else failed)
              (if success then ext else None) (if success then None else reason))
           (transactions d)
    /\ brand_wallets d2 = brand_wallets d
    /\ brand_transactions d2 = brand_transactions d.
Proof.
  intros Hfind Hty Hst Hw.
  unfold processWithdrawal, updateTransactionStatus, getTransactionById. run.
  rewrite Hfind, Hty. simpl.
  assert (Hgate : negb (status_eqb (t_status tx) pending)
                  && negb (status_eqb (t_status tx) processing) = false)
    by (destruct Hst as [-> | ->]; reflexivity).
  rewrite Hgate.
  unfold wallet_of in *.
  destruct success; db_simpl;
    rewrite find_update_where by reflexivity; rewrite Hfind;
    eexists; (split; [reflexivity|]); db_simpl;
    (split; [rewrite wallet_of_credit by reflexivity; rewrite Hw; reflexivity|]);
    repeat split.
Qed.

Lemma processWithdrawal_rejects_settled now i success ext reason d tx :
  find (t_by_id i) (transactions d) = Some tx ->
  t_transaction_type tx = withdrawal ->
  t_status tx = completed \/ t_status tx = failed ->
  processWithdrawal now i success ext reason d = (Err CannotBeProcessed, d).
Proof.
  intros Hfind Hty Hst. unfold processWithdrawal. run.
  rewrite Hfind, Hty. simpl. destruct Hst as [-> | ->]; reflexivity.
Qed.

(** C7. A withdrawal request reserves the amount (balance down, pending
    balance up, a pending withdrawal transaction), and processing that
    transaction resolves the reservation one way or the other: on failure the
    amount returns to the balance, the pending balance is back where it was
    and the transaction is failed; on success the pending balance is back
    where it was, the amount is added to the total withdrawals and the
    transaction is completed.  Either way the transaction cannot be processed
    a second time.  With a balance of 10000 and an amount of 5000 this is
    10000/0 -> 5000/5000 -> 10000/0 on failure. *)
Theorem withdrawal_reservation_resolved
    (now now' : Timestamp) (userId bankAccountId : Id) (amount : Z) (d : Db)
    (w : Wallet) (account : BankAccount) (ext reason : option string) :
  find (fun a => Nat.eqb (ba_id a) bankAccountId && Nat.eqb (ba_user_id a) userId)
       (bank_accounts d) = Some account ->
  verification_status account = vs_verified ->
  wallet_of userId d = Some w ->
  0 <= amount <= balance w ->
  transaction_ids_fresh d = true ->
  exists tx d1 w1,
    requestWithdrawal now userId amount bankAccountId d = (Ok tx, d1)
    /\ t_status tx = pending /\ t_amount tx = - amount
    /\ wallet_of userId d1 = Some w1
    /\ balance w1 = balance w - amount
    /\ pending_balance w1 = pending_balance w + amount
    /\ (exists tx' d2 w2,
          processWithdrawal now' (t_id tx) false ext reason d1 = (Ok (Some tx'), d2)
          /\ t_id tx' = t_id tx /\ t_status tx' = failed
          /\ wallet_of userId d2 = Some w2
          /\ balance w2 = balance w
          /\ pending_balance w2 = pending_balance w
          /\ total_withdrawals w2 = total_withdrawals w
          /\ forall t s e r,
               processWithdrawal t (t_id tx) s e r d2 = (Err CannotBeProcessed, d2))
    /\ (exists tx' d2 w2,
          processWithdrawal now' (t_id tx) true ext reason d1 = (Ok (Some tx'), d2)
          /\ t_id tx' = t_id tx /\ t_status tx' = completed
          /\ wallet_of userId d2 = Some w2
          /\ balance w2 = balance w - amount
          /\ pending_balance w2 = pending_balance w
          /\ total_withdrawals w2 = total_withdrawals w + amount
          /\ forall t s e r,
               processWithdrawal t (t_id tx) s e r d2 = (Err CannotBeProcessed, d2)).
Proof.
  intros Hacct Hver Hw [Hnn Hle] Hfresh.
  destruct (requestWithdrawal_succeeds now userId bankAccountId amount d w account
              Hacct Hver Hw Hle) as (d1 & Hrun & Htx & Hws & _).
  set (tx := withdrawal_row (next_id d) userId amount bankAccountId) in *.
  assert (Hfind : find (t_by_id (t_id tx)) (transactions d1) = Some tx).
  { rewrite Htx. rewrite find_app_none by (apply fresh_id_not_found; exact Hfresh).
    simpl. unfold t_by_id. simpl. rewrite Nat.eqb_refl. reflexivity. }
  assert (Hw1 : wallet_of (t_user_id tx) d1 =
                Some (touch_wallet now
                        (set_pending_balance (pending_balance w + amount)
                        (set_balance (balance w - amount) w)))).
  { unfold wallet_of. rewrite Hws. rewrite wallet_of_credit by reflexivity.
    unfold wallet_of in Hw. simpl. rewrite Hw. reflexivity. }
  assert (Habs : Z.abs (t_amount tx) = amount) by (simpl; lia).
  exists tx, d1. eexists.
  split; [exact Hrun|]. split; [reflexivity|]. split; [reflexivity|].
  split; [exact Hw1|]. split; [reflexivity|]. split; [reflexivity|].
  split.
  - destruct (processWithdrawal_settles now' (t_id tx) false ext reason d1 tx _
                Hfind eq_refl (or_introl eq_refl) Hw1)
      as (d2 & Hrun2 & Hw2 & Htx2 & _).
    do 3 eexists. split; [exact Hrun2|].
    split; [reflexivity|]. split; [reflexivity|].
    split; [exact Hw2|]. rewrite Habs. simpl.
    split; [lia|]. split; [lia|]. split; [reflexivity|].
    intros t s e r.
    eapply processWithdrawal_rejects_settled with (tx := apply_status_updates _ _ _ _ tx).
    + rewrite Htx2. rewrite find_update_where by reflexivity.
      rewrite Hfind. reflexivity.
    + reflexivity.
    + right. reflexivity.
  - destruct (processWithdrawal_settles now' (t_id tx) true ext reason d1 tx _
                Hfind eq_refl (or_introl eq_refl) Hw1)
      as (d2 & Hrun2 & Hw2 & Htx2 & _).
    do 3 eexists. split; [exact Hrun2|].
    split; [reflexivity|]. split; [reflexivity|].
    split; [exact Hw2|]. rewrite Habs. simpl.
    split; [reflexivity|]. split; [lia|]. split; [reflexivity|].
    intros t s e r.
    eapply processWithdrawal_rejects_settled with (tx := apply_status_updates _ _ _ _ tx).
    + rewrite Htx2. rewrite find_update_where by reflexivity.
      rewrite Hfind. reflexivity.
    + reflexivity.
    + left. reflexivity.
Qed.

(** ** Creator unlock *)

(** The package lookup of step 4 of getOrCreateBrandWallet. *)
Lemma getOrCreateBrandWallet_existing now userId d brand w :
  find (fun b => Nat.eqb (br_user_id b) userId) (brands d) = Some brand ->
  brand_wallet_of (br_id brand) d = Some w ->
  exists pkg,
    getOrCreateBrandWallet now userId d
    = (Ok (mkBrandWalletResponse w pkg (brand_wallet_stats now w)), d)
    /\ pkg = (if String.eqb (current_package w) EmptyString
                 || String.eqb (current_package w) "none"
              then None
              else find (fun p => String.eqb (user_type p) "brand"
                                  && String.eqb (pk_name p) (current_package w)
                                  && pk_is_active p) (packages d)).
Proof.
  intros Hb Hw. unfold getOrCreateBrandWallet, getBrandByUserId, getPackageByName.
  run. rewrite Hb, Hw.
  destruct (String.eqb (current_package w) EmptyString
            || String.eqb (current_package w) "none"); eexists; split; reflexivity.
Qed.

(** What a successful getOrCreateBrandWallet returns and leaves behind. *)
Lemma getOrCreateBrandWallet_success now userId d wd d0 :
  getOrCreateBrandWallet now userId d = (Ok wd, d0) ->
  exists brand,
    find (fun b => Nat.eqb (br_user_id b) userId) (brands d) = Some brand
    /\ bw_brand_id (wallet wd) = br_id brand
    /\ brand_wallet_of (br_id brand) d0 = Some (wallet wd)
    /\ package wd =
         (if String.eqb (current_package (wallet wd)) EmptyString
             || String.eqb (current_package (wallet wd)) "none"
          then None
          else find (fun p => String.eqb (user_type p) "brand"
                              && String.eqb (pk_name p) (current_package (wallet wd))
                              && pk_is_active p) (packages d0))
    /\ brands d0 = brands d /\ packages d0 = packages d
    /\ ce_users d0 = ce_users d
    /\ brand_unlocked_creators d0 = brand_unlocked_creators d.
Proof.
  unfold getOrCreateBrandWallet, getBrandByUserId, getPackageByName,
    getFreeBrandPackage.
  run.
  destruct (find _ (brands d)) as [brand|] eqn:Hb; [|discriminate].
  destruct (brand_wallet_of (br_id brand) d) as [w|] eqn:Hw.
  - (* the wallet exists *)
    assert (Hbid : bw_brand_id w = br_id brand).
    { unfold brand_wallet_of in Hw. apply find_some in Hw as [_ Hw].
      apply Nat.eqb_eq in Hw. exact Hw. }
    destruct (String.eqb (current_package w) EmptyString
              || String.eqb (current_package w) "none") eqn:Hc;
      intros [= <- <-]; exists brand; simpl; rewrite Hc; repeat split; assumption.
  - (* the wallet is created with the free package, when there is one *)
    unfold brand_wallet_of in *.
    destruct (first_by_sort_order _) as [fp|] eqn:Hfp.
    + destruct (0 <? tokens_included fp); db_simpl; cbn [current_package];
        destruct (String.eqb (pk_name fp) EmptyString
                  || String.eqb (pk_name fp) "none") eqn:Hc;
        intros [= <- <-]; exists brand; simpl; db_simpl;
        rewrite ?Hc; rewrite (find_app_none _ _ _ Hw); simpl;
        unfold by_brand_id; simpl; rewrite Nat.eqb_refl;
        repeat split; reflexivity.
    + db_simpl. simpl. intros [= <- <-]. exists brand. simpl. db_simpl.
      rewrite (find_app_none _ _ _ Hw). simpl.
      unfold by_brand_id; simpl; rewrite Nat.eqb_refl.
      repeat split; reflexivity.
Qed.

(** What a successful unlockCreator has done. *)
Lemma unlockCreator_success now input d r d1 :
  unlockCreator now input d = (Ok r, d1) ->
  exists wd d0 pkg bt rec,
    getOrCreateBrandWallet now (brand_user_id input) d = (Ok wd, d0)
    /\ package wd = Some pkg
    /\ num_or (report_token_cost pkg) 5 <= token_balance (wallet wd)
    /\ ur_tokens_spent r = num_or (report_token_cost pkg) 5
    /\ remaining_token_balance r = token_balance (wallet wd) - ur_tokens_spent r
    /\ brand_wallets d1 =
         update_where (by_brand_id (bw_brand_id (wallet wd))) (fun w =>
           touch now
             (set_total_tokens_debited (total_tokens_debited w + ur_tokens_spent r)
             (set_token_balance (remaining_token_balance r) w)))
           (brand_wallets d0)
    /\ brand_transactions d1 = brand_transactions d0 ++ [bt]
    /\ bt_transaction_type bt = creator_unlock
    /\ bt_amount bt = ur_tokens_spent r
    /\ bt_balance_after bt = remaining_token_balance r
    /\ bt_status bt = completed
    /\ find (fun u => Nat.eqb (uc_brand_id u) (bw_brand_id (wallet wd))
                      && Nat.eqb (uc_creator_id u) (creator_id input))
            (brand_unlocked_creators d0) = None
    /\ brand_unlocked_creators d1 = brand_unlocked_creators d0 ++ [rec]
    /\ uc_brand_id rec = bw_brand_id (wallet wd)
    /\ uc_creator_id rec = creator_id input
    /\ brands d1 = brands d0 /\ packages d1 = packages d0.
Proof.
  unfold unlockCreator; cbv zeta. run.
  destruct (getOrCreateBrandWallet now (brand_user_id input) d)
    as [[wd|e] d0] eqn:Hg; [|discriminate].
  destruct (package wd) as [pkg|] eqn:Hp; [|discriminate].
  destruct (find _ (brand_unlocked_creators d0)) as [u|] eqn:Hu; [discriminate|].
  destruct (find _ (ce_users d0)) as [c|] eqn:Hc; [|discriminate].
  ztest; [discriminate|].
  db_simpl. intros [= <- <-]. simpl. db_simpl.
  exists wd, d0, pkg. do 2 eexists.
  repeat split; try reflexivity; assumption.
Qed.

(** C5 (as amended). Unlocking the same (brand, creator) pair a second time
    is rejected with the already-unlocked error and changes nothing: tokens
    are charged on the first call only, which lowers the token balance by
    the unlock cost and appends one debit transaction; the second call adds
    no transaction and leaves the balance as the first call left it. *)
Theorem unlock_twice_charges_once
    (now now' : Timestamp) (input : UnlockCreatorInput) (d d1 : Db)
    (r : UnlockCreatorResult) :
  unlockCreator now input d = (Ok r, d1) ->
  unlockCreator now' input d1 = (Err AlreadyUnlocked, d1)
  /\ exists wd d0 bt w1,
       getOrCreateBrandWallet now (brand_user_id input) d = (Ok wd, d0)
       /\ brand_transactions d1 = brand_transactions d0 ++ [bt]
       /\ bt_transaction_type bt = creator_unlock
       /\ bt_amount bt = ur_tokens_spent r
       /\ brand_wallet_of (bw_brand_id (wallet wd)) d1 = Some w1
       /\ token_balance w1 = token_balance (wallet wd) - ur_tokens_spent r.
Proof.
  intros Hrun.
  destruct (unlockCreator_success _ _ _ _ _ Hrun)
    as (wd & d0 & pkg & bt & rec & Hg & Hp & Hle & Hts & Hrem & Hbw & Hbt & Hty
        & Ham & _ & _ & Hnone & Hul & Hrb & Hrc & Hbr & Hpk).
  destruct (getOrCreateBrandWallet_success _ _ _ _ _ Hg)
    as (brand & Hb & Hbid & Hw0 & Hpkg & Hbr0 & _).
  assert (Hw1 : brand_wallet_of (br_id brand) d1 =
                Some (touch now
                        (set_total_tokens_debited
                           (total_tokens_debited (wallet wd) + ur_tokens_spent r)
                        (set_token_balance (remaining_token_balance r) (wallet wd))))).
  { unfold brand_wallet_of. rewrite Hbw, Hbid.
    rewrite find_update_where by reflexivity.
    unfold brand_wallet_of in Hw0. rewrite Hw0. reflexivity. }
  split.
  - (* the second call *)
    assert (Hb1 : find (fun b => Nat.eqb (br_user_id b) (brand_user_id input))
                       (brands d1) = Some brand)
      by (rewrite Hbr, Hbr0; exact Hb).
    destruct (getOrCreateBrandWallet_existing now' (brand_user_id input) d1 brand _
                Hb1 Hw1) as (pkg' & Hg' & Hpkg').
    assert (pkg' = Some pkg) as ->.
    { rewrite Hpkg'. cbn [current_package touch set_total_tokens_debited
                          set_token_balance].
      rewrite Hpk. rewrite <- Hpkg. exact Hp. }
    unfold unlockCreator; cbv zeta. run. rewrite Hg'.
    cbn [wallet package bw_brand_id touch set_total_tokens_debited
         set_token_balance].
    rewrite Hul.
    rewrite (find_app_none _ _ _ Hnone). simpl.
    rewrite Hrb, Hrc, !Nat.eqb_refl. reflexivity.
  - exists wd, d0, bt. eexists.
    split; [exact Hg|]. split; [exact Hbt|]. split; [exact Hty|].
    split; [exact Ham|]. split; [rewrite Hbid; exact Hw1|].
    simpl. exact Hrem.
Qed.

(** * The claims on the sample store *)

(** C1, witness: a release of 300 out of 500 on hold goes through; when the
    store rejects the insert of the creator's ledger row (statement 7), after
    the brand side and the creator's wallet were written, or the commit
    (statement 8), the store is the one before the call. *)
Lemma release_conservation_witness :
  release_effect 7 (sample_release 300) sample_db sample_brand_wallet
  /\ releaseEscrow_under (Some 7%nat) 7 (sample_release 300) sample_db
     = (Err StorageError, sample_db)
  /\ releaseEscrow_under (Some 8%nat) 7 (sample_release 300) sample_db
     = (Err StorageError, sample_db)
  /\ releaseEscrow_under None 7 (sample_release 0) sample_db
     = (Err AmountMustBePositive, sample_db).
Proof.
  destruct (release_conservation 7 (sample_release 300) sample_db)
    as (_ & Hok & _).
  destruct (Hok sample_brand_wallet) as [Heff Hfault];
    [reflexivity | simpl; lia | simpl; lia |].
  split; [exact Heff|].
  split; [exact (Hfault 7%nat ltac:(unfold release_statements; lia))|].
  split; [exact (Hfault 8%nat ltac:(unfold release_statements; lia))|].
  destruct (release_conservation 7 (sample_release 0) sample_db) as (Hrej & _).
  apply Hrej. simpl; lia.
Defined.

(** C1, counterexample: an amount of 0 is covered by the 500 on hold, yet the
    release is rejected by the amount guard: no balance moves and no ledger
    row is written. *)
Lemma release_of_zero_is_rejected :
  0 <= escrow_on_hold sample_brand_wallet
  /\ brand_wallet_of 1 sample_db = Some sample_brand_wallet
  /\ releaseEscrow 7 (sample_release 0) sample_db = (Err AmountMustBePositive, sample_db)
  /\ ~ release_effect 7 (sample_release 0) sample_db sample_brand_wallet.
Proof.
  split; [simpl; lia|]. split; [reflexivity|]. split; [reflexivity|].
  intros (r & d' & w' & cw' & bt & ct & Hrun & _).
  discriminate Hrun.
Qed.

(** C3, witness: a recharge of the "pro" package and an escrow deposit of the
    shortfall of 500 towards 1500, each verified twice. *)
Lemma verify_credits_once_witness :
  let d := sample_db_initiated "order_1" 100 in
  let d1 := exec (verifyRecharge sample_verifyPaymentSignature 7
                    (sample_verify "order_1")) d in
  let e := sample_db_deposit "order_9" 1500 in
  let e1 := exec (verifyEscrowDeposit sample_verifyPaymentSignature 7
                    (sample_verify "order_9")) e in
  verifyRecharge sample_verifyPaymentSignature 7 (sample_verify "order_1") d
    = (Ok (mkVerifyRechargeResponse 1000 50 70 "Pro"), d1)
  /\ verifyRecharge sample_verifyPaymentSignature 8 (sample_verify "order_1") d1
     = (Err TransactionNotFoundOrProcessed, d1)
  /\ verifyEscrowDeposit sample_verifyPaymentSignature 7 (sample_verify "order_9") e
     = (Ok (mkVerifyEscrowDepositResult 1500 500 1000), e1)
  /\ verifyEscrowDeposit sample_verifyPaymentSignature 8 (sample_verify "order_9") e1
     = (Err TransactionNotFoundOrProcessed, e1).
Proof.
  intros d d1 e e1. split; [reflexivity|].
  destruct (proj1 (verify_credits_once sample_verifyPaymentSignature 7 8
                     (sample_verify "order_1") (sample_verify "order_1") d d1
                     eq_refl)
              (mkVerifyRechargeResponse 1000 50 70 "Pro") eq_refl)
    as (t & w & w1 & t1 & _ & _ & _ & _ & _ & _ & _ & H).
  split; [exact H|]. split; [reflexivity|].
  destruct (proj2 (verify_credits_once sample_verifyPaymentSignature 7 8
                     (sample_verify "order_9") (sample_verify "order_9") e e1
                     eq_refl)
              (mkVerifyEscrowDepositResult 1500 500 1000) eq_refl)
    as (t' & w' & w1' & t1' & _ & _ & _ & _ & _ & _ & _ & H').
  exact H'.
Defined.

(** C4, witness: three hold/refund cycles of 300 on a balance of 1000. *)
Lemma hold_refund_round_trip_witness :
  brand_wallet_of 1 sample_db = Some sample_brand_wallet
  /\ 300 <= escrow_balance sample_brand_wallet
  /\ 0 <= escrow_on_hold sample_brand_wallet
  /\ exists wn,
       brand_wallet_of 1
         (Nat.iter 3 (hold_then_refund 7 1 10 9 "Launch" "cancelled" 300) sample_db)
         = Some wn
       /\ escrow_balance wn = 1000 /\ escrow_on_hold wn = 500.
Proof.
  split; [reflexivity|]. split; [simpl; lia|]. split; [simpl; lia|].
  apply (proj1 (hold_refund_round_trip 7 1 10 9 "Launch" "cancelled" 300 sample_db
                  sample_brand_wallet 3 eq_refl ltac:(simpl; lia) ltac:(simpl; lia))).
Defined.

(** C5, witness: the brand of user 10 unlocks creator 20 twice. *)
Lemma unlock_twice_charges_once_witness :
  let d1 := exec (unlockCreator 7 sample_unlock) sample_db in
  unlockCreator 7 sample_unlock sample_db
    = (Ok (mkUnlockCreatorResult 1001 20 5 15 7), d1)
  /\ unlockCreator 8 sample_unlock d1 = (Err AlreadyUnlocked, d1).
Proof.
  intros d1. split; [reflexivity|].
  apply (unlock_twice_charges_once 7 8 sample_unlock sample_db d1
           (mkUnlockCreatorResult 1001 20 5 15 7) eq_refl).
Defined.

(** C5, counterexample: the second unlock of the pair is an error, not a
    success. *)
Lemma unlock_again_is_an_error :
  ~ unlock_again_succeeds 7 8 sample_unlock sample_db.
Proof.
  intros H.
  destruct (H (mkUnlockCreatorResult 1001 20 5 15 7)
              (exec (unlockCreator 7 sample_unlock) sample_db) eq_refl)
    as (r' & d2 & Hr').
  vm_compute in Hr'. discriminate Hr'.
Qed.

(** C7, witness: balance 10000, withdrawal of 5000, processed as failed. *)
Lemma withdrawal_reservation_resolved_witness :
  wallet_of 20 sample_db = Some sample_wallet
  /\ 0 <= 5000 <= balance sample_wallet
  /\ transaction_ids_fresh sample_db = true
  /\ exists tx d1 w1 tx' d2 w2,
       requestWithdrawal 7 20 5000 30 sample_db = (Ok tx, d1)
       /\ wallet_of 20 d1 = Some w1
       /\ balance w1 = 5000 /\ pending_balance w1 = 5000
       /\ processWithdrawal 8 (t_id tx) false None (Some "bank rejected") d1
          = (Ok (Some tx'), d2)
       /\ t_status tx' = failed
       /\ wallet_of 20 d2 = Some w2
       /\ balance w2 = 10000 /\ pending_balance w2 = 0.
Proof.
  split; [reflexivity|]. split; [simpl; lia|]. split; [reflexivity|].
  destruct (withdrawal_reservation_resolved 7 8 20 30 5000 sample_db sample_wallet
              (mkBankAccount 30 20 "HDFC Bank" "000123456" vs_verified true true)
              None (Some "bank rejected") eq_refl eq_refl eq_refl
              ltac:(simpl; lia) eq_refl)
    as (tx & d1 & w1 & Hrun & _ & _ & Hw1 & Hb1 & Hp1
        & (tx' & d2 & w2 & Hrun2 & _ & Hst & Hw2 & Hb2 & Hp2 & _) & _).
  exists tx, d1, w1, tx', d2, w2.
  repeat split; assumption.
Defined.

(** C2. The withdrawal request has no guard on the sign of the amount: a
    request for -5 on a wallet with balance 10000 and pending balance 0
    fails the declared validation, reaches the service all the same, is
    answered 201 and leaves the pending balance at -5. *)
Theorem requestWithdrawal_negative_amount :
  let answer := post_withdrawals 7 20 (-5) 30 sample_db in
  amount_validation_passes (-5) = false
  /\ fst answer = (201%nat, Ok (withdrawal_row 1000 20 (-5) 30))
  /\ answer = (let (r, d') := requestWithdrawal 7 20 (-5) 30 sample_db in
               ((201%nat, r), d'))
  /\ option_map pending_balance (wallet_of 20 sample_db) = Some 0
  /\ option_map pending_balance (wallet_of 20 (snd answer)) = Some (-5)
  /\ option_map balance (wallet_of 20 (snd answer)) = Some 10005.
Proof. vm_compute. repeat split. Qed.

(** The insufficient-funds scenario: a hold of 5000 on an escrow balance of 1000
    fails with the insufficient-escrow error and changes nothing. *)
Lemma hold_insufficient_scenario :
  holdEscrow 7 (mkHoldEscrowInput 1 10 5000 9 "Launch") sample_db
  = (Err (InsufficientEscrowBalance 1000 5000), sample_db).
Proof. reflexivity. Qed.

(** C6. Nothing on the withdrawal path compares the amount with the
    minimum: a request for 1, below the minimum of 100, fails the declared
    validation, reaches the service all the same, is answered 201 with a
    pending withdrawal and reserves the funds. *)
Theorem requestWithdrawal_below_minimum :
  let answer := post_withdrawals 7 20 1 30 sample_db in
  1 < minimumWithdrawal
  /\ amount_validation_passes 1 = false
  /\ fst answer = (201%nat, Ok (withdrawal_row 1000 20 1 30))
  /\ answer = (let (r, d') := requestWithdrawal 7 20 1 30 sample_db in
               ((201%nat, r), d'))
  /\ t_status (withdrawal_row 1000 20 1 30) = pending
  /\ option_map balance (wallet_of 20 (snd answer)) = Some 9999
  /\ option_map pending_balance (wallet_of 20 (snd answer)) = Some 1.
Proof. vm_compute. repeat split. Qed.

(** The guards requestWithdrawal does have: a bank account that is not the user's or
    is not verified, a missing wallet and an uncovered amount are rejected
    and leave the store alone. *)
Lemma requestWithdrawal_guards now userId amount bankAccountId d :
  (find (fun a => Nat.eqb (ba_id a) bankAccountId && Nat.eqb (ba_user_id a) userId)
        (bank_accounts d) = None ->
   requestWithdrawal now userId amount bankAccountId d = (Err BankAccountNotFound, d))
  /\ (forall a,
        find (fun a => Nat.eqb (ba_id a) bankAccountId && Nat.eqb (ba_user_id a) userId)
             (bank_accounts d) = Some a ->
        verification_status a <> vs_verified ->
        requestWithdrawal now userId amount bankAccountId d
        = (Err BankAccountNotVerified, d))
  /\ (forall a w,
        find (fun a => Nat.eqb (ba_id a) bankAccountId && Nat.eqb (ba_user_id a) userId)
             (bank_accounts d) = Some a ->
        verification_status a = vs_verified ->
        wallet_of userId d = Some w ->
        balance w < amount ->
        requestWithdrawal now userId amount bankAccountId d
        = (Err InsufficientBalance, d)).
Proof.
  unfold requestWithdrawal. run. repeat split.
  - intros ->. reflexivity.
  - intros a -> Hv. destruct (verification_status a); try reflexivity. congruence.
  - intros a w -> ->. simpl. intros ->. ztest. reflexivity.
Qed.

(** ** Recharge: the package mapping and the failure paths *)

Section RechargeFacts.

Variable verifyPaymentSignature : string -> string -> string -> bool.
Variables (now : Timestamp) (input : VerifyInput) (d : Db) (t : BrandTransaction).

Hypothesis pending_found :
  find (pending_by_id_and_order (transaction_id input) (razorpay_order_id input))
       (brand_transactions d) = Some t.

(** On the verify path a package that is not a subscription only adds
    tokens: the package mapping of the wallet is left alone. *)
Lemma verifyRecharge_topup_frame r d1 w :
  verifyRecharge verifyPaymentSignature now input d = (Ok r, d1) ->
  String.eqb (str_or (md_package_type (bt_metadata t)) "subscription")
             "subscription" = false ->
  brand_wallet_of (bt_brand_id t) d = Some w ->
  exists w1,
    brand_wallet_of (bt_brand_id t) d1 = Some w1
    /\ current_package w1 = current_package w
    /\ current_package_id w1 = current_package_id w
    /\ package_activated_at w1 = package_activated_at w
    /\ package_expires_at w1 = package_expires_at w
    /\ token_balance w1 = token_balance w + vr_tokens_credited r
    /\ total_tokens_credited w1 = total_tokens_credited w + vr_tokens_credited r.
Proof.
  intros Hrun Hty Hw.
  destruct (verifyRecharge_success _ _ _ _ _ _ Hrun)
    as (t' & w' & Ht' & _ & _ & Hw' & _ & Hnb & Hbw & _).
  rewrite pending_found in Ht'. injection Ht' as <-.
  rewrite Hw in Hw'. injection Hw' as <-.
  eexists. split.
  - unfold brand_wallet_of. rewrite Hbw. rewrite find_update_where.
    + unfold brand_wallet_of in Hw. rewrite Hw. reflexivity.
    + intros x. unfold by_brand_id. rewrite brand_id_walletUpdate. reflexivity.
  - unfold walletUpdate. rewrite Hty. simpl. rewrite Hnb. repeat split.
Qed.

(** A bad signature fails the transaction. *)
Lemma verifyRecharge_bad_signature :
  verifyPaymentSignature (razorpay_order_id input) (razorpay_payment_id input)
    (razorpay_signature input) = false ->
  exists d',
    verifyRecharge verifyPaymentSignature now input d
      = (Err PaymentVerificationFailed, d')
    /\ brand_wallets d' = brand_wallets d
    /\ brand_transactions d' =
         update_where (bt_by_id (transaction_id input))
           (bt_fail InvalidPaymentSignature (Some (razorpay_payment_id input)))
           (brand_transactions d)
    /\ find (pending_by_id_and_order (transaction_id input) (razorpay_order_id input))
            (brand_transactions d') = None.
Proof.
  intros Hsig. unfold verifyRecharge; cbv zeta. run.
  rewrite pending_found, Hsig. simpl.
  eexists. repeat split. db_simpl.
  apply find_update_where_none.
  - intros x. unfold pending_by_id_and_order. simpl. apply andb_false_r.
  - intros x. apply pending_by_id_and_order_id.
Qed.

(** A failure inside the credit block rolls the wallet back and fails the
    transaction. *)
Lemma verifyRecharge_credit_failure :
  verifyPaymentSignature (razorpay_order_id input) (razorpay_payment_id input)
    (razorpay_signature input) = true ->
  0 < parseInt_or0 (md_tokens_included (bt_metadata t)) ->
  brand_wallet_of (bt_brand_id t) d = None ->
  exists d',
    verifyRecharge verifyPaymentSignature now input d = (Err CreditTokensFailed, d')
    /\ brand_wallets d' = brand_wallets d
    /\ brand_transactions d' =
         update_where (bt_by_id (transaction_id input))
           (bt_fail BrandWalletNotFound (Some (razorpay_payment_id input)))
           (brand_transactions d)
    /\ find (pending_by_id_and_order (transaction_id input) (razorpay_order_id input))
            (brand_transactions d') = None.
Proof.
  intros Hsig Hpos Hw. unfold verifyRecharge; cbv zeta. run.
  rewrite pending_found, Hsig. simpl. ztest. rewrite Hw.
  eexists. repeat split. db_simpl.
  apply find_update_where_none.
  - intros x. unfold pending_by_id_and_order. simpl. apply andb_false_r.
  - intros x. apply pending_by_id_and_order_id.
Qed.

(** The token-amount check throws before the credit block and outside its
    handler: the store is left as it was, the transaction still pending. *)
Lemma verifyRecharge_invalid_token_amount :
  verifyPaymentSignature (razorpay_order_id input) (razorpay_payment_id input)
    (razorpay_signature input) = true ->
  parseInt_or0 (md_tokens_included (bt_metadata t)) <= 0 ->
  verifyRecharge verifyPaymentSignature now input d = (Err InvalidTokenAmount, d).
Proof.
  intros Hsig Hle. unfold verifyRecharge; cbv zeta. run.
  rewrite pending_found, Hsig. simpl. ztest. reflexivity.
Qed.

End RechargeFacts.

(** C8. The webhook credits a top-up like a subscription: for the pending
    top-up purchase of the "booster" package on a wallet mapped to "pro",
    it adds the 25 tokens and also rewrites [current_package] to "booster"
    and [package_activated_at] to the time of the call.  Verifying the same
    purchase adds the tokens and leaves the mapping alone. *)
Theorem webhook_topup_rewrites_package :
  let d := sample_db_initiated "order_2" 101 in
  let payload := mkWebhookPayload (Some (mkPaymentEntity "order_2" "pay_2")) in
  let webhook :=
    handleWebhook true sample_webhookExpectedSignature 7 "payment.captured"
      payload "hmac_ok" d in
  let verify :=
    verifyRecharge sample_verifyPaymentSignature 7 (sample_verify "order_2") d in
  option_map (fun t => md_package_type (bt_metadata t))
    (find (pending_by_order "order_2") (brand_transactions d))
    = Some (Some "topup")
  /\ option_map current_package (brand_wallet_of 1 d) = Some "pro"
  /\ option_map package_activated_at (brand_wallet_of 1 d) = Some (Some 5)
  /\ fst webhook = Ok (mkWebhookResult true PaymentProcessed)
  /\ option_map token_balance (brand_wallet_of 1 (snd webhook)) = Some 45
  /\ option_map current_package (brand_wallet_of 1 (snd webhook)) = Some "booster"
  /\ option_map package_activated_at (brand_wallet_of 1 (snd webhook))
     = Some (Some 7)
  /\ fst verify = Ok (mkVerifyRechargeResponse 1000 25 45 "Booster")
  /\ option_map token_balance (brand_wallet_of 1 (snd verify)) = Some 45
  /\ option_map current_package (brand_wallet_of 1 (snd verify)) = Some "pro"
  /\ option_map package_activated_at (brand_wallet_of 1 (snd verify))
     = Some (Some 5).
Proof. vm_compute. repeat split. Qed.

(** C9. A purchase of the priced "audit" package, which carries no tokens,
    is initiated like any other; verifying it with a valid signature finds
    the pending transaction, passes authentication and then throws on the
    token amount, leaving the store unchanged: the transaction is still
    pending after the error. *)
Theorem verifyRecharge_zero_tokens_stays_pending :
  let d := sample_db_initiated "order_3" 102 in
  exists t,
    initiateRecharge 6 "order_3" (mkInitiateRechargeInput 102 1 10) sample_db
      = (Ok (mkInitiateRechargeResponse "order_3" 199900 1000 0), d)
    /\ find (pending_by_id_and_order 1000 "order_3") (brand_transactions d) = Some t
    /\ bt_status t = pending
    /\ sample_verifyPaymentSignature "order_3" "pay_1" "sig_ok" = true
    /\ verifyRecharge sample_verifyPaymentSignature 7 (sample_verify "order_3") d
       = (Err InvalidTokenAmount, d)
    /\ find (pending_by_id_and_order 1000 "order_3")
            (brand_transactions
               (exec (verifyRecharge sample_verifyPaymentSignature 7
                        (sample_verify "order_3")) d)) = Some t.
Proof. intros d. eexists. repeat split. Qed.

(** ** The balance snapshot of the ledger rows *)

(** The row a hold writes carries the escrow balance of the updated wallet
    row. *)
Lemma holdEscrow_balance_after now input d r d' :
  holdEscrow now input d = (Ok r, d') ->
  exists w' bt rows,
    brand_wallet_of (he_brand_id input) d' = Some w'
    /\ brand_transactions d' = rows ++ [bt]
    /\ bt_status bt = completed
    /\ bt_balance_after bt = escrow_balance w'.
Proof.
  intros Hrun.
  destruct (Z.le_gt_cases (he_amount input) 0) as [Hneg|Hpos].
  { rewrite holdEscrow_rejects_nonpositive in Hrun by exact Hneg. discriminate. }
  destruct (brand_wallet_of (he_brand_id input) d) as [w|] eqn:Hw.
  - destruct (Z.lt_ge_cases (escrow_balance w) (he_amount input)) as [Hlt|Hge].
    { rewrite (holdEscrow_rejects_insufficient now input d w Hpos Hw Hlt) in Hrun.
      discriminate. }
    destruct (holdEscrow_succeeds now input d w Hpos Hw Hge)
      as (d2 & Hrun2 & Hbw & Hbt & _).
    rewrite Hrun2 in Hrun. injection Hrun as <- <-.
    do 3 eexists. split.
    { unfold brand_wallet_of. rewrite Hbw.
      rewrite find_update_where by reflexivity.
      unfold brand_wallet_of in Hw. rewrite Hw. reflexivity. }
    split; [exact Hbt|]. split; reflexivity.
  - destruct (holdEscrow_rejects_missing_wallet now input d Hw) as [e He].
    rewrite He in Hrun. discriminate.
Qed.

(** C10. The withdrawal ledger rows carry no balance snapshot:
    createTransaction inserts the row without [balance_after] and
    updateTransactionStatus completes it without one.  After a withdrawal
    of 5000 from a balance of 10000 is processed as paid, the completed
    transaction has no [balance_after] while the wallet balance is 5000. *)
Theorem completed_withdrawal_has_no_balance_after :
  let requested := requestWithdrawal 7 20 5000 30 sample_db in
  let settled :=
    processWithdrawal 8 1000 true (Some "utr_1") None (snd requested) in
  fst requested = Ok (withdrawal_row 1000 20 5000 30)
  /\ fst settled =
       Ok (Some (mkTransaction 1000 20 withdrawal (-5000) completed None None None
                   (Some "bank_transfer") (Some 30%nat) (Some "utr_1") None
                   (Some 8) empty_metadata))
  /\ option_map t_balance_after
       (find (t_by_id 1000) (transactions (snd settled))) = Some None
  /\ option_map t_status
       (find (t_by_id 1000) (transactions (snd settled))) = Some completed
  /\ option_map balance (wallet_of 20 (snd settled)) = Some 5000
  /\ option_map pending_balance (wallet_of 20 (snd settled)) = Some 0.
Proof. vm_compute. repeat split. Qed.

(** ** The escrow pair stays non-negative *)

Lemma by_brand_id_other b b' w :
  b <> b' -> by_brand_id b w = true -> by_brand_id b' w = false.
Proof.
  unfold by_brand_id. intros Hne Hb. apply Nat.eqb_eq in Hb.
  apply Nat.eqb_neq. congruence.
Qed.

(** A rewrite of the rows of brand [b] that keeps the escrow pair of its
    first row non-negative keeps [escrow_nonneg]. *)
Lemma escrow_nonneg_update b f d d' w :
  escrow_nonneg d ->
  brand_wallet_of b d = Some w ->
  (forall x, bw_brand_id (f x) = bw_brand_id x) ->
  0 <= escrow_balance (f w) -> 0 <= escrow_on_hold (f w) ->
  brand_wallets d' = update_where (by_brand_id b) f (brand_wallets d) ->
  escrow_nonneg d'.
Proof.
  intros Hinv Hw Hf Hb Ho Hbw b' w'. unfold brand_wallet_of. rewrite Hbw.
  destruct (Nat.eq_dec b b') as [<-|Hne].
  - rewrite find_update_where
      by (intros x; unfold by_brand_id; rewrite Hf; reflexivity).
    unfold brand_wallet_of in Hw. rewrite Hw. intros [= <-]. auto.
  - rewrite find_update_where_other.
    + apply Hinv.
    + intros x. unfold by_brand_id. rewrite Hf. reflexivity.
    + intros x. apply by_brand_id_other. exact Hne.
Qed.

Lemma holdEscrow_keeps_nonneg now input d :
  escrow_nonneg d -> escrow_nonneg (exec (holdEscrow now input) d).
Proof.
  intros Hinv. unfold exec.
  destruct (Z.le_gt_cases (he_amount input) 0) as [Hneg|Hpos].
  { rewrite holdEscrow_rejects_nonpositive by exact Hneg. exact Hinv. }
  destruct (brand_wallet_of (he_brand_id input) d) as [w|] eqn:Hw.
  - destruct (Z.lt_ge_cases (escrow_balance w) (he_amount input)) as [Hlt|Hge].
    { rewrite (holdEscrow_rejects_insufficient now input d w Hpos Hw Hlt).
      exact Hinv. }
    destruct (holdEscrow_succeeds now input d w Hpos Hw Hge)
      as (d2 & Hrun & Hbw & _).
    rewrite Hrun. simpl.
    destruct (Hinv _ _ Hw) as [Hb Ho].
    eapply escrow_nonneg_update with (w := w); try eassumption;
      [reflexivity | simpl; lia | simpl; lia].
  - destruct (holdEscrow_rejects_missing_wallet now input d Hw) as [e He].
    rewrite He. exact Hinv.
Qed.

Lemma refundEscrow_keeps_nonneg now input d :
  escrow_nonneg d -> escrow_nonneg (exec (refundEscrow now input) d).
Proof.
  intros Hinv. unfold exec.
  destruct (refundEscrow now input d) as [[r|e] d'] eqn:Hrun; simpl.
  - destruct (Z.le_gt_cases (rf_amount input) 0) as [Hneg|Hpos].
    { rewrite refundEscrow_rejects_nonpositive in Hrun by exact Hneg. discriminate. }
    destruct (brand_wallet_of (rf_brand_id input) d) as [w|] eqn:Hw.
    + destruct (Z.lt_ge_cases (escrow_on_hold w) (rf_amount input)) as [Hlt|Hge].
      { revert Hrun. unfold refundEscrow; cbv zeta. ztest. run. rewrite Hw.
        ztest. discriminate. }
      destruct (refundEscrow_succeeds now input d w Hpos Hw Hge)
        as (d2 & Hrun2 & Hbw & _).
      rewrite Hrun2 in Hrun. injection Hrun as _ <-.
      destruct (Hinv _ _ Hw) as [Hb Ho].
      eapply escrow_nonneg_update with (w := w); try eassumption;
        [reflexivity | simpl; lia | simpl; lia].
    + revert Hrun. unfold refundEscrow; cbv zeta. ztest. run. rewrite Hw.
      discriminate.
  - replace d' with d; [exact Hinv|].
    revert Hrun. unfold refundEscrow; cbv zeta. ztest.
    + intros [= _ <-]. reflexivity.
    + intros Hrun. symmetry. exact (with_trx_error _ _ _ _ Hrun).
Qed.

Lemma releaseEscrow_keeps_nonneg now input d :
  escrow_nonneg d -> escrow_nonneg (exec (releaseEscrow now input) d).
Proof.
  intros Hinv. unfold exec.
  destruct (releaseEscrow now input d) as [[r|e] d'] eqn:Hrun; simpl.
  - revert Hrun. unfold releaseEscrow, releaseEscrow_under; cbv zeta. ztest; [discriminate|].
    run.
    destruct (brand_wallet_of (re_brand_id input) d) as [w|] eqn:Hw; [|discriminate].
    ztest; [discriminate|].
    destruct (returning_of_find (by_brand_id (re_brand_id input))
                (fun w => touch now
                   (set_total_escrow_released
                      (total_escrow_released w + re_amount input)
                   (set_escrow_on_hold (escrow_on_hold w - re_amount input) w)))
                _ _ Hw) as [rest Hret].
    rewrite Hret. db_simpl.
    destruct (Hinv _ _ Hw) as [Hb Ho].
    destruct (wallet_of (re_creator_id input) _) as [cw|];
      db_simpl; intros [= _ <-];
      (apply (escrow_nonneg_update (re_brand_id input)
                (fun w => touch now
                   (set_total_escrow_released
                      (total_escrow_released w + re_amount input)
                   (set_escrow_on_hold (escrow_on_hold w - re_amount input) w)))
                d _ w Hinv Hw);
       [reflexivity | simpl; lia | simpl; lia | reflexivity]).
  - rewrite (releaseEscrow_error_rolls_back _ _ _ _ _ Hrun). exact Hinv.
Qed.

(** * Further properties *)

(** ** Escrow: outcomes, books and isolation *)

Ltac run_more :=
  cbv beta iota zeta delta
    [bind ret throw gets modify with_trx try_catch stmt fresh_id exec
     update_brand_wallet update_wallet update_brand_transaction
     insert_brand_transaction insert_transaction update_bank_accounts
     update_wallet_returning].

(** Projections of an updated store, with the setters of the further
    services. *)
Ltac db_more :=
  cbn [brand_wallets brand_transactions wallets transactions bank_accounts
       packages brands ce_users brand_unlocked_creators next_id
       set_brand_wallets set_brand_transactions set_wallets set_transactions
       set_brand_unlocked_creators set_next_id set_bank_accounts set_packages
       fst snd] in *.

(** A rewrite of the rows of one brand keeps a property of all brand wallets
    that the rewritten first row has. *)
Lemma brand_wallets_update_keeps (P : BrandWallet -> Prop) b f d d' w :
  (forall b' w', brand_wallet_of b' d = Some w' -> P w') ->
  brand_wallet_of b d = Some w ->
  (forall x, bw_brand_id (f x) = bw_brand_id x) ->
  P (f w) ->
  brand_wallets d' = update_where (by_brand_id b) f (brand_wallets d) ->
  forall b' w', brand_wallet_of b' d' = Some w' -> P w'.
Proof.
  intros Hinv Hw Hf HP Hbw b' w'. unfold brand_wallet_of. rewrite Hbw.
  destruct (Nat.eq_dec b b') as [<-|Hne].
  - rewrite find_update_where
      by (intros x; unfold by_brand_id; rewrite Hf; reflexivity).
    unfold brand_wallet_of in Hw. rewrite Hw. intros [= <-]. exact HP.
  - rewrite find_update_where_other.
    + apply Hinv.
    + intros x. unfold by_brand_id. rewrite Hf. reflexivity.
    + intros x. apply by_brand_id_other. exact Hne.
Qed.

(** What a hold writes to the brand wallets: nothing when it throws, the move
    from balance to on-hold in the brand's rows when it succeeds. *)
Lemma holdEscrow_writes now input d :
  exec (holdEscrow now input) d = d
  \/ exists w,
       brand_wallet_of (he_brand_id input) d = Some w
       /\ 0 < he_amount input /\ he_amount input <= escrow_balance w
       /\ brand_wallets (exec (holdEscrow now input) d) =
            update_where (by_brand_id (he_brand_id input)) (fun w =>
              touch now (set_escrow_on_hold (escrow_on_hold w + he_amount input)
                        (set_escrow_balance (escrow_balance w - he_amount input) w)))
              (brand_wallets d).
Proof.
  unfold exec.
  destruct (Z.le_gt_cases (he_amount input) 0) as [Hneg|Hpos].
  { left. rewrite holdEscrow_rejects_nonpositive by exact Hneg. reflexivity. }
  destruct (brand_wallet_of (he_brand_id input) d) as [w|] eqn:Hw.
  - destruct (Z.lt_ge_cases (escrow_balance w) (he_amount input)) as [Hlt|Hge].
    + left. rewrite (holdEscrow_rejects_insufficient now input d w Hpos Hw Hlt).
      reflexivity.
    + right. exists w.
      destruct (holdEscrow_succeeds now input d w Hpos Hw Hge)
        as (d' & Hrun & Hbw & _).
      rewrite Hrun. repeat split; assumption.
  - left. destruct (holdEscrow_rejects_missing_wallet now input d Hw) as [e He].
    rewrite He. reflexivity.
Qed.

(** What a refund writes to the brand wallets. *)
Lemma refundEscrow_writes now input d :
  exec (refundEscrow now input) d = d
  \/ exists w,
       brand_wallet_of (rf_brand_id input) d = Some w
       /\ 0 < rf_amount input /\ rf_amount input <= escrow_on_hold w
       /\ brand_wallets (exec (refundEscrow now input) d) =
            update_where (by_brand_id (rf_brand_id input)) (fun w =>
              touch now
                (set_total_escrow_refunded (total_escrow_refunded w + rf_amount input)
                (set_escrow_balance (escrow_balance w + rf_amount input)
                (set_escrow_on_hold (escrow_on_hold w - rf_amount input) w))))
              (brand_wallets d).
Proof.
  unfold exec.
  destruct (Z.le_gt_cases (rf_amount input) 0) as [Hneg|Hpos].
  { left. rewrite refundEscrow_rejects_nonpositive by exact Hneg. reflexivity. }
  destruct (brand_wallet_of (rf_brand_id input) d) as [w|] eqn:Hw.
  - destruct (Z.lt_ge_cases (escrow_on_hold w) (rf_amount input)) as [Hlt|Hge].
    + left. unfold refundEscrow; cbv zeta. ztest. run. rewrite Hw. ztest.
      reflexivity.
    + right. exists w.
      destruct (refundEscrow_succeeds now input d w Hpos Hw Hge)
        as (d' & Hrun & Hbw & _).
      rewrite Hrun. repeat split; assumption.
  - left. unfold refundEscrow; cbv zeta. ztest. run. rewrite Hw. reflexivity.
Qed.

(** X1. holdEscrow, case by case.  It succeeds exactly when the amount is
    positive, the brand has a wallet and the escrow balance covers the
    amount; then it moves the amount from the balance to on-hold in the
    brand's rows, appends one completed escrow_hold row and touches nothing
    else.  In every other case it throws the matching error and the store is
    as before. *)
Theorem holdEscrow_outcome (now : Timestamp) (input : HoldEscrowInput) (d : Db) :
  (he_amount input <= 0
   /\ holdEscrow now input d = (Err AmountMustBePositive, d))
  \/ (0 < he_amount input
      /\ brand_wallet_of (he_brand_id input) d = None
      /\ holdEscrow now input d = (Err BrandWalletNotFound, d))
  \/ (exists w,
        0 < he_amount input
        /\ brand_wallet_of (he_brand_id input) d = Some w
        /\ escrow_balance w < he_amount input
        /\ holdEscrow now input d
           = (Err (InsufficientEscrowBalance (escrow_balance w) (he_amount input)), d))
  \/ (exists w d',
        0 < he_amount input
        /\ brand_wallet_of (he_brand_id input) d = Some w
        /\ he_amount input <= escrow_balance w
        /\ holdEscrow now input d
           = (Ok (mkHoldEscrowResult (escrow_balance w - he_amount input)
                                     (escrow_on_hold w + he_amount input)), d')
        /\ brand_wallets d' =
             update_where (by_brand_id (he_brand_id input)) (fun w =>
               touch now (set_escrow_on_hold (escrow_on_hold w + he_amount input)
                         (set_escrow_balance (escrow_balance w - he_amount input) w)))
               (brand_wallets d)
        /\ (exists bt, brand_transactions d' = brand_transactions d ++ [bt]
                       /\ bt_transaction_type bt = escrow_hold
                       /\ bt_amount bt = he_amount input
                       /\ bt_status bt = completed
                       /\ bt_reference_id bt = Some (he_campaign_id input))
        /\ wallets d' = wallets d /\ transactions d' = transactions d
        /\ bank_accounts d' = bank_accounts d
        /\ brand_unlocked_creators d' = brand_unlocked_creators d).
Proof.
  destruct (Z.le_gt_cases (he_amount input) 0) as [Hneg|Hpos].
  { left. split; [exact Hneg|]. apply holdEscrow_rejects_nonpositive. exact Hneg. }
  right.
  destruct (brand_wallet_of (he_brand_id input) d) as [w|] eqn:Hw.
  - right.
    destruct (Z.lt_ge_cases (escrow_balance w) (he_amount input)) as [Hlt|Hge].
    + left. exists w. repeat split; try assumption.
      apply holdEscrow_rejects_insufficient; assumption.
    + right. exists w.
      unfold holdEscrow; cbv zeta. ztest. run. rewrite Hw. ztest.
      destruct (returning_of_find (by_brand_id (he_brand_id input))
                  (fun w => touch now
                     (set_escrow_on_hold (escrow_on_hold w + he_amount input)
                     (set_escrow_balance (escrow_balance w - he_amount input) w)))
                  _ _ Hw) as [rest Hret].
      rewrite Hret. simpl.
      eexists. repeat split; try assumption.
      eexists. repeat split.
  - left. repeat split; [exact Hpos|].
    unfold holdEscrow; cbv zeta. ztest. run. rewrite Hw. reflexivity.
Qed.

(** X2. refundEscrow, case by case.  It succeeds exactly when the amount is
    positive, the brand has a wallet and the on-hold escrow covers the
    amount; then it moves the amount from on-hold back to the balance and
    adds it to the refunded total in the brand's rows, appends one completed
    escrow_refund row and touches nothing else.  In every other case it
    throws the matching error and the store is as before. *)
Theorem refundEscrow_outcome (now : Timestamp) (input : RefundEscrowInput) (d : Db) :
  (rf_amount input <= 0
   /\ refundEscrow now input d = (Err AmountMustBePositive, d))
  \/ (0 < rf_amount input
      /\ brand_wallet_of (rf_brand_id input) d = None
      /\ refundEscrow now input d = (Err BrandWalletNotFound, d))
  \/ (exists w,
        0 < rf_amount input
        /\ brand_wallet_of (rf_brand_id input) d = Some w
        /\ escrow_on_hold w < rf_amount input
        /\ refundEscrow now input d
           = (Err (InsufficientEscrowOnHold (escrow_on_hold w) (rf_amount input)), d))
  \/ (exists w d',
        0 < rf_amount input
        /\ brand_wallet_of (rf_brand_id input) d = Some w
        /\ rf_amount input <= escrow_on_hold w
        /\ refundEscrow now input d
           = (Ok (mkRefundEscrowResult (escrow_balance w + rf_amount input)
                    (escrow_on_hold w - rf_amount input)
                    (total_escrow_refunded w + rf_amount input)), d')
        /\ brand_wallets d' =
             update_where (by_brand_id (rf_brand_id input)) (fun w =>
               touch now
                 (set_total_escrow_refunded (total_escrow_refunded w + rf_amount input)
                 (set_escrow_balance (escrow_balance w + rf_amount input)
                 (set_escrow_on_hold (escrow_on_hold w - rf_amount input) w))))
               (brand_wallets d)
        /\ (exists bt, brand_transactions d' = brand_transactions d ++ [bt]
                       /\ bt_transaction_type bt = escrow_refund
                       /\ bt_amount bt = rf_amount input
                       /\ bt_status bt = completed
                       /\ bt_reference_id bt = Some (rf_campaign_id input))
        /\ wallets d' = wallets d /\ transactions d' = transactions d
        /\ bank_accounts d' = bank_accounts d
        /\ brand_unlocked_creators d' = brand_unlocked_creators d).
Proof.
  destruct (Z.le_gt_cases (rf_amount input) 0) as [Hneg|Hpos].
  { left. split; [exact Hneg|]. apply refundEscrow_rejects_nonpositive. exact Hneg. }
  right.
  destruct (brand_wallet_of (rf_brand_id input) d) as [w|] eqn:Hw.
  - right.
    destruct (Z.lt_ge_cases (escrow_on_hold w) (rf_amount input)) as [Hlt|Hge].
    + left. exists w. repeat split; try assumption.
      unfold refundEscrow; cbv zeta. ztest. run. rewrite Hw. ztest. reflexivity.
    + right. exists w.
      unfold refundEscrow; cbv zeta. ztest. run. rewrite Hw. ztest.
      destruct (returning_of_find (by_brand_id (rf_brand_id input))
                  (fun w => touch now
                     (set_total_escrow_refunded
                        (total_escrow_refunded w + rf_amount input)
                     (set_escrow_balance (escrow_balance w + rf_amount input)
                     (set_escrow_on_hold (escrow_on_hold w - rf_amount input) w))))
                  _ _ Hw) as [rest Hret].
      rewrite Hret. simpl.
      eexists. repeat split; try assumption.
      eexists. repeat split.
  - left. repeat split; [exact Hpos|].
    unfold refundEscrow; cbv zeta. ztest. run. rewrite Hw. reflexivity.
Qed.

Lemma brand_wallet_of_other b b' f d d' :
  b <> b' ->
  (forall x, bw_brand_id (f x) = bw_brand_id x) ->
  brand_wallets d' = update_where (by_brand_id b) f (brand_wallets d) ->
  brand_wallet_of b' d' = brand_wallet_of b' d.
Proof.
  intros Hne Hf Hbw. unfold brand_wallet_of. rewrite Hbw.
  apply find_update_where_other.
  - intros x. unfold by_brand_id. rewrite Hf. reflexivity.
  - intros x. apply by_brand_id_other. exact Hne.
Qed.

(** What a successful release wrote to the brand wallets. *)
Lemma releaseEscrow_success now input d r d' :
  releaseEscrow now input d = (Ok r, d') ->
  exists w,
    0 < re_amount input
    /\ brand_wallet_of (re_brand_id input) d = Some w
    /\ re_amount input <= escrow_on_hold w
    /\ brand_wallets d' =
         update_where (by_brand_id (re_brand_id input)) (fun w =>
           touch now
             (set_total_escrow_released (total_escrow_released w + re_amount input)
             (set_escrow_on_hold (escrow_on_hold w - re_amount input) w)))
           (brand_wallets d).
Proof.
  unfold releaseEscrow, releaseEscrow_under; cbv zeta. ztest; [discriminate|].
  run.
  destruct (brand_wallet_of (re_brand_id input) d) as [w|] eqn:Hw; [|discriminate].
  ztest; [discriminate|].
  destruct (returning_of_find (by_brand_id (re_brand_id input))
              (fun w => touch now
                 (set_total_escrow_released
                    (total_escrow_released w + re_amount input)
                 (set_escrow_on_hold (escrow_on_hold w - re_amount input) w)))
              _ _ Hw) as [rest Hret].
  rewrite Hret. db_simpl.
  destruct (wallet_of (re_creator_id input) _) as [cw|];
    db_simpl; intros [= _ <-]; exists w; repeat split; assumption.
Qed.

(** A deposit verification that throws has not touched the brand wallets. *)
Lemma verifyEscrowDeposit_error_wallets vps now input d e d' :
  verifyEscrowDeposit vps now input d = (Err e, d') ->
  brand_wallets d' = brand_wallets d.
Proof.
  unfold verifyEscrowDeposit; cbv zeta. run.
  destruct (find _ (brand_transactions d)) as [t|]; [|intros [= _ <-]; reflexivity].
  destruct (vps _ _ _); simpl; [|intros [= _ <-]; reflexivity].
  destruct (returning _ _ _) as [|x rest]; db_simpl; [|discriminate].
  intros [= _ <-]. reflexivity.
Qed.

(** X3. The escrow books stay balanced.  If for every brand wallet the
    deposited total equals balance + on-hold + released, the same holds
    after a hold, a release, a refund and a deposit verification, whatever
    their arguments and outcome. *)
Theorem escrow_books_stay_balanced (now : Timestamp) (d : Db) :
  escrow_books_balance d ->
  (forall input, escrow_books_balance (exec (holdEscrow now input) d))
  /\ (forall input, escrow_books_balance (exec (releaseEscrow now input) d))
  /\ (forall input, escrow_books_balance (exec (refundEscrow now input) d))
  /\ (forall verifyPaymentSignature input,
        escrow_books_balance
          (exec (verifyEscrowDeposit verifyPaymentSignature now input) d)).
Proof.
  intros Hinv. repeat split.
  - intros input.
    destruct (holdEscrow_writes now input d) as [->|(w & Hw & _ & _ & Hbw)];
      [exact Hinv|].
    unfold escrow_books_balance.
    eapply brand_wallets_update_keeps with (P := fun w =>
      escrow_balance w + escrow_on_hold w + total_escrow_released w
      = total_escrow_deposited w); try eassumption; [reflexivity|].
    simpl. pose proof (Hinv _ _ Hw). lia.
  - intros input. unfold exec.
    destruct (releaseEscrow now input d) as [[r|e] d'] eqn:Hrun; simpl.
    + destruct (releaseEscrow_success _ _ _ _ _ Hrun) as (w & _ & Hw & _ & Hbw).
      unfold escrow_books_balance.
      eapply brand_wallets_update_keeps with (P := fun w =>
        escrow_balance w + escrow_on_hold w + total_escrow_released w
        = total_escrow_deposited w); try eassumption; [reflexivity|].
      simpl. pose proof (Hinv _ _ Hw). lia.
    + rewrite (releaseEscrow_error_rolls_back _ _ _ _ _ Hrun). exact Hinv.
  - intros input.
    destruct (refundEscrow_writes now input d) as [->|(w & Hw & _ & _ & Hbw)];
      [exact Hinv|].
    unfold escrow_books_balance.
    eapply brand_wallets_update_keeps with (P := fun w =>
      escrow_balance w + escrow_on_hold w + total_escrow_released w
      = total_escrow_deposited w); try eassumption; [reflexivity|].
    simpl. pose proof (Hinv _ _ Hw). lia.
  - intros vps input. unfold exec.
    destruct (verifyEscrowDeposit vps now input d) as [[r|e] d'] eqn:Hrun; simpl.
    + destruct (verifyEscrowDeposit_success _ _ _ _ _ _ Hrun)
        as (t & w & _ & _ & Hw & _ & _ & Hbw & _).
      unfold escrow_books_balance.
      eapply brand_wallets_update_keeps with (P := fun w =>
        escrow_balance w + escrow_on_hold w + total_escrow_released w
        = total_escrow_deposited w); try eassumption; [reflexivity|].
      simpl. pose proof (Hinv _ _ Hw). lia.
    + intros b w. unfold brand_wallet_of.
      rewrite (verifyEscrowDeposit_error_wallets _ _ _ _ _ _ Hrun). apply Hinv.
Qed.

(** X4. Escrow operations are isolated per brand.  A hold, release or refund
    for one brand leaves the wallet of every other brand as it was. *)
Theorem escrow_operations_are_isolated (now : Timestamp) (d : Db) (b' : Id) :
  (forall input, he_brand_id input <> b' ->
     brand_wallet_of b' (exec (holdEscrow now input) d) = brand_wallet_of b' d)
  /\ (forall input, re_brand_id input <> b' ->
     brand_wallet_of b' (exec (releaseEscrow now input) d) = brand_wallet_of b' d)
  /\ (forall input, rf_brand_id input <> b' ->
     brand_wallet_of b' (exec (refundEscrow now input) d) = brand_wallet_of b' d).
Proof.
  repeat split; intros input Hne.
  - destruct (holdEscrow_writes now input d) as [->|(w & Hw & _ & _ & Hbw)];
      [reflexivity|].
    eapply brand_wallet_of_other; [exact Hne | | exact Hbw]. reflexivity.
  - unfold exec. destruct (releaseEscrow now input d) as [[r|e] d'] eqn:Hrun; simpl.
    + destruct (releaseEscrow_success _ _ _ _ _ Hrun) as (w & _ & Hw & _ & Hbw).
      eapply brand_wallet_of_other; [exact Hne | | exact Hbw]. reflexivity.
    + rewrite (releaseEscrow_error_rolls_back _ _ _ _ _ Hrun). reflexivity.
  - destruct (refundEscrow_writes now input d) as [->|(w & Hw & _ & _ & Hbw)];
      [reflexivity|].
    eapply brand_wallet_of_other; [exact Hne | | exact Hbw]. reflexivity.
Qed.

Lemma fresh_bt_id_not_found (q : BrandTransaction -> bool) (d : Db) :
  (forall t, q t = true -> bt_id t = next_id d) ->
  brand_transaction_ids_fresh d = true ->
  find q (brand_transactions d) = None.
Proof.
  unfold brand_transaction_ids_fresh. intros Hq.
  induction (brand_transactions d) as [|t l IH]; simpl; [reflexivity|].
  intros H. apply andb_prop in H as [Ht Hl]. apply Nat.ltb_lt in Ht.
  destruct (q t) eqn:Hqt; [|auto].
  apply Hq in Hqt. lia.
Qed.

Lemma update_where_none {R} (p : R -> bool) (f : R -> R) (rows : list R) :
  find p rows = None -> update_where p f rows = rows.
Proof.
  unfold update_where.
  induction rows as [|r rows IH]; simpl; [reflexivity|].
  destruct (p r); [discriminate|]. intros H. rewrite IH by exact H. reflexivity.
Qed.

(** X5. initiateEscrowDeposit writes only for a shortfall.  A non-positive
    amount and a missing wallet are rejected, and a balance that already
    covers the amount needs no payment; in these cases the store is as
    before.  Otherwise one pending escrow_deposit row for the shortfall
    [amount - balance] is appended, carrying the order id, and no wallet is
    changed. *)
Theorem initiateEscrowDeposit_outcome (order : string)
    (input : InitiateEscrowDepositInput) (d : Db) :
  (ied_amount input <= 0
   /\ initiateEscrowDeposit order input d = (Err AmountMustBePositive, d))
  \/ (0 < ied_amount input
      /\ brand_wallet_of (ied_brand_id input) d = None
      /\ initiateEscrowDeposit order input d = (Err BrandWalletNotSetUp, d))
  \/ (exists w,
        0 < ied_amount input
        /\ brand_wallet_of (ied_brand_id input) d = Some w
        /\ ied_amount input <= escrow_balance w
        /\ initiateEscrowDeposit order input d
           = (Ok (mkInitiateEscrowDepositResponse false 0 (escrow_balance w)
                    None None), d))
  \/ (exists w d' bt,
        0 < ied_amount input
        /\ brand_wallet_of (ied_brand_id input) d = Some w
        /\ escrow_balance w < ied_amount input
        /\ initiateEscrowDeposit order input d
           = (Ok (mkInitiateEscrowDepositResponse true
                    (ied_amount input - escrow_balance w) (escrow_balance w)
                    (Some order) (Some (next_id d))), d')
        /\ brand_transactions d' = brand_transactions d ++ [bt]
        /\ bt_id bt = next_id d
        /\ bt_brand_id bt = ied_brand_id input
        /\ bt_transaction_type bt = escrow_deposit
        /\ bt_amount bt = ied_amount input - escrow_balance w
        /\ bt_payment_gateway_id bt = Some order
        /\ bt_status bt = pending
        /\ brand_wallets d' = brand_wallets d
        /\ wallets d' = wallets d /\ transactions d' = transactions d).
Proof.
  unfold initiateEscrowDeposit; cbv zeta.
  destruct (Z.leb_spec (ied_amount input) 0) as [Hneg|Hpos].
  { left. split; [exact Hneg | reflexivity]. }
  right. run.
  destruct (brand_wallet_of (ied_brand_id input) d) as [w|] eqn:Hw.
  2:{ left. repeat split. exact Hpos. }
  right.
  destruct (Z.leb_spec (ied_amount input) (escrow_balance w)) as [Hle|Hlt].
  { left. exists w. repeat split; assumption. }
  right. exists w. do 2 eexists.
  split; [exact Hpos|]. split; [reflexivity|]. split; [exact Hlt|].
  split; [reflexivity|]. db_simpl. repeat split.
Qed.

(** The pending row initiateEscrowDeposit inserts for a shortfall. *)
Lemma initiateEscrowDeposit_shortfall order input d w :
  brand_wallet_of (ied_brand_id input) d = Some w ->
  0 < ied_amount input ->
  escrow_balance w < ied_amount input ->
  exists d' bt,
    initiateEscrowDeposit order input d
      = (Ok (mkInitiateEscrowDepositResponse true
               (ied_amount input - escrow_balance w) (escrow_balance w)
               (Some order) (Some (next_id d))), d')
    /\ brand_transactions d' = brand_transactions d ++ [bt]
    /\ bt_id bt = next_id d
    /\ bt_brand_id bt = ied_brand_id input
    /\ bt_amount bt = ied_amount input - escrow_balance w
    /\ bt_payment_gateway_id bt = Some order
    /\ bt_status bt = pending
    /\ brand_wallets d' = brand_wallets d.
Proof.
  intros Hw Hpos Hlt. unfold initiateEscrowDeposit; cbv zeta. ztest.
  run. rewrite Hw. ztest. db_simpl.
  do 2 eexists. split; [reflexivity|]. db_simpl. repeat split.
Qed.

(** X6. A deposit covers exactly the shortfall.  For a brand whose escrow
    balance is below the requested total, initiateEscrowDeposit followed by
    verifyEscrowDeposit of the returned transaction and order (with a payment
    the authority accepts) brings the escrow balance to exactly the requested
    total, getEscrowBalance reports it as available, and a hold of the whole
    total is then accepted and leaves an escrow balance of 0. *)
Theorem escrow_deposit_covers_shortfall
    (verifyPaymentSignature : string -> string -> string -> bool)
    (now now' : Timestamp) (order payment signature : string)
    (input : InitiateEscrowDepositInput) (user campaign : Id) (title : string)
    (d : Db) (w : BrandWallet) :
  brand_wallet_of (ied_brand_id input) d = Some w ->
  escrow_balance w < ied_amount input ->
  0 < ied_amount input ->
  brand_transaction_ids_fresh d = true ->
  verifyPaymentSignature order payment signature = true ->
  exists d1 d2 d3,
    initiateEscrowDeposit order input d
      = (Ok (mkInitiateEscrowDepositResponse true
               (ied_amount input - escrow_balance w) (escrow_balance w)
               (Some order) (Some (next_id d))), d1)
    /\ verifyEscrowDeposit verifyPaymentSignature now
         (mkVerifyInput order payment signature (next_id d)) d1
       = (Ok (mkVerifyEscrowDepositResult (ied_amount input)
                (ied_amount input - escrow_balance w) (next_id d)), d2)
    /\ fst (getEscrowBalance (ied_brand_id input) d2)
       = Ok (mkEscrowBalance (ied_amount input) (escrow_on_hold w)
               (ied_amount input)
               (total_escrow_deposited w + (ied_amount input - escrow_balance w))
               (total_escrow_released w) (total_escrow_refunded w))
    /\ holdEscrow now'
         (mkHoldEscrowInput (ied_brand_id input) user (ied_amount input)
            campaign title) d2
       = (Ok (mkHoldEscrowResult 0 (escrow_on_hold w + ied_amount input)), d3).
Proof.
  intros Hw Hlt Hpos Hfresh Hsig.
  destruct (initiateEscrowDeposit_shortfall order input d w Hw Hpos Hlt)
    as (d1 & bt & Hrun & Hbt & Hid & Hbrand & Hamt & Hpg & Hst & Hbw).
  assert (Hfind : find (pending_by_id_and_order (next_id d) order)
                    (brand_transactions d1) = Some bt).
  { rewrite Hbt. rewrite find_app_none.
    - simpl. unfold pending_by_id_and_order. rewrite Hid, Hpg, Hst.
      rewrite Nat.eqb_refl. simpl. rewrite String.eqb_refl. reflexivity.
    - apply fresh_bt_id_not_found; [|exact Hfresh].
      intros t Ht. apply pending_by_id_and_order_id in Ht.
      unfold bt_by_id in Ht. apply Nat.eqb_eq in Ht. exact Ht. }
  assert (Hw1 : brand_wallet_of (ied_brand_id input) d1 = Some w).
  { unfold brand_wallet_of. rewrite Hbw. exact Hw. }
  set (f := fun x : BrandWallet => touch now
         (set_total_escrow_deposited
            (total_escrow_deposited x + (ied_amount input - escrow_balance w))
         (set_escrow_balance
            (escrow_balance x + (ied_amount input - escrow_balance w)) x))).
  destruct (returning_of_find (by_brand_id (ied_brand_id input)) f _ _ Hw1)
    as [rest Hret].
  unfold brand_wallet_of in Hw1.
  assert (Hver : exists d2,
    verifyEscrowDeposit verifyPaymentSignature now
      (mkVerifyInput order payment signature (next_id d)) d1
    = (Ok (mkVerifyEscrowDepositResult (ied_amount input)
             (ied_amount input - escrow_balance w) (next_id d)), d2)
    /\ brand_wallets d2
       = update_where (by_brand_id (ied_brand_id input)) f (brand_wallets d1)).
  { unfold verifyEscrowDeposit; cbv zeta. run. simpl.
    rewrite Hfind, Hsig. simpl. rewrite Hbrand, Hamt.
    fold f. rewrite Hret. db_simpl.
    eexists. split.
    - unfold f. simpl. repeat f_equal. lia.
    - db_simpl. reflexivity. }
  destruct Hver as (d2 & Hver & Hbw2).
  assert (Hw2 : brand_wallet_of (ied_brand_id input) d2 = Some (f w)).
  { unfold brand_wallet_of. rewrite Hbw2.
    rewrite find_update_where by reflexivity. rewrite Hw1. reflexivity. }
  destruct (holdEscrow_succeeds now'
              (mkHoldEscrowInput (ied_brand_id input) user (ied_amount input)
                 campaign title) d2 (f w))
    as (d3 & Hhold & _); simpl; try assumption; try lia.
  exists d1, d2, d3. split; [exact Hrun|]. split; [exact Hver|]. split.
  - unfold getEscrowBalance. run. rewrite Hw2. simpl. repeat f_equal; lia.
  - rewrite Hhold. simpl. repeat f_equal; lia.
Qed.

(** ** Bank accounts *)

Lemma in_update_where {R} (p : R -> bool) (f : R -> R) (rows : list R) (a : R) :
  In a (update_where p f rows) <->
  exists x, In x rows /\ a = if p x then f x else x.
Proof.
  unfold update_where. rewrite in_map_iff.
  split; intros (x & H1 & H2); exists x; split; auto.
Qed.

Lemma in_listed_accounts u d a :
  In a (listed_accounts u d) <->
  In a (bank_accounts d) /\ active_of u a = true.
Proof.
  unfold listed_accounts, getBankAccounts, gets. simpl.
  rewrite in_app_iff, !filter_In, <- !in_rev, !filter_In.
  destruct (is_primary a); simpl; intuition congruence.
Qed.

Lemma listed_accounts_primary_first u d a :
  In a (bank_accounts d) -> active_of u a = true -> is_primary a = true ->
  exists x rest, listed_accounts u d = x :: rest /\ is_primary x = true.
Proof.
  intros Hin Hact Hprim.
  unfold listed_accounts, getBankAccounts, gets. simpl.
  assert (H : In a (filter is_primary
                      (rev (filter (active_of u) (bank_accounts d))))).
  { apply filter_In. split; [|exact Hprim].
    apply -> in_rev. apply filter_In. split; assumption. }
  destruct (filter is_primary (rev (filter (active_of u) (bank_accounts d))))
    as [|x rest] eqn:Hf; [contradiction|].
  exists x. eexists. split; [reflexivity|].
  assert (Hx : In x (x :: rest)) by (left; reflexivity).
  rewrite <- Hf in Hx. apply filter_In in Hx. apply Hx.
Qed.

(** X7. addBankAccount makes the first active account primary.  The new row
    is pending verification and active, and it is primary exactly when the
    user had no active account; so of two accounts added in a row the second
    is never primary, and the first one of a user without active accounts is
    listed first by getBankAccounts. *)
Theorem addBankAccount_primary_iff_first
    (userId : Id) (bankName accountNumber bankName' accountNumber' : string)
    (d : Db) :
  exists a d',
    addBankAccount userId bankName accountNumber d = (Ok a, d')
    /\ bank_accounts d' = bank_accounts d ++ [a]
    /\ ba_id a = next_id d /\ ba_user_id a = userId
    /\ verification_status a = vs_pending /\ ba_is_active a = true
    /\ is_primary a = negb (existsb (active_of userId) (bank_accounts d))
    /\ (exists a' d'',
          addBankAccount userId bankName' accountNumber' d' = (Ok a', d'')
          /\ is_primary a' = false)
    /\ (is_primary a = true -> listed_accounts userId d' = [a]).
Proof.
  unfold addBankAccount. run_more. db_simpl.
  do 2 eexists. split; [reflexivity|]. db_simpl.
  assert (Hlen : forall l : list BankAccount,
            Nat.eqb (List.length (filter (active_of userId) l)) 0
            = negb (existsb (active_of userId) l)).
  { induction l as [|x l IH]; simpl; [reflexivity|].
    destruct (active_of userId x); simpl; [reflexivity | exact IH]. }
  repeat split.
  - apply Hlen.
  - do 2 eexists. split; [reflexivity|]. simpl.
    rewrite filter_app, length_app. simpl.
    unfold active_of at 2. simpl. rewrite Nat.eqb_refl. simpl.
    apply Nat.eqb_neq. lia.
  - simpl. rewrite Hlen. intros Hp. rewrite Hp.
    unfold listed_accounts, getBankAccounts, gets. simpl.
    rewrite filter_app. simpl.
    match goal with
    | |- context [if active_of userId ?a then _ else _] =>
      replace (active_of userId a) with true
        by (unfold active_of; simpl; rewrite Nat.eqb_refl; reflexivity)
    end.
    replace (filter (active_of userId) (bank_accounts d)) with (@nil BankAccount).
    + reflexivity.
    + symmetry. apply negb_true_iff in Hp.
      induction (bank_accounts d) as [|x l IH]; simpl in *; [reflexivity|].
      apply orb_false_iff in Hp as [Hx Hl]. rewrite Hx. auto.
Qed.

(** X8. setPrimaryAccount leaves exactly the chosen account primary.  For an
    account that is the user's, afterwards an account of the user is primary
    exactly when it has the chosen id, the chosen account is among them, and
    nothing but primary flags has changed.  For an id that is not an account
    of the user the call throws and the store is as before. *)
Theorem setPrimaryAccount_outcome (userId accountId : Id) (d : Db) :
  (find (owned_account accountId userId) (bank_accounts d) = None
   /\ setPrimaryAccount userId accountId d = (Err BankAccountNotFound, d))
  \/ (exists acc d',
        find (owned_account accountId userId) (bank_accounts d) = Some acc
        /\ setPrimaryAccount userId accountId d = (Ok tt, d')
        /\ (forall a, In a (bank_accounts d') -> ba_user_id a = userId ->
                      is_primary a = Nat.eqb (ba_id a) accountId)
        /\ In (set_is_primary true acc) (bank_accounts d')
        /\ map (set_is_primary false) (bank_accounts d')
           = map (set_is_primary false) (bank_accounts d)
        /\ wallets d' = wallets d /\ transactions d' = transactions d).
Proof.
  unfold setPrimaryAccount. run_more.
  destruct (find (owned_account accountId userId) (bank_accounts d))
    as [acc|] eqn:Hacc.
  2:{ left. split; reflexivity. }
  right. exists acc. eexists. split; [reflexivity|]. split; [reflexivity|].
  db_simpl. repeat split.
  - intros a Ha Hu.
    apply in_update_where in Ha as (x & Hx & ->).
    apply in_update_where in Hx as (y & Hy & ->).
    unfold ba_by_id, ba_by_user in *.
    destruct (Nat.eqb (ba_user_id y) userId) eqn:Hyu; simpl in *;
      destruct (Nat.eqb (ba_id y) accountId) eqn:Hyi; simpl in *;
      try rewrite Hyi; try reflexivity.
    apply Nat.eqb_neq in Hyu. contradiction.
  - apply find_some in Hacc as [Hin Hown].
    unfold owned_account in Hown. apply andb_prop in Hown as [Hi Hu].
    apply in_update_where. exists (set_is_primary false acc). split.
    + apply in_update_where. exists acc. split; [exact Hin|].
      unfold ba_by_user. rewrite Hu. reflexivity.
    + unfold ba_by_id. simpl. rewrite Hi. reflexivity.
  - simpl. unfold update_where. rewrite !map_map. apply map_ext.
    intros a. unfold ba_by_id, ba_by_user.
    destruct (Nat.eqb (ba_user_id a) userId); simpl;
      destruct (Nat.eqb (ba_id a) accountId); reflexivity.
Qed.

(** X9. deleteBankAccount deactivates and hands the primary flag on.  For an
    account that is the user's, afterwards getBankAccounts lists no account
    with the deleted id; when the deleted account was primary and the user
    has another active account, the list starts with a primary account.  For
    an id that is not an account of the user the call throws and the store is
    as before. *)
Theorem deleteBankAccount_outcome (userId accountId : Id) (d : Db) :
  (find (owned_account accountId userId) (bank_accounts d) = None
   /\ deleteBankAccount userId accountId d = (Err BankAccountNotFound, d))
  \/ (exists acc d',
        find (owned_account accountId userId) (bank_accounts d) = Some acc
        /\ deleteBankAccount userId accountId d = (Ok tt, d')
        /\ (forall a, In a (listed_accounts userId d') -> ba_id a <> accountId)
        /\ (forall a, In a (listed_accounts userId d) -> ba_id a <> accountId ->
              exists a', In a' (listed_accounts userId d') /\ ba_id a' = ba_id a)
        /\ (is_primary acc = true ->
            (exists other, In other (listed_accounts userId d)
                           /\ ba_id other <> accountId) ->
            exists x rest, listed_accounts userId d' = x :: rest
                           /\ is_primary x = true)
        /\ wallets d' = wallets d /\ transactions d' = transactions d).
Proof.
  unfold deleteBankAccount.
  destruct (find (owned_account accountId userId) (bank_accounts d))
    as [acc|] eqn:Hacc.
  2:{ left. run_more. rewrite Hacc. split; reflexivity. }
  right. exists acc.
  set (rows1 := update_where (ba_by_id accountId) (set_is_active false)
                  (bank_accounts d)).
  assert (Hkeep : forall a, In a (bank_accounts d) -> ba_id a <> accountId ->
                            In a rows1).
  { intros a Ha Hne. apply in_update_where. exists a. split; [exact Ha|].
    unfold ba_by_id. apply Nat.eqb_neq in Hne. rewrite Hne. reflexivity. }
  assert (Hgone : forall a, In a rows1 -> ba_is_active a = true ->
                            ba_id a <> accountId).
  { intros a Ha Hact. apply in_update_where in Ha as (x & Hx & ->).
    unfold ba_by_id in *. destruct (Nat.eqb_spec (ba_id x) accountId).
    - simpl in Hact. discriminate.
    - assumption. }
  run_more. rewrite Hacc. db_more. fold rows1.
  destruct (is_primary acc) eqn:Hprim.
  - destruct (find (active_of userId) rows1) as [nxt|] eqn:Hnxt.
    + db_more. rewrite Hnxt. eexists. split; [reflexivity|]. split; [reflexivity|].
      repeat split.
      * intros a Ha. apply in_listed_accounts in Ha as [Ha Hact].
        simpl in Ha. apply in_update_where in Ha as (x & Hx & ->).
        unfold active_of in Hact. apply andb_prop in Hact as [_ Hact].
        destruct (ba_by_id (ba_id nxt) x); simpl in *; apply Hgone; assumption.
      * intros a Ha Hne. apply in_listed_accounts in Ha as [Ha Hact].
        exists (if ba_by_id (ba_id nxt) a then set_is_primary true a else a).
        split.
        -- apply in_listed_accounts. split.
           ++ simpl. apply in_update_where. exists a. split; [|reflexivity].
              apply Hkeep; assumption.
           ++ destruct (ba_by_id (ba_id nxt) a); exact Hact.
        -- destruct (ba_by_id (ba_id nxt) a); reflexivity.
      * intros _ _.
        apply find_some in Hnxt as [Hin Hact].
        apply listed_accounts_primary_first with (a := set_is_primary true nxt).
        -- simpl. apply in_update_where. exists nxt. split; [exact Hin|].
           unfold ba_by_id. rewrite Nat.eqb_refl. reflexivity.
        -- exact Hact.
        -- reflexivity.
    + db_more. rewrite Hnxt. eexists. split; [reflexivity|]. split; [reflexivity|].
      repeat split.
      * intros a Ha. apply in_listed_accounts in Ha as [Ha Hact].
        simpl in Ha. unfold active_of in Hact.
        apply andb_prop in Hact as [_ Hact]. apply Hgone; assumption.
      * intros a Ha Hne. apply in_listed_accounts in Ha as [Ha Hact].
        exists a. split; [|reflexivity].
        apply in_listed_accounts. split; [|exact Hact].
        simpl. apply Hkeep; assumption.
      * intros _ (other & Ho & Hne). exfalso.
        apply in_listed_accounts in Ho as [Ho Hact].
        pose proof (find_none _ _ Hnxt other (Hkeep _ Ho Hne)). congruence.
  - db_more. eexists. split; [reflexivity|]. split; [reflexivity|].
    repeat split.
    + intros a Ha. apply in_listed_accounts in Ha as [Ha Hact].
      simpl in Ha. unfold active_of in Hact.
      apply andb_prop in Hact as [_ Hact]. apply Hgone; assumption.
    + intros a Ha Hne. apply in_listed_accounts in Ha as [Ha Hact].
      exists a. split; [|reflexivity].
      apply in_listed_accounts. split; [|exact Hact].
      simpl. apply Hkeep; assumption.
    + discriminate.
Qed.

Lemma find_update_where_map {R} (p q : R -> bool) (f : R -> R) (rows : list R) :
  (forall r, q (f r) = q r) ->
  find q (update_where p f rows)
  = option_map (fun r => if p r then f r else r) (find q rows).
Proof.
  intros Hf.
  induction rows as [|r rows IH]; simpl; [reflexivity|].
  destruct (p r) eqn:Hr.
  - rewrite Hf. destruct (q r); [simpl; rewrite Hr; reflexivity | exact IH].
  - destruct (q r); [simpl; rewrite Hr; reflexivity | exact IH].
Qed.

Lemma fresh_bank_account_not_found (q : BankAccount -> bool) (d : Db) :
  (forall a, q a = true -> ba_id a = next_id d) ->
  bank_account_ids_fresh d = true ->
  find q (bank_accounts d) = None.
Proof.
  unfold bank_account_ids_fresh. intros Hq.
  induction (bank_accounts d) as [|a l IH]; simpl; [reflexivity|].
  intros H. apply andb_prop in H as [Ha Hl]. apply Nat.ltb_lt in Ha.
  destruct (q a) eqn:Hqa; [|auto].
  apply Hq in Hqa. lia.
Qed.

(** X10. Only a verified bank account opens withdrawals.  For a creator whose
    wallet covers the amount: a withdrawal to a newly added account is
    rejected as not verified, and still so after an admin rejects the
    account; after the admin verifies it the withdrawal is accepted and names
    the account.  requestWithdrawal reads only owner and verification status
    of the account: deleting the verified account afterwards does not stop a
    withdrawal to it. *)
Theorem withdrawal_needs_verified_account
    (now : Timestamp) (userId : Id) (bankName accountNumber : string)
    (amount : Z) (d : Db) (w : Wallet) :
  bank_account_ids_fresh d = true ->
  wallet_of userId d = Some w ->
  amount <= balance w ->
  let i := next_id d in
  let d1 := exec (addBankAccount userId bankName accountNumber) d in
  let rejected := exec (verifyBankAccount i false) d1 in
  let verified := exec (verifyBankAccount i true) d1 in
  let deleted := exec (deleteBankAccount userId i) verified in
  requestWithdrawal now userId amount i d1 = (Err BankAccountNotVerified, d1)
  /\ requestWithdrawal now userId amount i rejected
     = (Err BankAccountNotVerified, rejected)
  /\ (exists d3,
        requestWithdrawal now userId amount i verified
        = (Ok (withdrawal_row (next_id verified) userId amount i), d3))
  /\ fst (deleteBankAccount userId i verified) = Ok tt
  /\ listed_accounts userId deleted = listed_accounts userId d
  /\ (exists d3,
        requestWithdrawal now userId amount i deleted
        = (Ok (withdrawal_row (next_id deleted) userId amount i), d3)).
Proof.
  intros Hfresh Hw Hle i d1 rejected verified deleted.
  assert (Hnone : find (owned_account i userId) (bank_accounts d) = None).
  { apply fresh_bank_account_not_found; [|exact Hfresh].
    intros x Hx. unfold owned_account in Hx.
    apply andb_prop in Hx as [Hx _]. apply Nat.eqb_eq in Hx. exact Hx. }
  assert (Hid : find (ba_by_id i) (bank_accounts d) = None).
  { apply fresh_bank_account_not_found; [|exact Hfresh].
    intros x Hx. apply Nat.eqb_eq in Hx. exact Hx. }
  set (a := mkBankAccount i userId bankName accountNumber vs_pending
              (Nat.eqb (List.length (filter (active_of userId) (bank_accounts d))) 0)
              true).
  assert (Hd1 : bank_accounts d1 = bank_accounts d ++ [a]) by reflexivity.
  assert (Hw1 : wallets d1 = wallets d) by reflexivity.
  assert (Hfind1 : find (owned_account i userId) (bank_accounts d1) = Some a).
  { rewrite Hd1, find_app_none by exact Hnone.
    simpl. unfold owned_account. simpl. rewrite !Nat.eqb_refl. reflexivity. }
  assert (Hfindv : forall v,
            find (owned_account i userId)
              (bank_accounts (exec (verifyBankAccount i v) d1))
            = Some (set_verification_status
                      (if v then vs_verified else vs_rejected) a)).
  { intros v. unfold verifyBankAccount, exec. db_more.
    rewrite find_update_where_map by reflexivity. rewrite Hfind1. simpl.
    unfold ba_by_id. simpl. rewrite Nat.eqb_refl. reflexivity. }
  assert (Hrows : forall f x, ba_id x = i ->
            update_where (ba_by_id i) f (bank_accounts d ++ [x])
            = bank_accounts d ++ [f x]).
  { intros f x Hx. unfold update_where. rewrite map_app.
    fold (update_where (ba_by_id i) f (bank_accounts d)).
    rewrite update_where_none by exact Hid. simpl.
    unfold ba_by_id. rewrite Hx, Nat.eqb_refl. reflexivity. }
  assert (Hrv : bank_accounts verified
                = bank_accounts d ++ [set_verification_status vs_verified a]).
  { unfold verified, verifyBankAccount, exec. db_more. rewrite Hd1. apply Hrows. reflexivity. }
  pose proof (Hfindv true) as Hfv. fold verified in Hfv.
  pose proof (Hfindv false) as Hfr. fold rejected in Hfr.
  assert (Hdel : deleteBankAccount userId i verified
                 = (Ok tt, set_bank_accounts
                             (bank_accounts d ++
                              [set_is_active false
                                 (set_verification_status vs_verified a)])
                             verified)).
  { unfold deleteBankAccount. run_more. rewrite Hfv. db_more.
    rewrite Hrv, Hrows by reflexivity.
    destruct (is_primary (set_verification_status vs_verified a)) eqn:Hp;
      [|reflexivity].
    db_more.
    replace (find (active_of userId)
               (bank_accounts d ++
                [set_is_active false (set_verification_status vs_verified a)]))
      with (@None BankAccount); [reflexivity|].
    symmetry. simpl in Hp. apply Nat.eqb_eq in Hp.
    rewrite find_app_none.
    - simpl. unfold active_of. simpl. rewrite andb_false_r. reflexivity.
    - clear - Hp. induction (bank_accounts d) as [|x l IH]; simpl in *;
        [reflexivity|].
      destruct (active_of userId x); [discriminate | auto]. }
  destruct (requestWithdrawal_guards now userId amount i d1) as (_ & G1 & _).
  destruct (requestWithdrawal_guards now userId amount i rejected) as (_ & G2 & _).
  split; [apply (G1 a Hfind1); discriminate|].
  split; [apply (G2 _ Hfr); discriminate|].
  split.
  { destruct (requestWithdrawal_succeeds now userId i amount verified w _
                Hfv eq_refl Hw Hle) as (d3 & Hrun & _).
    exists d3. exact Hrun. }
  split; [rewrite Hdel; reflexivity|].
  unfold deleted, exec. rewrite Hdel. db_more.
  split.
  - unfold listed_accounts, getBankAccounts, gets. db_more.
    rewrite filter_app. simpl.
    replace (active_of userId
               (set_is_active false (set_verification_status vs_verified a)))
      with false by (unfold active_of; simpl; rewrite andb_false_r; reflexivity).
    rewrite app_nil_r. reflexivity.
  - destruct (requestWithdrawal_succeeds now userId i amount
                (set_bank_accounts
                   (bank_accounts d ++
                    [set_is_active false (set_verification_status vs_verified a)])
                   verified) w
                (set_is_active false (set_verification_status vs_verified a)))
      as (d3 & Hrun & _); try assumption; try reflexivity.
    + db_more. rewrite find_app_none by exact Hnone.
      simpl. unfold owned_account. simpl. rewrite !Nat.eqb_refl. reflexivity.
    + exists d3. exact Hrun.
Qed.

(** ** Creator wallets: withdrawals and reported balances *)

Lemma creator_funds_update u v f d d' :
  wallets d' = update_where (by_user_id v) f (wallets d) ->
  (forall w, w_user_id (f w) = w_user_id w) ->
  (forall w, balance (f w) + pending_balance (f w) + total_withdrawals (f w)
             = balance w + pending_balance w + total_withdrawals w) ->
  creator_funds u d' = creator_funds u d.
Proof.
  intros Hws Hid Hsum. unfold creator_funds, wallet_of. rewrite Hws.
  rewrite find_update_where_map
    by (intros r; unfold by_user_id; rewrite Hid; reflexivity).
  destruct (find (by_user_id u) (wallets d)) as [w|]; simpl; [|reflexivity].
  destruct (by_user_id v w); [apply Hsum | reflexivity].
Qed.

(** X11. Withdrawals move a creator's money between columns and never make or
    lose any.  Whatever its arguments and outcome, neither requestWithdrawal
    nor processWithdrawal changes balance + pending_balance +
    total_withdrawals of any wallet. *)
Theorem withdrawals_conserve_creator_funds (now : Timestamp) (u : Id) (d : Db) :
  (forall userId amount bankAccountId,
     creator_funds u (exec (requestWithdrawal now userId amount bankAccountId) d)
     = creator_funds u d)
  /\ (forall transactionId success externalTransactionId failureReason,
        creator_funds u
          (exec (processWithdrawal now transactionId success
                   externalTransactionId failureReason) d)
        = creator_funds u d).
Proof.
  split.
  - intros userId amount bankAccountId.
    unfold requestWithdrawal, createTransaction. run.
    destruct (find _ (bank_accounts d)) as [a|]; [|reflexivity].
    destruct (is_verified (verification_status a)); simpl; [|reflexivity].
    destruct (wallet_of userId d) as [w|]; [|reflexivity].
    destruct (balance w <? amount); [reflexivity|]. db_simpl.
    eapply creator_funds_update with (v := userId);
      [reflexivity | reflexivity | intros x; simpl; lia].
  - intros i success ext reason.
    unfold processWithdrawal, updateTransactionStatus, getTransactionById. run.
    destruct (find (t_by_id i) (transactions d)) as [t|]; [|reflexivity].
    destruct (is_withdrawal (t_transaction_type t)); simpl; [|reflexivity].
    destruct (negb (status_eqb (t_status t) pending)
              && negb (status_eqb (t_status t) processing)); [reflexivity|].
    destruct success; db_simpl;
      (eapply creator_funds_update with (v := t_user_id t);
       [reflexivity | reflexivity | intros x; simpl; lia]).
Qed.

(** X12. processWithdrawal, case by case.  It settles exactly the withdrawals
    that are pending or processing: the rows with the id take the new status
    and the wallet rows of the transaction's user are settled by the absolute
    amount.  An unknown id, a transaction of another type and a transaction
    in any other status are rejected with their own errors, and the store is
    as before. *)
Theorem processWithdrawal_outcome (now : Timestamp) (transactionId : Id)
    (success : bool) (externalTransactionId failureReason : option string)
    (d : Db) :
  let run := processWithdrawal now transactionId success externalTransactionId
               failureReason d in
  let found := find (t_by_id transactionId) (transactions d) in
  (found = None /\ run = (Err TransactionNotFound, d))
  \/ (exists t, found = Some t
                /\ t_transaction_type t <> withdrawal
                /\ run = (Err NotAWithdrawal, d))
  \/ (exists t, found = Some t
                /\ t_transaction_type t = withdrawal
                /\ t_status t <> pending /\ t_status t <> processing
                /\ run = (Err CannotBeProcessed, d))
  \/ (exists t d',
        found = Some t
        /\ t_transaction_type t = withdrawal
        /\ (t_status t = pending \/ t_status t = processing)
        /\ run = (Ok (Some (apply_status_updates now
                              (if success then completed else failed)
                              (if success then externalTransactionId else None)
                              (if success then None else failureReason) t)), d')
        /\ transactions d' =
             update_where (t_by_id transactionId)
               (apply_status_updates now (if success then completed else failed)
                  (if success then externalTransactionId else None)
                  (if success then None else failureReason))
               (transactions d)
        /\ wallets d' =
             update_where (by_user_id (t_user_id t))
               (settle_wallet now success (Z.abs (t_amount t))) (wallets d)
        /\ brand_wallets d' = brand_wallets d
        /\ brand_transactions d' = brand_transactions d
        /\ bank_accounts d' = bank_accounts d).
Proof.
  cbv zeta.
  unfold processWithdrawal, updateTransactionStatus, getTransactionById. run.
  destruct (find (t_by_id transactionId) (transactions d)) as [t|] eqn:Hfind.
  2:{ left. split; reflexivity. }
  right.
  destruct (t_transaction_type t) eqn:Hty; simpl;
    try (left; exists t; split; [reflexivity|];
         split; [rewrite Hty; discriminate | reflexivity]).
  right.
  destruct (t_status t) eqn:Hst; simpl;
    try (left; exists t; split; [reflexivity|]; split; [exact Hty|];
         split; [rewrite Hst; discriminate|];
         split; [rewrite Hst; discriminate | reflexivity]).
  - right. exists t.
    destruct success; db_simpl;
      rewrite find_update_where by reflexivity; rewrite Hfind; simpl;
      eexists; (split; [reflexivity|]); (split; [exact Hty|]);
      (split; [left; exact Hst|]); repeat split.
  - right. exists t.
    destruct success; db_simpl;
      rewrite find_update_where by reflexivity; rewrite Hfind; simpl;
      eexists; (split; [reflexivity|]); (split; [exact Hty|]);
      (split; [right; exact Hst|]); repeat split.
Qed.

Lemma getOrCreateWallet_found u d w :
  wallet_of u d = Some w -> getOrCreateWallet u d = (Ok w, d).
Proof. intros H. unfold getOrCreateWallet. run. rewrite H. reflexivity. Qed.

Lemma unsettled_total_app u d rows :
  sumZ (map t_amount (filter (unsettled_withdrawal u) (transactions d ++ rows)))
  = unsettled_total u d
    + sumZ (map t_amount (filter (unsettled_withdrawal u) rows)).
Proof.
  unfold unsettled_total. rewrite filter_app, map_app.
  induction (map t_amount (filter (unsettled_withdrawal u) (transactions d)))
    as [|x l IH]; simpl; [reflexivity|].
  unfold sumZ in *. rewrite IH. lia.
Qed.

(** X13. The reserved amount is taken off twice in the reported availability.
    requestWithdrawal already moves the amount from balance to pending
    balance; getBalance then reports available_balance = balance -
    pending_balance and getWalletSummary reports available_for_withdrawal =
    balance - pending withdrawals, both over the reduced balance.  For a
    wallet with nothing reserved and an amount of 0 or more both figures are
    the old balance minus twice the amount. *)
Theorem reserved_amount_is_deducted_twice
    (now : Timestamp) (userId bankAccountId : Id) (amount : Z) (d : Db)
    (w : Wallet) (account : BankAccount) :
  find (fun a => Nat.eqb (ba_id a) bankAccountId && Nat.eqb (ba_user_id a) userId)
       (bank_accounts d) = Some account ->
  verification_status account = vs_verified ->
  wallet_of userId d = Some w ->
  0 <= amount <= balance w ->
  pending_balance w = 0 ->
  unsettled_total userId d = 0 ->
  exists tx d1 w1,
    requestWithdrawal now userId amount bankAccountId d = (Ok tx, d1)
    /\ wallet_of userId d1 = Some w1
    /\ balance w1 = balance w - amount
    /\ getBalance userId d1
       = (Ok (mkBalance (balance w - amount) amount (balance w - 2 * amount)), d1)
    /\ getWalletSummary userId d1
       = (Ok (mkWalletSummary w1 (total_earnings w) (total_withdrawals w)
                amount (balance w - 2 * amount)), d1)
    /\ fst (getTransactionSummary userId d1)
       = Ok (mkTransactionSummary
               (ts_total_deposits (transaction_summary_of userId d))
               (ts_total_withdrawals (transaction_summary_of userId d))
               (ts_total_earnings (transaction_summary_of userId d))
               (ts_total_spent (transaction_summary_of userId d))
               amount).
Proof.
  intros Hacc Hver Hw [Hpos Hle] Hpend Hunset.
  destruct (requestWithdrawal_succeeds now userId bankAccountId amount d w account
              Hacc Hver Hw Hle) as (d1 & Hrun & Htx & Hws & _).
  set (w1 := touch_wallet now (set_pending_balance (pending_balance w + amount)
                              (set_balance (balance w - amount) w))).
  assert (Hw1 : wallet_of userId d1 = Some w1).
  { unfold wallet_of. rewrite Hws. rewrite wallet_of_credit by reflexivity.
    unfold wallet_of in Hw. rewrite Hw. reflexivity. }
  assert (Hun1 : unsettled_total userId d1 = - amount).
  { unfold unsettled_total at 1. rewrite Htx, unsettled_total_app, Hunset.
    simpl. unfold unsettled_withdrawal. simpl. rewrite Nat.eqb_refl. simpl. lia. }
  exists (withdrawal_row (next_id d) userId amount bankAccountId), d1, w1.
  split; [exact Hrun|]. split; [exact Hw1|]. split; [reflexivity|].
  split; [|split].
  - unfold getBalance. run. fold (getOrCreateWallet userId d1).
    rewrite getOrCreateWallet_found with (w := w1) by exact Hw1.
    simpl. rewrite Hpend.
    replace (0 + amount) with amount by lia.
    replace (balance w - amount - amount) with (balance w - 2 * amount) by lia.
    reflexivity.
  - unfold getWalletSummary. run. fold (getOrCreateWallet userId d1).
    rewrite getOrCreateWallet_found with (w := w1) by exact Hw1.
    rewrite Hun1. simpl.
    replace (Z.abs (- amount)) with amount by lia.
    replace (balance w - amount - amount) with (balance w - 2 * amount) by lia.
    reflexivity.
  - unfold getTransactionSummary, transaction_summary_of, gets. simpl.
    rewrite Hun1, Htx. unfold sum_case. rewrite !filter_app. simpl.
    rewrite Nat.eqb_refl. simpl. rewrite !app_nil_r.
    replace (Z.abs (- amount)) with amount by lia. reflexivity.
Qed.

Lemma by_user_id_other u v w :
  u <> v -> by_user_id u w = true -> by_user_id v w = false.
Proof.
  unfold by_user_id. intros Hne Hb. apply Nat.eqb_eq in Hb.
  apply Nat.eqb_neq. congruence.
Qed.

Lemma find_app_some {R} (q : R -> bool) (l1 l2 : list R) (r : R) :
  find q l1 = Some r -> find q (l1 ++ l2) = Some r.
Proof.
  induction l1 as [|x l1 IH]; simpl; [discriminate|].
  destruct (q x); [auto | exact IH].
Qed.

(** What getOrCreateWallet returns and writes. *)
Lemma getOrCreateWallet_cases (userId : Id) (d : Db) :
  exists w d1,
    getOrCreateWallet userId d = (Ok w, d1)
    /\ wallet_of userId d1 = Some w
    /\ (forall w0, wallet_of userId d = Some w0 -> w = w0 /\ d1 = d)
    /\ (wallet_of userId d = None ->
        w = mkWallet userId 0 0 0 0 None None /\ wallets d1 = wallets d ++ [w])
    /\ (forall v, v <> userId -> wallet_of v d1 = wallet_of v d).
Proof.
  unfold getOrCreateWallet at 1. run.
  destruct (wallet_of userId d) as [w|] eqn:Hw.
  - exists w, d. split; [reflexivity|]. split; [exact Hw|].
    split; [intros w0 [= <-]; split; reflexivity|].
    split; [discriminate | reflexivity].
  - do 2 eexists. split; [reflexivity|].
    assert (Hw1 : wallet_of userId
                    (set_wallets (wallets d ++ [mkWallet userId 0 0 0 0 None None]) d)
                  = Some (mkWallet userId 0 0 0 0 None None)).
    { unfold wallet_of in *. db_simpl. rewrite find_app_none by exact Hw.
      simpl. unfold by_user_id. simpl. rewrite Nat.eqb_refl. reflexivity. }
    split; [exact Hw1|].
    split; [discriminate|].
    split; [intros _; split; reflexivity|].
    intros v Hne. unfold wallet_of. db_simpl.
    destruct (find (by_user_id v) (wallets d)) as [x|] eqn:Hx.
    + apply find_app_some. exact Hx.
    + rewrite find_app_none by exact Hx. simpl.
      unfold by_user_id. simpl.
      destruct (Nat.eqb_spec userId v); [congruence | reflexivity].
Qed.

(** X14. getOrCreateWallet creates once.  It returns the user's wallet row,
    inserting an empty one only when the user has none; a second call
    returns the same row and writes nothing, and no other user's wallet is
    touched. *)
Theorem getOrCreateWallet_idempotent (userId : Id) (d : Db) :
  exists w d1,
    getOrCreateWallet userId d = (Ok w, d1)
    /\ wallet_of userId d1 = Some w
    /\ getOrCreateWallet userId d1 = (Ok w, d1)
    /\ (forall w0, wallet_of userId d = Some w0 -> w = w0 /\ d1 = d)
    /\ (wallet_of userId d = None ->
        w = mkWallet userId 0 0 0 0 None None /\ wallets d1 = wallets d ++ [w])
    /\ (forall v, v <> userId -> wallet_of v d1 = wallet_of v d).
Proof.
  destruct (getOrCreateWallet_cases userId d)
    as (w & d1 & Hrun & Hw1 & Hsome & Hnone & Hother).
  exists w, d1. split; [exact Hrun|]. split; [exact Hw1|].
  split.
  { (* the second call finds the row the first one returned *)
    unfold getOrCreateWallet. run. rewrite Hw1. reflexivity. }
  split; [exact Hsome|]. split; [exact Hnone | exact Hother].
Qed.

(** X15. addEarnings credits balance and total earnings together.  It always
    succeeds (the wallet is created when missing), returns the updated row
    of the user, raises the creator's balance and total earnings by the
    amount and leaves pending balance and total withdrawals, each for
    itself, and every other user's wallet and the ledger alone. *)
Theorem addEarnings_credits (now : Timestamp) (userId : Id) (amount : Z) (d : Db) :
  exists w' d',
    addEarnings now userId amount d = (Ok (Some w'), d')
    /\ wallet_of userId d' = Some w'
    /\ balance w' = creator_balance userId d + amount
    /\ total_earnings w' = creator_total_earnings userId d + amount
    /\ pending_balance w' = creator_pending_balance userId d
    /\ total_withdrawals w' = creator_total_withdrawals userId d
    /\ w_user_id w' = userId
    /\ creator_funds userId d' = creator_funds userId d + amount
    /\ (forall v, v <> userId -> wallet_of v d' = wallet_of v d)
    /\ transactions d' = transactions d.
Proof.
  destruct (getOrCreateWallet_cases userId d)
    as (w & d1 & Hrun & Hw1 & Hsome & Hnone & Hother).
  set (f := fun w : Wallet =>
         touch_wallet now (set_total_earnings (total_earnings w + amount)
                          (set_balance (balance w + amount) w))).
  destruct (returning_of_find (by_user_id userId) f _ _ Hw1) as [rest Hret].
  exists (f w). eexists.
  split.
  { unfold addEarnings. run_more. fold (getOrCreateWallet userId d).
    rewrite Hrun. fold f. rewrite Hret. reflexivity. }
  db_simpl.
  assert (Hw' : wallet_of userId
                  (set_wallets (update_where (by_user_id userId) f (wallets d1)) d1)
                = Some (f w)).
  { unfold wallet_of in *. db_simpl.
    rewrite wallet_of_credit by reflexivity. rewrite Hw1. reflexivity. }
  assert (Hvals : balance w = creator_balance userId d
                  /\ total_earnings w = creator_total_earnings userId d
                  /\ pending_balance w = creator_pending_balance userId d
                  /\ total_withdrawals w = creator_total_withdrawals userId d
                  /\ balance w + pending_balance w + total_withdrawals w
                     = creator_funds userId d
                  /\ transactions d1 = transactions d).
  { unfold creator_balance, creator_total_earnings, creator_pending_balance,
      creator_total_withdrawals, creator_funds.
    destruct (wallet_of userId d) as [w0|] eqn:Hw0.
    - destruct (Hsome w0 eq_refl) as [-> ->]. repeat split.
    - destruct (Hnone eq_refl) as [-> Hws]. repeat split.
      revert Hrun. unfold getOrCreateWallet. run. rewrite Hw0.
      intros [= <-]. reflexivity. }
  destruct Hvals as (Hb & He & Hp & Htw & Hf & Ht).
  split; [exact Hw'|]. split; [simpl; lia|]. split; [simpl; lia|].
  split; [simpl; exact Hp|]. split; [simpl; exact Htw|].
  split.
  { simpl. unfold wallet_of in Hw1. apply find_some in Hw1 as [_ Hu].
    unfold by_user_id in Hu. apply Nat.eqb_eq in Hu. exact Hu. }
  split; [unfold creator_funds at 1; rewrite Hw'; simpl; lia|].
  split; [|exact Ht].
  intros v Hne. rewrite <- (Hother v Hne).
  unfold wallet_of. db_simpl. apply find_update_where_other.
  - reflexivity.
  - intros x. apply by_user_id_other. congruence.
Qed.

(** X16. deductFromWallet never overdraws.  With [w] the user's wallet (the
    empty one it creates when missing): an amount above the balance is
    rejected as insufficient and nothing but that creation is written;
    otherwise the balance goes down by the amount, stays at 0 or more, and
    the other columns are unchanged. *)
Theorem deductFromWallet_never_overdraws
    (now : Timestamp) (userId : Id) (amount : Z) (d : Db) :
  let d0 := exec (getOrCreateWallet userId) d in
  exists w,
    wallet_of userId d0 = Some w
    /\ ((balance w < amount
         /\ deductFromWallet now userId amount d = (Err InsufficientBalance, d0))
        \/ (amount <= balance w
            /\ exists w' d',
                 deductFromWallet now userId amount d = (Ok (Some w'), d')
                 /\ wallet_of userId d' = Some w'
                 /\ balance w' = balance w - amount
                 /\ 0 <= balance w'
                 /\ pending_balance w' = pending_balance w
                 /\ total_earnings w' = total_earnings w
                 /\ total_withdrawals w' = total_withdrawals w)).
Proof.
  cbv zeta. unfold exec.
  destruct (getOrCreateWallet_cases userId d)
    as (w & d1 & Hrun & Hw1 & _).
  rewrite Hrun. simpl. exists w. split; [exact Hw1|].
  unfold deductFromWallet. run_more. fold (getOrCreateWallet userId d).
  rewrite Hrun.
  destruct (Z.ltb_spec (balance w) amount) as [Hlt|Hge].
  - left. split; [exact Hlt | reflexivity].
  - right. split; [exact Hge|].
    set (f := fun w : Wallet => touch_wallet now (set_balance (balance w - amount) w)).
    destruct (returning_of_find (by_user_id userId) f _ _ Hw1) as [rest Hret].
    rewrite Hret. exists (f w). eexists. split; [reflexivity|].
    split.
    + unfold wallet_of in *. db_simpl.
      rewrite wallet_of_credit by reflexivity. rewrite Hw1. reflexivity.
    + simpl. repeat split; lia.
Qed.

(** ** Recharge: the webhook and the verify path *)

Section WebhookFacts.

Variable webhookSecretConfigured : bool.
Variable webhookExpectedSignature : WebhookPayload -> string.
Variables (now : Timestamp) (event : string) (payload : WebhookPayload).
Variables (signature : string) (d : Db).

Lemma handleWebhook_cases :
  (exists e,
     handleWebhook webhookSecretConfigured webhookExpectedSignature now event
       payload signature d = (Err e, d)
     /\ webhook_throws webhookSecretConfigured event payload e)
  \/ (exists r d',
        handleWebhook webhookSecretConfigured webhookExpectedSignature now event
          payload signature d = (Ok r, d')
        /\ ((processed r = false /\ d' = d)
            \/ (exists pe t w,
              processed r = true /\ message r = PaymentProcessed
              /\ event = "payment.captured"
              /\ payment_entity payload = Some pe
              /\ find (pending_by_order (pe_order_id pe)) (brand_transactions d)
                 = Some t
              /\ brand_wallet_of (bt_brand_id t) d = Some w
              /\ brand_wallets d' =
                   update_where (by_brand_id (bt_brand_id t)) (fun x =>
                     touch now
                       (set_package_mapping
                          (str_or (md_package_name (bt_metadata t)) "unknown")
                          (current_package_id x) (Some now) (package_expires_at x)
                       (set_total_tokens_credited
                          (total_tokens_credited x
                           + parseInt_or0 (md_tokens_included (bt_metadata t)))
                       (set_token_balance
                          (token_balance w
                           + parseInt_or0 (md_tokens_included (bt_metadata t)))
                          x))))
                     (brand_wallets d)
              /\ brand_transactions d' =
                   update_where (bt_by_id (bt_id t))
                     (bt_complete
                        (token_balance w
                         + parseInt_or0 (md_tokens_included (bt_metadata t)))
                        now (pe_id pe) (Some "webhook"))
                     (brand_transactions d)
              /\ wallets d' = wallets d /\ transactions d' = transactions d))).
Proof.
  unfold handleWebhook, webhook_throws; cbv zeta.
  assert (Hquiet : forall m,
            exists r d', (Ok (mkWebhookResult false m), d) = (Ok r, d')
                         /\ ((processed r = false /\ d' = d)
                             \/ False)).
  { intros m. do 2 eexists. split; [reflexivity|]. left. split; reflexivity. }
  destruct payload as [[pe|]|pid| |]; run;
    destruct webhookSecretConfigured; cbn [andb];
    try destruct (negb (String.eqb signature (webhookExpectedSignature _)));
    cbn [andb];
    destruct (String.eqb_spec event "payment.captured") as [Hev|Hev];
    try (right; do 2 eexists; split; [reflexivity|]; left; split; reflexivity);
    try (left; eexists; split; [reflexivity|]; tauto);
    try (left; eexists; split; [reflexivity|]; right; left; tauto);
    try (left; eexists; split; [reflexivity|]; right; right; eexists; tauto).
  all: right.
  all: destruct (find (pending_by_order (pe_order_id pe)) (brand_transactions d))
         as [t|] eqn:Ht;
       [|do 2 eexists; split; [reflexivity|]; left; split; reflexivity].
  all: destruct (brand_wallet_of (bt_brand_id t) d) as [w|] eqn:Hw;
       [|do 2 eexists; split; [reflexivity|]; left; split; reflexivity].
  all: db_simpl; do 2 eexists; (split; [reflexivity|]); right;
       exists pe, t, w; db_simpl; repeat split; assumption.
Qed.

End WebhookFacts.


Lemma no_pending_order_after_complete i o nb now pay via rows :
  (forall t, In t rows -> pending_by_order o t = true -> bt_id t = i) ->
  find (pending_by_order o)
       (update_where (bt_by_id i) (bt_complete nb now pay via) rows) = None.
Proof.
  intros Hall.
  induction rows as [|r rows IH]; simpl; [reflexivity|].
  destruct (bt_by_id i r) eqn:Hr.
  - unfold pending_by_order at 1. simpl. rewrite andb_false_r.
    apply IH. intros t Ht. apply Hall. right. exact Ht.
  - destruct (pending_by_order o r) eqn:Hp.
    + apply Hall in Hp; [|left; reflexivity].
      unfold bt_by_id in Hr. rewrite Hp, Nat.eqb_refl in Hr. discriminate.
    + apply IH. intros t Ht. apply Hall. right. exact Ht.
Qed.

(** X18. The verify path and the webhook credit a purchase once between them.
    After the webhook has processed a transaction, verifyRecharge and
    verifyEscrowDeposit for that transaction id fail as not found or already
    processed and change nothing.  After verifyRecharge has succeeded, the
    webhook for the same order (no other pending transaction carrying that
    order id) answers that the transaction is already processed and changes
    nothing. *)
Theorem verify_and_webhook_credit_once
    (verifyPaymentSignature : string -> string -> string -> bool)
    (webhookSecretConfigured : bool)
    (webhookExpectedSignature : WebhookPayload -> string)
    (now now' : Timestamp) (d : Db) :
  (forall event payload signature r d1 input,
     handleWebhook webhookSecretConfigured webhookExpectedSignature now event
       payload signature d = (Ok r, d1) ->
     processed r = true ->
     (forall pe t, payment_entity payload = Some pe ->
        find (pending_by_order (pe_order_id pe)) (brand_transactions d) = Some t ->
        transaction_id input = bt_id t) ->
     verifyRecharge verifyPaymentSignature now' input d1
       = (Err TransactionNotFoundOrProcessed, d1)
     /\ verifyEscrowDeposit verifyPaymentSignature now' input d1
       = (Err TransactionNotFoundOrProcessed, d1))
  /\ (forall input r d1 event pay signature,
        verifyRecharge verifyPaymentSignature now input d = (Ok r, d1) ->
        (forall t, In t (brand_transactions d) ->
           pending_by_order (razorpay_order_id input) t = true ->
           bt_id t = transaction_id input) ->
        exists m,
          handleWebhook webhookSecretConfigured webhookExpectedSignature now'
            event
            (mkWebhookPayload
               (Some (mkPaymentEntity (razorpay_order_id input) pay)))
            signature d1
          = (Ok (mkWebhookResult false m), d1)).
Proof.
  split.
  - intros event payload signature r d1 input Hrun Hp Hid.
    destruct (handleWebhook_cases webhookSecretConfigured webhookExpectedSignature
                now event payload signature d)
      as [(e0 & Hrun0 & _) | (r0 & d0 & Hrun0 & Hcase)];
      rewrite Hrun in Hrun0; [discriminate|].
    injection Hrun0 as <- <-.
    destruct Hcase as [[Hp0 _]|(pe & t & w & _ & _ & _ & Hpe & Ht & _
                                 & _ & Hbt & _)]; [congruence|].
    split.
    + unfold verifyRecharge; cbv zeta. run.
      rewrite Hbt, (Hid pe t Hpe Ht), no_pending_after_complete. reflexivity.
    + unfold verifyEscrowDeposit; cbv zeta. run.
      rewrite Hbt, (Hid pe t Hpe Ht), no_pending_after_complete. reflexivity.
  - intros input r d1 event pay signature Hrun Hall.
    destruct (verifyRecharge_success _ _ _ _ _ _ Hrun)
      as (t & w & _ & _ & _ & _ & _ & _ & _ & Hbt).
    unfold handleWebhook; cbv zeta. run.
    destruct webhookSecretConfigured;
      [destruct (negb (String.eqb _ _)); [eexists; reflexivity|] |];
      (destruct (String.eqb event "payment.captured"); [|eexists; reflexivity]);
      rewrite Hbt;
      rewrite no_pending_order_after_complete by exact Hall;
      eexists; reflexivity.
Qed.

(** X19. The webhook does not tell an escrow deposit from a recharge.  It
    looks a transaction up by order id and pending status alone, so a
    payment.captured event for the order of a pending escrow deposit is
    processed as a token purchase: it reports success, completes the deposit
    transaction, credits neither escrow nor tokens and writes "unknown" as
    the brand's current package; verifyEscrowDeposit for that deposit then
    fails as not found or already processed. *)
Theorem webhook_completes_escrow_deposit
    (webhookSecretConfigured : bool)
    (webhookExpectedSignature : WebhookPayload -> string)
    (verifyPaymentSignature : string -> string -> string -> bool)
    (now now' : Timestamp) (order pay pay' signature signature' : string)
    (input : InitiateEscrowDepositInput) (d : Db) (w : BrandWallet) :
  let payload := mkWebhookPayload (Some (mkPaymentEntity order pay)) in
  brand_wallet_of (ied_brand_id input) d = Some w ->
  0 < ied_amount input ->
  escrow_balance w < ied_amount input ->
  find (pending_by_order order) (brand_transactions d) = None ->
  webhookSecretConfigured
  && negb (String.eqb signature (webhookExpectedSignature payload)) = false ->
  exists d1 d2 w2,
    initiateEscrowDeposit order input d
      = (Ok (mkInitiateEscrowDepositResponse true
               (ied_amount input - escrow_balance w) (escrow_balance w)
               (Some order) (Some (next_id d))), d1)
    /\ handleWebhook webhookSecretConfigured webhookExpectedSignature now
         "payment.captured" payload signature d1
       = (Ok (mkWebhookResult true PaymentProcessed), d2)
    /\ brand_wallet_of (ied_brand_id input) d2 = Some w2
    /\ escrow_balance w2 = escrow_balance w
    /\ total_escrow_deposited w2 = total_escrow_deposited w
    /\ token_balance w2 = token_balance w
    /\ current_package w2 = "unknown"
    /\ verifyEscrowDeposit verifyPaymentSignature now'
         (mkVerifyInput order pay' signature' (next_id d)) d2
       = (Err TransactionNotFoundOrProcessed, d2).
Proof.
  intros payload Hw Hpos Hlt Hnone Hsig.
  unfold initiateEscrowDeposit; cbv zeta. ztest. run. rewrite Hw. ztest.
  db_simpl. eexists. 
  set (bt := mkBrandTransaction (next_id d) (ied_brand_id input) (ied_user_id input)
               escrow_deposit (ied_amount input - escrow_balance w) escrow
               (escrow_balance w)
               (match ied_campaign_id input with
                | Some _ => "campaign" | None => "direct_deposit" end)
               (ied_campaign_id input) (Some order) pending
               (mkMetadata None None None None None None (Some order)
                  None None None None None None) None None).
  set (d1 := set_brand_transactions (brand_transactions d ++ [bt])
               (set_next_id (S (next_id d)) d)).
  assert (Hfind : find (pending_by_order order) (brand_transactions d1) = Some bt).
  { unfold d1. db_simpl. rewrite find_app_none by exact Hnone.
    simpl. unfold pending_by_order. simpl. rewrite String.eqb_refl. reflexivity. }
  assert (Hw1 : brand_wallet_of (ied_brand_id input) d1 = Some w) by exact Hw.
  destruct (handleWebhook webhookSecretConfigured webhookExpectedSignature
              now "payment.captured" payload signature d1)
    as [r d2] eqn:Hrun.
  assert (Hr : r = Ok (mkWebhookResult true PaymentProcessed)
               /\ exists w0,
                    brand_wallet_of (ied_brand_id input) d2 = Some w0
                    /\ escrow_balance w0 = escrow_balance w
                    /\ total_escrow_deposited w0 = total_escrow_deposited w
                    /\ token_balance w0 = token_balance w
                    /\ current_package w0 = "unknown"
                    /\ brand_transactions d2 =
                         update_where (bt_by_id (next_id d))
                           (bt_complete (token_balance w + 0) now pay
                              (Some "webhook"))
                           (brand_transactions d1)).
  { revert Hrun. unfold handleWebhook; cbv zeta. unfold payload in *.
    destruct webhookSecretConfigured; cbn [andb] in Hsig;
      [rewrite Hsig|];
      simpl; run; rewrite Hfind; simpl; rewrite Hw1; db_simpl;
      intros [= <- <-]; (split; [reflexivity|]);
      eexists;
      (split;
       [ unfold brand_wallet_of; db_simpl;
         rewrite find_update_where by reflexivity;
         unfold brand_wallet_of in Hw; unfold d1; db_simpl; rewrite Hw;
         reflexivity
       | simpl; repeat split; lia ]). }
  destruct Hr as (-> & w2 & Hw2 & He & Hd & Htk & Hpk & Hbt).
  exists d2, w2.
  split; [reflexivity|]. split; [exact Hrun|]. split; [exact Hw2|].
  split; [exact He|]. split; [exact Hd|]. split; [exact Htk|].
  split; [exact Hpk|].
  unfold verifyEscrowDeposit; cbv zeta. run. simpl.
  rewrite Hbt, no_pending_after_complete. reflexivity.
Qed.

(** ** Recharge: from initiation to credit *)

Lemma getBrandWalletByBrandId_reads now b d :
  exists p,
    getBrandWalletByBrandId now b d
    = (Ok (match brand_wallet_of b d with
           | Some w => Some (mkBrandWalletResponse w (p w) (brand_wallet_stats now w))
           | None => None
           end), d).
Proof.
  unfold getBrandWalletByBrandId, getPackageByName. run.
  exists (fun w =>
    if String.eqb (current_package w) EmptyString
       || String.eqb (current_package w) "none"
    then None
    else find (fun p => String.eqb (user_type p) "brand"
                        && String.eqb (pk_name p) (current_package w)
                        && pk_is_active p) (packages d)).
  destruct (brand_wallet_of b d) as [w|]; [|reflexivity].
  destruct (String.eqb (current_package w) EmptyString
            || String.eqb (current_package w) "none"); reflexivity.
Qed.

(** The pending row initiateRecharge inserts for a purchasable package. *)
Lemma initiateRecharge_success now order input d pkg w :
  find (fun p => Nat.eqb (pk_id p) (ir_package_id input) && pk_is_active p)
       (packages d) = Some pkg ->
  user_type pkg = "brand" ->
  0 < price pkg ->
  brand_wallet_of (ir_brand_id input) d = Some w ->
  initiateRecharge now order input d
  = (Ok (mkInitiateRechargeResponse order (price pkg * 100) (next_id d)
           (tokens_included pkg)),
     set_brand_transactions
       (brand_transactions d ++ [recharge_row (next_id d) order input pkg w])
       (set_next_id (S (next_id d)) d)).
Proof.
  intros Hpkg Hty Hprice Hw. unfold initiateRecharge. run.
  rewrite Hpkg, Hty. simpl. ztest.
  destruct (getBrandWalletByBrandId_reads now (ir_brand_id input) d) as [p Hread].
  fold (getBrandWalletByBrandId now (ir_brand_id input) d). rewrite Hread, Hw.
  reflexivity.
Qed.

(** X20. initiateRecharge, case by case.  A package id that is unknown or
    inactive, a package that is not a brand package, a package without a
    price and a brand without a wallet are rejected with their own errors
    and the store is as before.  Otherwise one pending token_credit row is
    appended that snapshots the package (name, type, tokens, validity) under
    the order id, the amount to pay is the price in paise, and no wallet is
    changed. *)
Theorem initiateRecharge_outcome (now : Timestamp) (order : string)
    (input : InitiateRechargeInput) (d : Db) :
  let run := initiateRecharge now order input d in
  let found :=
    find (fun p => Nat.eqb (pk_id p) (ir_package_id input) && pk_is_active p)
         (packages d) in
  (found = None /\ run = (Err PackageNotFound, d))
  \/ (exists pkg, found = Some pkg
                  /\ user_type pkg <> "brand"
                  /\ run = (Err InvalidPackageType, d))
  \/ (exists pkg, found = Some pkg
                  /\ user_type pkg = "brand" /\ price pkg <= 0
                  /\ run = (Err FreePackageNotPurchasable, d))
  \/ (exists pkg, found = Some pkg
                  /\ user_type pkg = "brand" /\ 0 < price pkg
                  /\ brand_wallet_of (ir_brand_id input) d = None
                  /\ run = (Err BrandWalletNotSetUp, d))
  \/ (exists pkg w,
        found = Some pkg
        /\ user_type pkg = "brand" /\ 0 < price pkg
        /\ brand_wallet_of (ir_brand_id input) d = Some w
        /\ run = (Ok (mkInitiateRechargeResponse order (price pkg * 100)
                        (next_id d) (tokens_included pkg)),
                  set_brand_transactions
                    (brand_transactions d
                     ++ [recharge_row (next_id d) order input pkg w])
                    (set_next_id (S (next_id d)) d))).
Proof.
  cbv zeta. unfold initiateRecharge. run.
  destruct (find _ (packages d)) as [pkg|] eqn:Hpkg.
  2:{ left. split; reflexivity. }
  right.
  destruct (String.eqb_spec (user_type pkg) "brand") as [Hty|Hty]; simpl.
  2:{ left. exists pkg. repeat split. exact Hty. }
  right.
  destruct (Z.leb_spec (price pkg) 0) as [Hle|Hlt].
  { left. exists pkg. repeat split; assumption. }
  right.
  destruct (getBrandWalletByBrandId_reads now (ir_brand_id input) d) as [p Hread].
  fold (getBrandWalletByBrandId now (ir_brand_id input) d). rewrite Hread.
  destruct (brand_wallet_of (ir_brand_id input) d) as [w|] eqn:Hw.
  - right. exists pkg, w. repeat split; assumption.
  - left. exists pkg. repeat split; assumption.
Qed.

Lemma ceil_div_spec (a b : Z) :
  0 < b -> b * (ceil_div a b - 1) < a <= b * ceil_div a b.
Proof.
  intros Hb. unfold ceil_div.
  pose proof (Z.div_mod (- a) b ltac:(lia)) as Hdm.
  pose proof (Z.mod_pos_bound (- a) b Hb) as Hmod.
  nia.
Qed.

Lemma days_remaining_after_activation (now days : Z) :
  0 <= days ->
  calculatePackageDaysRemaining now (Some (now + days * ms_per_day)) = Some days.
Proof.
  assert (Hms : 0 < ms_per_day) by reflexivity.
  intros Hd. unfold calculatePackageDaysRemaining; cbv zeta.
  pose proof (ceil_div_spec (now + days * ms_per_day - now) ms_per_day Hms) as Hc.
  assert (Heq : ceil_div (now + days * ms_per_day - now) ms_per_day = days) by nia.
  rewrite Heq.
  destruct (Z.ltb_spec 0 days); f_equal; lia.
Qed.

(** X21. calculatePackageDaysRemaining counts started days and stops at 0.
    Without an expiry there is no count.  With one the count is never
    negative, it is 0 exactly when the expiry is not in the future, otherwise
    it is the number of days, the last one possibly partial, that cover the
    time left; right after an activation for [days] days it is [days]. *)
Theorem calculatePackageDaysRemaining_spec (now expiry : Timestamp) (days : Z) :
  calculatePackageDaysRemaining now None = None
  /\ (exists n,
        calculatePackageDaysRemaining now (Some expiry) = Some n
        /\ 0 <= n
        /\ (n = 0 <-> expiry <= now)
        /\ (now < expiry ->
            (n - 1) * ms_per_day < expiry - now <= n * ms_per_day))
  /\ (0 <= days ->
      calculatePackageDaysRemaining now (Some (now + days * ms_per_day))
      = Some days).
Proof.
  assert (Hms : 0 < ms_per_day) by reflexivity.
  split; [reflexivity|]. split.
  - unfold calculatePackageDaysRemaining; cbv zeta.
    pose proof (ceil_div_spec (expiry - now) ms_per_day Hms) as Hc.
    destruct (Z.ltb_spec 0 (ceil_div (expiry - now) ms_per_day)) as [Hlt|Hge];
      eexists; (split; [reflexivity|]).
    + repeat split; try lia; try nia.
    + repeat split; try lia; try nia.
  - apply days_remaining_after_activation.
Qed.

(** X22. A recharge credits what was bought, as it was bought.  After
    initiateRecharge for an active, priced brand package with tokens,
    verifyRecharge of the returned transaction with an accepted payment
    credits exactly the package's tokens at initiation, whatever the
    catalogue has become in between.  A subscription also maps the wallet to
    the package and, with a validity of [days] days, sets the expiry so that
    [days] days remain; any other package type leaves the mapping alone.
    The escrow columns are not touched. *)
Theorem recharge_credits_the_purchased_snapshot
    (verifyPaymentSignature : string -> string -> string -> bool)
    (now0 now : Timestamp) (order pay signature : string)
    (input : InitiateRechargeInput) (d : Db) (pkg : Package) (w : BrandWallet)
    (catalogue : list Package) :
  find (fun p => Nat.eqb (pk_id p) (ir_package_id input) && pk_is_active p)
       (packages d) = Some pkg ->
  user_type pkg = "brand" ->
  0 < price pkg ->
  0 < tokens_included pkg ->
  brand_wallet_of (ir_brand_id input) d = Some w ->
  brand_transaction_ids_fresh d = true ->
  verifyPaymentSignature order pay signature = true ->
  let d1 := set_packages catalogue (exec (initiateRecharge now0 order input) d) in
  exists r d2 w2,
    verifyRecharge verifyPaymentSignature now
      (mkVerifyInput order pay signature (next_id d)) d1 = (Ok r, d2)
    /\ vr_tokens_credited r = tokens_included pkg
    /\ vr_new_balance r = token_balance w + tokens_included pkg
    /\ brand_wallet_of (ir_brand_id input) d2 = Some w2
    /\ token_balance w2 = token_balance w + tokens_included pkg
    /\ total_tokens_credited w2 = total_tokens_credited w + tokens_included pkg
    /\ escrow_balance w2 = escrow_balance w
    /\ escrow_on_hold w2 = escrow_on_hold w
    /\ (str_or (package_type pkg) "subscription" = "subscription" ->
        current_package w2 = str_or (Some (pk_name pkg)) "unknown"
        /\ current_package_id w2 = Some (pk_id pkg)
        /\ package_activated_at w2 = Some now
        /\ (forall days, validity_days pkg = Some days -> 0 < days ->
              package_expires_at w2 = Some (now + days * ms_per_day)
              /\ calculatePackageDaysRemaining now (package_expires_at w2)
                 = Some days))
    /\ (str_or (package_type pkg) "subscription" <> "subscription" ->
        current_package w2 = current_package w
        /\ current_package_id w2 = current_package_id w
        /\ package_activated_at w2 = package_activated_at w
        /\ package_expires_at w2 = package_expires_at w).
Proof.
  intros Hpkg Hty Hprice Htok Hw Hfresh Hsig d1.
  assert (Hd1 : d1 = set_packages catalogue
                       (set_brand_transactions
                          (brand_transactions d
                           ++ [recharge_row (next_id d) order input pkg w])
                          (set_next_id (S (next_id d)) d))).
  { unfold d1, exec.
    rewrite (initiateRecharge_success now0 order input d pkg w Hpkg Hty Hprice Hw).
    reflexivity. }
  clearbody d1.
  set (row := recharge_row (next_id d) order input pkg w) in *.
  assert (Hfind : find (pending_by_id_and_order (next_id d) order)
                    (brand_transactions d1) = Some row).
  { rewrite Hd1. db_more. rewrite find_app_none.
    - simpl. unfold pending_by_id_and_order. simpl.
      rewrite Nat.eqb_refl, String.eqb_refl. reflexivity.
    - apply fresh_bt_id_not_found; [|exact Hfresh].
      intros t Ht. apply pending_by_id_and_order_id in Ht.
      apply Nat.eqb_eq in Ht. exact Ht. }
  assert (Hw1 : brand_wallet_of (ir_brand_id input) d1 = Some w).
  { rewrite Hd1. exact Hw. }
  set (upd := walletUpdate now (token_balance w + tokens_included pkg)
                (tokens_included pkg)
                (str_or (Some (str_or (package_type pkg) "subscription"))
                   "subscription")
                (str_or (Some (pk_name pkg)) "unknown") (Some (pk_id pkg))
                (validity_days pkg)).
  assert (Hrun : exists r d2,
            verifyRecharge verifyPaymentSignature now
              (mkVerifyInput order pay signature (next_id d)) d1 = (Ok r, d2)
            /\ vr_tokens_credited r = tokens_included pkg
            /\ vr_new_balance r = token_balance w + tokens_included pkg
            /\ brand_wallets d2
               = update_where (by_brand_id (ir_brand_id input)) upd
                   (brand_wallets d1)).
  { unfold verifyRecharge; cbv zeta. run. simpl.
    rewrite Hfind, Hsig. simpl. ztest. rewrite Hw1. db_simpl.
    do 2 eexists. split; [reflexivity|]. repeat split. }
  destruct Hrun as (r & d2 & Hrun & Hr1 & Hr2 & Hbw).
  assert (Hw2 : brand_wallet_of (ir_brand_id input) d2 = Some (upd w)).
  { unfold brand_wallet_of. rewrite Hbw.
    rewrite find_update_where
      by (intros x; unfold by_brand_id, upd; rewrite brand_id_walletUpdate;
          reflexivity).
    unfold brand_wallet_of in Hw1. rewrite Hw1. reflexivity. }
  assert (Hstr : str_or (Some (str_or (package_type pkg) "subscription"))
                   "subscription"
                 = str_or (package_type pkg) "subscription").
  { unfold str_or. destruct (package_type pkg) as [s|]; [|reflexivity].
    destruct (String.eqb s EmptyString) eqn:Hs; [reflexivity|].
    rewrite Hs. reflexivity. }
  exists r, d2, (upd w).
  split; [exact Hrun|]. split; [exact Hr1|]. split; [exact Hr2|].
  split; [exact Hw2|].
  unfold upd, walletUpdate; cbv zeta. rewrite Hstr.
  destruct (String.eqb_spec (str_or (package_type pkg) "subscription")
              "subscription") as [Hsub|Hsub]; simpl.
  - do 4 (split; [reflexivity|]). split; [|intros Hc; congruence].
    intros _. do 3 (split; [reflexivity|]).
    intros days Hdays Hpos. rewrite Hdays.
    destruct (Z.eqb_spec days 0); [lia|].
    split; [reflexivity|]. apply days_remaining_after_activation. lia.
  - do 4 (split; [reflexivity|]). split; [intros Hc; congruence|].
    intros _. repeat split.
Qed.

(** ** Bulk unlock *)

(** The loop of bulkUnlockCreators never throws; with [k] the number of
    creators it unlocks: every id ends in exactly one of the three lists, the
    counters and the running balance move by [k] and [k] times the cost, a
    deduction leaves a balance of 0 or more, and the store gains [k] unlock
    rows and [k] transaction rows and is otherwise unchanged. *)
Lemma bulk_unlock_loop_spec now b u pkg cost aset ex ids :
  forall tb r d,
  exists tb' r' d' (k : nat) recs bts,
    bulk_unlock_loop now b u pkg cost aset ex ids tb r d = (Ok (tb', r'), d')
    /\ total_requested r' = total_requested r
    /\ (List.length (unlocked r') + List.length (skipped r')
        + List.length (failed_unlocks r')
        = List.length (unlocked r) + List.length (skipped r)
          + List.length (failed_unlocks r) + List.length ids)%nat
    /\ total_unlocked r' = (total_unlocked r + k)%nat
    /\ List.length (unlocked r') = (List.length (unlocked r) + k)%nat
    /\ total_tokens_spent r' = total_tokens_spent r + Z.of_nat k * cost
    /\ tb' = tb - Z.of_nat k * cost
    /\ (0 <= tb \/ (0 < k)%nat -> 0 <= tb')
    /\ map ue_creator_id (unlocked r')
       = map ue_creator_id (unlocked r) ++ map uc_creator_id recs
    /\ brand_unlocked_creators d' = brand_unlocked_creators d ++ recs
    /\ List.length recs = k
    /\ (forall rec, In rec recs ->
          uc_brand_id rec = b /\ In (uc_creator_id rec) ids
          /\ mem (uc_creator_id rec) aset = false)
    /\ brand_transactions d' = brand_transactions d ++ bts
    /\ List.length bts = k
    /\ brand_wallets d' = brand_wallets d
    /\ brands d' = brands d /\ packages d' = packages d
    /\ ce_users d' = ce_users d
    /\ wallets d' = wallets d /\ transactions d' = transactions d.
Proof.
  induction ids as [|c rest IH]; intros tb r d.
  - exists tb, r, d, 0%nat, [], []. simpl. rewrite !app_nil_r.
    repeat split; try lia.
  - cbn [bulk_unlock_loop]. cbv zeta.
    destruct (mem c aset) eqn:Hmem.
    { destruct (IH tb (push_skipped c "Already unlocked" r) d)
        as (tb' & r' & d' & k & recs & bts & Hrun & H1 & H2 & H3 & H4 & H5 & H6
            & H7 & H8 & H9 & H10 & H11 & Hrest).
      exists tb', r', d', k, recs, bts. simpl in *.
      rewrite length_app in H2. simpl in H2.
      repeat split; try assumption; try lia; try apply Hrest;
        try (right; apply (H11 _ H)); apply (H11 _ H). }
    destruct (find (fun x => Nat.eqb (u_id x) c) ex) as [usr|] eqn:Hex.
    2:{ destruct (IH tb (push_failed c "Creator not found" r) d)
        as (tb' & r' & d' & k & recs & bts & Hrun & H1 & H2 & H3 & H4 & H5 & H6
            & H7 & H8 & H9 & H10 & H11 & Hrest).
      exists tb', r', d', k, recs, bts. simpl in *.
      rewrite length_app in H2. simpl in H2.
      repeat split; try assumption; try lia; try apply Hrest;
        try (right; apply (H11 _ H)); apply (H11 _ H). }
    destruct (Z.ltb_spec tb cost) as [Hlt|Hge].
    { destruct (IH tb (push_failed c "Insufficient token balance" r) d)
        as (tb' & r' & d' & k & recs & bts & Hrun & H1 & H2 & H3 & H4 & H5 & H6
            & H7 & H8 & H9 & H10 & H11 & Hrest).
      exists tb', r', d', k, recs, bts. simpl in *.
      rewrite length_app in H2. simpl in H2.
      repeat split; try assumption; try lia; try apply Hrest;
        try (right; apply (H11 _ H)); apply (H11 _ H). }
    run. db_simpl.
    match goal with
    | |- context [bulk_unlock_loop _ _ _ _ _ _ _ rest ?tb1 ?r1 ?d1] =>
      destruct (IH tb1 r1 d1)
        as (tb' & r' & d' & k & recs & bts & Hrun & H1 & H2 & H3 & H4 & H5 & H6
            & H7 & H8 & H9 & H10 & H11 & H12 & H13 & Hrest)
    end.
    db_simpl. simpl in H1, H2, H3, H4, H5, H8.
    rewrite length_app in H2, H4. simpl in H2, H4.
    rewrite map_app in H8. simpl in H8.
    exists tb', r', d', (S k).
    match type of H9 with
    | _ = (_ ++ [?rec]) ++ _ => exists (rec :: recs)
    end.
    match type of H12 with
    | _ = (_ ++ [?bt]) ++ _ => exists (bt :: bts)
    end.
    split; [exact Hrun|].
    assert (Hk : Z.of_nat (S k) * cost = cost + Z.of_nat k * cost)
      by (rewrite Nat2Z.inj_succ; ring).
    split; [exact H1|]. split; [simpl; lia|]. split; [lia|]. split; [lia|].
    split; [lia|]. split; [lia|]. split; [intros _; apply H7; left; lia|].
    split; [rewrite H8, <- app_assoc; reflexivity|].
    split; [rewrite H9, <- app_assoc; reflexivity|].
    split; [simpl; lia|].
    split.
    { intros rec [<- | Hin]; simpl.
      - repeat split; [left; reflexivity | exact Hmem].
      - destruct (H11 _ Hin) as (Ha & Hb & Hc). repeat split; auto. }
    split; [rewrite H12, <- app_assoc; reflexivity|].
    split; [simpl; lia|].
    exact Hrest.
Qed.

(** *** Which id is reported where *)

Lemma mem_In (x : Id) (l : list Id) : mem x l = true <-> In x l.
Proof.
  unfold mem. rewrite existsb_exists. split.
  - intros (y & Hy & Heq). apply Nat.eqb_eq in Heq. subst. exact Hy.
  - intros H. exists x. split; [exact H | apply Nat.eqb_refl].
Qed.

Lemma unique_In (x : Id) (l : list Id) : In x (unique l) <-> In x l.
Proof.
  induction l as [|y l IH]; simpl; [tauto|].
  rewrite filter_In, IH.
  destruct (Nat.eqb_spec x y) as [->|Hne]; simpl.
  - split; auto.
  - split.
    + intros [Heq | [Hin _]]; auto.
    + intros [Heq | Hin]; [left; exact Heq | right; split; [exact Hin | reflexivity]].
Qed.

Lemma NoDup_filter {A} (p : A -> bool) (l : list A) :
  NoDup l -> NoDup (filter p l).
Proof.
  induction 1 as [|x l Hx Hl IH]; simpl; [constructor|].
  destruct (p x); [|exact IH].
  constructor; [|exact IH].
  intros Hin. apply filter_In in Hin as [Hin _]. exact (Hx Hin).
Qed.

Lemma unique_NoDup (l : list Id) : NoDup (unique l).
Proof.
  induction l as [|y l IH]; simpl; constructor.
  - intros Hin. apply filter_In in Hin as [_ Hne].
    rewrite Nat.eqb_refl in Hne. discriminate.
  - apply NoDup_filter. exact IH.
Qed.

Lemma find_filter {A} (p q : A -> bool) (l : list A) :
  (forall x, p x = true -> q x = true) ->
  find p (filter q l) = find p l.
Proof.
  intros Hpq. induction l as [|x l IH]; simpl; [reflexivity|].
  destruct (q x) eqn:Hq; simpl.
  - destruct (p x); [reflexivity | exact IH].
  - destruct (p x) eqn:Hp; [|exact IH].
    rewrite (Hpq x Hp) in Hq. discriminate.
Qed.

(** Once the running balance is below the cost, the loop unlocks nobody
    any more: balance and store stay as they are. *)
Lemma bulk_unlock_loop_broke now b u pkg cost aset ex ids :
  forall tb r d tb' r' d',
  tb < cost ->
  bulk_unlock_loop now b u pkg cost aset ex ids tb r d = (Ok (tb', r'), d') ->
  tb' = tb /\ d' = d.
Proof.
  induction ids as [|c rest IH]; intros tb r d tb' r' d' Hlt.
  - simpl. intros [= <- _ <-]. split; reflexivity.
  - cbn [bulk_unlock_loop]. cbv zeta.
    destruct (mem c aset); [apply IH; exact Hlt|].
    destruct (find _ ex); [|apply IH; exact Hlt].
    destruct (Z.ltb_spec tb cost); [apply IH; exact Hlt | lia].
Qed.

(** Every id the loop goes through is pushed on exactly one of the three
    lists, under the reason the checks give: skipped when the brand had it
    unlocked, failed when the creator is unknown or the running balance is
    below the cost (and then so is the balance at the end), unlocked
    otherwise, at the cost. *)
Lemma bulk_unlock_loop_report now b u pkg cost aset ex ids :
  forall tb r d tb' r' d',
  bulk_unlock_loop now b u pkg cost aset ex ids tb r d = (Ok (tb', r'), d') ->
  Permutation (reported_ids r') (reported_ids r ++ ids)
  /\ (forall c reason, In (c, reason) (skipped r') ->
        In (c, reason) (skipped r)
        \/ (In c ids /\ reason = "Already unlocked" /\ mem c aset = true))
  /\ (forall c reason, In (c, reason) (failed_unlocks r') ->
        In (c, reason) (failed_unlocks r)
        \/ (In c ids /\ mem c aset = false
            /\ ((reason = "Creator not found"
                 /\ find (fun x => Nat.eqb (u_id x) c) ex = None)
                \/ (reason = "Insufficient token balance"
                    /\ find (fun x => Nat.eqb (u_id x) c) ex <> None
                    /\ tb' < cost))))
  /\ (forall e, In e (unlocked r') ->
        In e (unlocked r)
        \/ (In (ue_creator_id e) ids /\ mem (ue_creator_id e) aset = false
            /\ find (fun x => Nat.eqb (u_id x) (ue_creator_id e)) ex <> None
            /\ ue_tokens_spent e = cost)).
Proof.
  induction ids as [|c rest IH]; intros tb r d tb' r' d'.
  - simpl. intros [= <- <- <-]. rewrite app_nil_r.
    split; [apply Permutation_refl|]. repeat split; intros; left; assumption.
  - cbn [bulk_unlock_loop]. cbv zeta.
    destruct (mem c aset) eqn:Hmem.
    { intros Hrun. destruct (IH _ _ _ _ _ _ Hrun) as (Hp & Hs & Hf & Hu).
      split.
      { rewrite Hp. unfold reported_ids. cbn [push_skipped skipped unlocked failed_unlocks].
        rewrite map_app. cbn [map fst].
        rewrite <- !app_assoc. apply Permutation_app_head.
        apply Permutation_app_head. cbn [app].
        apply Permutation_middle. }
      split; [|split].
      - intros c0 reason Hin. destruct (Hs _ _ Hin) as [Hold | (Hi & Hr & Hm)].
        + cbn [push_skipped skipped] in Hold. apply in_app_or in Hold as [Hold | [Heq | []]].
          * left; exact Hold.
          * injection Heq as <- <-. right. repeat split; [left; reflexivity | exact Hmem].
        + right. repeat split; [right; exact Hi | exact Hr | exact Hm].
      - intros c0 reason Hin. destruct (Hf _ _ Hin) as [Hold | (Hi & Hrest)].
        + left; exact Hold.
        + right. split; [right; exact Hi | exact Hrest].
      - intros e Hin. destruct (Hu _ Hin) as [Hold | (Hi & Hrest)].
        + left; exact Hold.
        + right. split; [right; exact Hi | exact Hrest]. }
    destruct (find (fun x => Nat.eqb (u_id x) c) ex) as [usr|] eqn:Hex.
    2:{ intros Hrun. destruct (IH _ _ _ _ _ _ Hrun) as (Hp & Hs & Hf & Hu).
      split.
      { rewrite Hp. unfold reported_ids. cbn [push_failed skipped unlocked failed_unlocks].
        rewrite map_app. cbn [map fst].
        rewrite <- !app_assoc. reflexivity. }
      split; [|split].
      - intros c0 reason Hin. destruct (Hs _ _ Hin) as [Hold | (Hi & Hrest)].
        + left; exact Hold.
        + right. split; [right; exact Hi | exact Hrest].
      - intros c0 reason Hin. destruct (Hf _ _ Hin) as [Hold | (Hi & Hrest)].
        + cbn [push_failed failed_unlocks] in Hold.
          apply in_app_or in Hold as [Hold | [Heq | []]].
          * left; exact Hold.
          * injection Heq as <- <-. right.
            split; [left; reflexivity|]. split; [exact Hmem|].
            left. split; [reflexivity | exact Hex].
        + right. split; [right; exact Hi | exact Hrest].
      - intros e Hin. destruct (Hu _ Hin) as [Hold | (Hi & Hrest)].
        + left; exact Hold.
        + right. split; [right; exact Hi | exact Hrest]. }
    destruct (Z.ltb_spec tb cost) as [Hlt|Hge].
    { intros Hrun. destruct (IH _ _ _ _ _ _ Hrun) as (Hp & Hs & Hf & Hu).
      destruct (bulk_unlock_loop_broke _ _ _ _ _ _ _ _ _ _ _ _ _ _ Hlt Hrun) as [Htb _].
      split.
      { rewrite Hp. unfold reported_ids. cbn [push_failed skipped unlocked failed_unlocks].
        rewrite map_app. cbn [map fst].
        rewrite <- !app_assoc. reflexivity. }
      split; [|split].
      - intros c0 reason Hin. destruct (Hs _ _ Hin) as [Hold | (Hi & Hrest)].
        + left; exact Hold.
        + right. split; [right; exact Hi | exact Hrest].
      - intros c0 reason Hin. destruct (Hf _ _ Hin) as [Hold | (Hi & Hrest)].
        + cbn [push_failed failed_unlocks] in Hold.
          apply in_app_or in Hold as [Hold | [Heq | []]].
          * left; exact Hold.
          * injection Heq as <- <-. right.
            split; [left; reflexivity|]. split; [exact Hmem|].
            right. split; [reflexivity|]. split; [rewrite Hex; discriminate | lia].
        + right. split; [right; exact Hi | exact Hrest].
      - intros e Hin. destruct (Hu _ Hin) as [Hold | (Hi & Hrest)].
        + left; exact Hold.
        + right. split; [right; exact Hi | exact Hrest]. }
    run. db_simpl.
    intros Hrun. destruct (IH _ _ _ _ _ _ Hrun) as (Hp & Hs & Hf & Hu).
    split.
    { rewrite Hp. unfold reported_ids. cbn [push_unlocked skipped unlocked failed_unlocks].
      rewrite map_app. cbn [map ue_creator_id].
      rewrite <- !app_assoc. apply Permutation_app_head. cbn [app].
      rewrite !app_assoc. apply Permutation_middle. }
    split; [|split].
    + intros c0 reason Hin. destruct (Hs _ _ Hin) as [Hold | (Hi & Hrest)].
      * left; exact Hold.
      * right. split; [right; exact Hi | exact Hrest].
    + intros c0 reason Hin. destruct (Hf _ _ Hin) as [Hold | (Hi & Hrest)].
      * left; exact Hold.
      * right. split; [right; exact Hi | exact Hrest].
    + intros e Hin. destruct (Hu _ Hin) as [Hold | (Hi & Hrest)].
      * cbn [push_unlocked unlocked] in Hold.
        apply in_app_or in Hold as [Hold | [Heq | []]].
        -- left; exact Hold.
        -- subst e. right. cbn [ue_creator_id ue_tokens_spent].
           split; [left; reflexivity|]. split; [exact Hmem|].
           split; [rewrite Hex; discriminate | reflexivity].
      * right. split; [right; exact Hi | exact Hrest].
Qed.

(** getOrCreateBrandWallet throws only for a user without a brand, and then
    it has written nothing. *)
Lemma getOrCreateBrandWallet_error now userId d e d0 :
  getOrCreateBrandWallet now userId d = (Err e, d0) ->
  e = NoBrandLinked /\ d0 = d.
Proof.
  unfold getOrCreateBrandWallet, getBrandByUserId, getPackageByName,
    getFreeBrandPackage.
  run.
  destruct (find _ (brands d)) as [brand|]; [|intros [= <- <-]; split; reflexivity].
  destruct (brand_wallet_of (br_id brand) d) as [w|].
  - destruct (String.eqb (current_package w) EmptyString
              || String.eqb (current_package w) "none"); discriminate.
  - destruct (first_by_sort_order _) as [fp|].
    + destruct (0 <? tokens_included fp); db_simpl; cbn [current_package];
        destruct (String.eqb (pk_name fp) EmptyString
                  || String.eqb (pk_name fp) "none"); discriminate.
    + db_simpl. simpl. discriminate.
Qed.

(** The books of a bulk unlock: the counters, the balance and the rows
    written. *)
Lemma bulkUnlockCreators_books
    (now : Timestamp) (brandUserId : Id) (creatorIds : list Id) (d : Db) :
  let run := bulkUnlockCreators now brandUserId creatorIds d in
  (exists e,
     run = (Err e, exec (getOrCreateBrandWallet now brandUserId) d)
     /\ (e = NoBrandLinked \/ e = NoActivePackage))
  \/ (exists r d1 wd d0 pkg w1 recs bts,
        run = (Ok r, d1)
        /\ getOrCreateBrandWallet now brandUserId d = (Ok wd, d0)
        /\ package wd = Some pkg
        /\ total_requested r = List.length (unique creatorIds)
        /\ (List.length (unlocked r) + List.length (skipped r)
            + List.length (failed_unlocks r) = total_requested r)%nat
        /\ total_unlocked r = List.length (unlocked r)
        /\ total_tokens_spent r
           = Z.of_nat (total_unlocked r) * num_or (report_token_cost pkg) 5
        /\ bulk_remaining_token_balance r
           = token_balance (wallet wd) - total_tokens_spent r
        /\ ((0 < total_unlocked r)%nat -> 0 <= bulk_remaining_token_balance r)
        /\ brand_wallet_of (bw_brand_id (wallet wd)) d1 = Some w1
        /\ token_balance w1 = bulk_remaining_token_balance r
        /\ total_tokens_debited w1
           = total_tokens_debited (wallet wd) + total_tokens_spent r
        /\ escrow_balance w1 = escrow_balance (wallet wd)
        /\ brand_unlocked_creators d1 = brand_unlocked_creators d0 ++ recs
        /\ map uc_creator_id recs = map ue_creator_id (unlocked r)
        /\ brand_transactions d1 = brand_transactions d0 ++ bts
        /\ List.length bts = total_unlocked r).
Proof.
  cbv zeta. unfold bulkUnlockCreators, exec. cbv zeta. run.
  destruct (getOrCreateBrandWallet now brandUserId d) as [[wd|e] d0] eqn:Hg.
  2:{ left. exists e. split; [reflexivity|].
      left. apply (getOrCreateBrandWallet_error _ _ _ _ _ Hg). }
  destruct (package wd) as [pkg|] eqn:Hpkg.
  2:{ left. exists NoActivePackage. split; [reflexivity | right; reflexivity]. }
  right.
  destruct (getOrCreateBrandWallet_success _ _ _ _ _ Hg)
    as (brand & _ & Hbid & Hw0 & _).
  rewrite <- Hbid in Hw0.
  match goal with
  | |- context [bulk_unlock_loop ?a1 ?a2 ?a3 ?a4 ?a5 ?a6 ?a7 ?a8 ?a9 ?a10 d0] =>
    destruct (bulk_unlock_loop_spec a1 a2 a3 a4 a5 a6 a7 a8 a9 a10 d0)
      as (tb' & r' & d' & k & recs & bts & Hrun & H1 & H2 & H3 & H4 & H5 & H6
          & H7 & H8 & H9 & H10 & H11 & H12 & H13 & H14 & _)
  end.
  rewrite Hrun. simpl in H1, H2, H3, H4, H5, H8. db_simpl.
  assert (Hw' : find (by_brand_id (bw_brand_id (wallet wd))) (brand_wallets d')
                = Some (wallet wd)).
  { rewrite H14. exact Hw0. }
  destruct (Nat.ltb_spec 0 (total_unlocked r')) as [Hpos|Hzero].
  - db_simpl. do 5 eexists.
    exists (touch now
              (set_total_tokens_debited
                 (total_tokens_debited (wallet wd) + total_tokens_spent r')
              (set_token_balance tb' (wallet wd)))), recs, bts.
    split; [reflexivity|]. split; [reflexivity|]. split; [exact Hpkg|].
    simpl. db_simpl.
    split; [exact H1|]. split; [lia|]. split; [lia|].
    split; [rewrite H5, H3; reflexivity|]. split; [lia|].
    split; [intros _; apply H7; right; lia|].
    split.
    { unfold brand_wallet_of. db_simpl.
      rewrite find_update_where by reflexivity. rewrite Hw'. reflexivity. }
    repeat split; try assumption; try lia.
    rewrite H8. reflexivity.
  - db_simpl. do 5 eexists. exists (wallet wd), recs, bts.
    split; [reflexivity|]. split; [reflexivity|]. split; [exact Hpkg|].
    simpl.
    assert (Hk : k = 0%nat) by lia. rewrite Hk in *. simpl in *.
    split; [exact H1|]. split; [lia|]. split; [lia|].
    split; [rewrite H5, H3; reflexivity|]. split; [lia|].
    split; [lia|].
    split; [exact Hw'|].
    repeat split; try assumption; try lia.
    rewrite H8. reflexivity.
Qed.

Lemma mem_unlocked_among b ids c d :
  In c ids ->
  mem c (unlocked_among b ids d)
  = match find (unlocked_pair b c) (brand_unlocked_creators d) with
    | Some _ => true
    | None => false
    end.
Proof.
  intros Hin. apply mem_In in Hin. unfold unlocked_among.
  induction (brand_unlocked_creators d) as [|x l IH]; [reflexivity|].
  cbn [filter find].
  change (unlocked_pair b c x)
    with (Nat.eqb (uc_brand_id x) b && Nat.eqb (uc_creator_id x) c).
  destruct (Nat.eqb_spec (uc_brand_id x) b) as [Hb|Hb]; cbn [andb]; [|exact IH].
  destruct (Nat.eqb_spec (uc_creator_id x) c) as [Hc|Hc].
  - rewrite Hc, Hin. cbn [map]. unfold mem. cbn [existsb].
    rewrite Hc, Nat.eqb_refl. reflexivity.
  - destruct (mem (uc_creator_id x) ids); [|exact IH].
    cbn [map]. unfold mem at 1. cbn [existsb].
    destruct (Nat.eqb_spec c (uc_creator_id x)) as [He|_]; [congruence|].
    exact IH.
Qed.

(** The report of a bulk unlock: which id is found on which list, and why. *)
Lemma bulkUnlockCreators_report now brandUserId creatorIds d r d1 wd d0 pkg :
  bulkUnlockCreators now brandUserId creatorIds d = (Ok r, d1) ->
  getOrCreateBrandWallet now brandUserId d = (Ok wd, d0) ->
  package wd = Some pkg ->
  let b := bw_brand_id (wallet wd) in
  let cost := num_or (report_token_cost pkg) 5 in
  Permutation (reported_ids r) (unique creatorIds)
  /\ (forall c reason, In (c, reason) (skipped r) <->
        In c creatorIds /\ reason = "Already unlocked"
        /\ isCreatorUnlocked b c d0 = (Ok true, d0))
  /\ (forall c reason, In (c, reason) (failed_unlocks r) ->
        In c creatorIds
        /\ isCreatorUnlocked b c d0 = (Ok false, d0)
        /\ ((reason = "Creator not found" /\ creator_of c d0 = None)
            \/ (reason = "Insufficient token balance"
                /\ creator_of c d0 <> None
                /\ bulk_remaining_token_balance r < cost)))
  /\ (forall e, In e (unlocked r) ->
        In (ue_creator_id e) creatorIds
        /\ isCreatorUnlocked b (ue_creator_id e) d0 = (Ok false, d0)
        /\ creator_of (ue_creator_id e) d0 <> None
        /\ ue_tokens_spent e = cost).
Proof.
  intros Hrun Hg Hpkg b cost.
  revert Hrun. unfold bulkUnlockCreators. cbv zeta. run.
  rewrite Hg, Hpkg. fold b. fold cost.
  set (uids := unique creatorIds).
  set (aset := unlocked_among b uids d0).
  set (ex := filter (fun x => mem (u_id x) uids) (ce_users d0)).
  destruct (bulk_unlock_loop now b brandUserId pkg cost aset ex uids
              (token_balance (wallet wd))
              (mkBulkUnlockResult (List.length uids) 0 0 0 [] [] []) d0)
    as [[[tb' r']|e] d'] eqn:Hloop; [|discriminate].
  destruct (bulk_unlock_loop_report _ _ _ _ _ _ _ _ _ _ _ _ _ _ Hloop)
    as (Hp & Hs & Hf & Hu).
  cbn [fst snd].
  assert (Hr : forall d2, (Ok r, d1) = (Ok (set_bulk_remaining tb' r'), d2) ->
               reported_ids r = reported_ids r' /\ skipped r = skipped r'
               /\ failed_unlocks r = failed_unlocks r' /\ unlocked r = unlocked r'
               /\ bulk_remaining_token_balance r = tb').
  { intros d2 [= -> _]. repeat split. }
  intros Hrun.
  assert (Heq : reported_ids r = reported_ids r' /\ skipped r = skipped r'
               /\ failed_unlocks r = failed_unlocks r' /\ unlocked r = unlocked r'
               /\ bulk_remaining_token_balance r = tb').
  { destruct (Nat.ltb 0 (total_unlocked r')); cbn [fst snd] in Hrun;
      symmetry in Hrun; exact (Hr _ Hrun). }
  clear Hrun Hr. destruct Heq as (-> & -> & -> & -> & ->).
  assert (Hin : forall c, In c uids <-> In c creatorIds)
    by (intros c; apply unique_In).
  assert (Hun : forall c, In c uids ->
            isCreatorUnlocked b c d0 = (Ok (mem c aset), d0)).
  { intros c Hc. unfold isCreatorUnlocked, gets, aset.
    rewrite (mem_unlocked_among b uids c d0 Hc). reflexivity. }
  assert (Hex : forall c, In c uids ->
            find (fun x => Nat.eqb (u_id x) c) ex = creator_of c d0).
  { intros c Hc. unfold ex, creator_of. apply find_filter.
    intros x Hx. apply Nat.eqb_eq in Hx. rewrite Hx. apply mem_In. exact Hc. }
  split.
  { rewrite Hp. apply Permutation_refl. }
  assert (Hfail : forall c reason, In (c, reason) (failed_unlocks r') ->
            In c uids /\ mem c aset = false).
  { intros c reason Hc. destruct (Hf _ _ Hc) as [[] | (Hi & Hm & _)]. split; assumption. }
  assert (Hunl : forall e, In e (unlocked r') ->
            In (ue_creator_id e) uids /\ mem (ue_creator_id e) aset = false).
  { intros e He. destruct (Hu _ He) as [[] | (Hi & Hm & _)]. split; assumption. }
  split; [|split].
  - intros c reason. split.
    + intros Hc. destruct (Hs _ _ Hc) as [[] | (Hi & Hreason & Hm)].
      split; [apply Hin; exact Hi|]. split; [exact Hreason|].
      rewrite (Hun _ Hi), Hm. reflexivity.
    + intros (Hc & -> & Hunlocked). apply Hin in Hc.
      rewrite (Hun _ Hc) in Hunlocked.
      assert (Hm : mem c aset = true) by congruence.
      assert (Hrep : In c (reported_ids r')).
      { apply (Permutation_in c (Permutation_sym Hp)). exact Hc. }
      unfold reported_ids in Hrep.
      apply in_app_or in Hrep as [Hrep | Hrep];
        [|apply in_app_or in Hrep as [Hrep | Hrep]];
        apply in_map_iff in Hrep as (x & Hx & Hxin).
      * destruct (Hunl _ Hxin) as [_ Hm']. rewrite Hx in Hm'. congruence.
      * destruct x as [c' reason']. cbn [fst] in Hx. subst c'.
        destruct (Hs _ _ Hxin) as [[] | (_ & -> & _)]. exact Hxin.
      * destruct x as [c' reason']. cbn [fst] in Hx. subst c'.
        destruct (Hfail _ _ Hxin) as [_ Hm']. congruence.
  - intros c reason Hc. destruct (Hf _ _ Hc) as [[] | (Hi & Hm & Hwhy)].
    split; [apply Hin; exact Hi|].
    split; [rewrite (Hun _ Hi), Hm; reflexivity|].
    rewrite (Hex _ Hi) in Hwhy. exact Hwhy.
  - intros e He. destruct (Hu _ He) as [[] | (Hi & Hm & Hexists & Hcost)].
    split; [apply Hin; exact Hi|].
    split; [rewrite (Hun _ Hi), Hm; reflexivity|].
    rewrite (Hex _ Hi) in Hexists. split; assumption.
Qed.

(** X23. bulkUnlockCreators keeps its books.  It fails only for a user without
    a brand or a brand without an active package.  Otherwise, over the
    distinct requested ids: every requested id, and no other, is reported
    exactly once as unlocked, skipped or failed (the three lists together
    are a rearrangement of the distinct requested ids); an id is skipped
    exactly when the brand had it unlocked before the call; an id fails
    either because the creator is unknown or because the balance does not
    cover the cost, and then the balance reported at the end is below the
    cost; an unlocked id was locked before, belongs to a known creator and
    costs the report token cost; the tokens spent are the number unlocked
    times the report token cost; the remaining balance is the starting
    balance minus the tokens spent and is 0 or more once anything was
    unlocked; the wallet row holds that balance and the raised debit total;
    and the store gains one unlock row per unlocked creator, in the order
    reported, and as many transaction rows. *)
Theorem bulkUnlockCreators_accounts
    (now : Timestamp) (brandUserId : Id) (creatorIds : list Id) (d : Db) :
  let run := bulkUnlockCreators now brandUserId creatorIds d in
  (exists e,
     run = (Err e, exec (getOrCreateBrandWallet now brandUserId) d)
     /\ (e = NoBrandLinked \/ e = NoActivePackage))
  \/ (exists r d1 wd d0 pkg w1 recs bts,
        run = (Ok r, d1)
        /\ getOrCreateBrandWallet now brandUserId d = (Ok wd, d0)
        /\ package wd = Some pkg
        /\ total_requested r = List.length (unique creatorIds)
        /\ (List.length (unlocked r) + List.length (skipped r)
            + List.length (failed_unlocks r) = total_requested r)%nat
        /\ total_unlocked r = List.length (unlocked r)
        /\ total_tokens_spent r
           = Z.of_nat (total_unlocked r) * num_or (report_token_cost pkg) 5
        /\ bulk_remaining_token_balance r
           = token_balance (wallet wd) - total_tokens_spent r
        /\ ((0 < total_unlocked r)%nat -> 0 <= bulk_remaining_token_balance r)
        /\ brand_wallet_of (bw_brand_id (wallet wd)) d1 = Some w1
        /\ token_balance w1 = bulk_remaining_token_balance r
        /\ total_tokens_debited w1
           = total_tokens_debited (wallet wd) + total_tokens_spent r
        /\ escrow_balance w1 = escrow_balance (wallet wd)
        /\ brand_unlocked_creators d1 = brand_unlocked_creators d0 ++ recs
        /\ map uc_creator_id recs = map ue_creator_id (unlocked r)
        /\ brand_transactions d1 = brand_transactions d0 ++ bts
        /\ List.length bts = total_unlocked r
        /\ NoDup (unique creatorIds)
        /\ (forall c, In c (unique creatorIds) <-> In c creatorIds)
        /\ Permutation (reported_ids r) (unique creatorIds)
        /\ (forall c reason, In (c, reason) (skipped r) <->
              In c creatorIds /\ reason = "Already unlocked"
              /\ isCreatorUnlocked (bw_brand_id (wallet wd)) c d0 = (Ok true, d0))
        /\ (forall c reason, In (c, reason) (failed_unlocks r) ->
              In c creatorIds
              /\ isCreatorUnlocked (bw_brand_id (wallet wd)) c d0 = (Ok false, d0)
              /\ ((reason = "Creator not found" /\ creator_of c d0 = None)
                  \/ (reason = "Insufficient token balance"
                      /\ creator_of c d0 <> None
                      /\ bulk_remaining_token_balance r
                         < num_or (report_token_cost pkg) 5)))
        /\ (forall e, In e (unlocked r) ->
              In (ue_creator_id e) creatorIds
              /\ isCreatorUnlocked (bw_brand_id (wallet wd)) (ue_creator_id e) d0
                 = (Ok false, d0)
              /\ creator_of (ue_creator_id e) d0 <> None
              /\ ue_tokens_spent e = num_or (report_token_cost pkg) 5)).
Proof.
  cbv zeta.
  destruct (bulkUnlockCreators_books now brandUserId creatorIds d)
    as [Herr | (r & d1 & wd & d0 & pkg & w1 & recs & bts & Hrun & Hg & Hpkg
                & H1 & H2 & H3 & H4 & H5 & H6 & H7 & H8 & H9 & H10 & H11 & H12
                & H13 & H14)].
  - left. exact Herr.
  - right. exists r, d1, wd, d0, pkg, w1, recs, bts.
    destruct (bulkUnlockCreators_report _ _ _ _ _ _ _ _ _ Hrun Hg Hpkg)
      as (Hp & Hs & Hf & Hu).
    split; [exact Hrun|]. split; [exact Hg|]. split; [exact Hpkg|].
    split; [exact H1|]. split; [exact H2|]. split; [exact H3|].
    split; [exact H4|]. split; [exact H5|]. split; [exact H6|].
    split; [exact H7|]. split; [exact H8|]. split; [exact H9|].
    split; [exact H10|]. split; [exact H11|]. split; [exact H12|].
    split; [exact H13|]. split; [exact H14|].
    split; [apply unique_NoDup|].
    split; [intros c; apply unique_In|].
    split; [exact Hp|]. split; [exact Hs|]. split; [exact Hf | exact Hu].
Qed.

(** ** Brand wallet and single unlock *)

(** The stats of an answer are those of the returned row at the time of
    the call. *)
Lemma getOrCreateBrandWallet_stats now userId d wd d0 :
  getOrCreateBrandWallet now userId d = (Ok wd, d0) ->
  stats wd = brand_wallet_stats now (wallet wd).
Proof.
  unfold getOrCreateBrandWallet, getBrandByUserId, getPackageByName,
    getFreeBrandPackage.
  run.
  destruct (find _ (brands d)) as [brand|]; [|discriminate].
  destruct (brand_wallet_of (br_id brand) d) as [w|].
  - destruct (String.eqb (current_package w) EmptyString
              || String.eqb (current_package w) "none");
      intros [= <- _]; reflexivity.
  - destruct (first_by_sort_order _) as [fp|].
    + destruct (0 <? tokens_included fp); db_simpl; cbn [current_package];
        destruct (String.eqb (pk_name fp) EmptyString
                  || String.eqb (pk_name fp) "none");
        intros [= <- _]; reflexivity.
    + db_simpl. simpl. intros [= <- _]. reflexivity.
Qed.

(** A later call finds the row of the first one: same wallet and package,
    no write, and the stats of the later time. *)
Lemma getOrCreateBrandWallet_again now now' userId d wd d0 :
  getOrCreateBrandWallet now userId d = (Ok wd, d0) ->
  getOrCreateBrandWallet now' userId d0
  = (Ok (mkBrandWalletResponse (wallet wd) (package wd)
           (brand_wallet_stats now' (wallet wd))), d0).
Proof.
  intros Hg.
  destruct (getOrCreateBrandWallet_success _ _ _ _ _ Hg)
    as (brand & Hb & Hbid & Hw0 & Hp & Hbr & _).
  rewrite <- Hbr in Hb.
  destruct (getOrCreateBrandWallet_existing now' userId d0 brand (wallet wd)
              Hb Hw0) as (pkg & Hrun & Hpkg).
  rewrite Hrun. rewrite <- Hp in Hpkg. rewrite Hpkg.
  reflexivity.
Qed.

(** [Math.ceil] of a quotient by a positive number grows with the
    numerator. *)
Lemma ceil_div_mono (a a' b : Z) : 0 < b -> a' <= a -> ceil_div a' b <= ceil_div a b.
Proof.
  intros Hb Hle. unfold ceil_div.
  assert (H : (- a) / b <= (- a') / b) by (apply Z.div_le_mono; lia).
  lia.
Qed.

(** The days remaining of a package never grow with time. *)
Lemma days_remaining_decrease now now' expiresAt n :
  now <= now' ->
  calculatePackageDaysRemaining now expiresAt = Some n ->
  exists n', calculatePackageDaysRemaining now' expiresAt = Some n'
             /\ 0 <= n' <= n.
Proof.
  intros Hle. unfold calculatePackageDaysRemaining.
  destruct expiresAt as [expiry|]; [|discriminate].
  cbv zeta. intros [= <-]. eexists. split; [reflexivity|].
  assert (Hms : 0 < ms_per_day) by (unfold ms_per_day; lia).
  pose proof (ceil_div_mono (expiry - now) (expiry - now') ms_per_day Hms
                ltac:(lia)) as Hm.
  destruct (Z.ltb_spec 0 (ceil_div (expiry - now') ms_per_day));
    destruct (Z.ltb_spec 0 (ceil_div (expiry - now) ms_per_day)); lia.
Qed.

(** X24. getOrCreateBrandWallet creates once.  For a user without a brand it
    throws and writes nothing.  Otherwise it returns the wallet of the user's
    brand with the stats of that row at the time of the call; an existing
    wallet is returned with no write, a missing one is appended with empty
    escrow columns and a token balance equal to its credited total; and a
    second call, at any time, returns the same wallet and package and writes
    nothing.  Its stats are those of the time of the second call: at the
    same time the whole answer is the same, and at a later time the days
    remaining of the package are at most what they were and at least 0. *)
Theorem getOrCreateBrandWallet_idempotent (now now' : Timestamp) (userId : Id)
    (d : Db) :
  let run := getOrCreateBrandWallet now userId d in
  let found := find (fun b => Nat.eqb (br_user_id b) userId) (brands d) in
  (found = None /\ run = (Err NoBrandLinked, d))
  \/ (exists brand wd d0,
        found = Some brand
        /\ run = (Ok wd, d0)
        /\ bw_brand_id (wallet wd) = br_id brand
        /\ brand_wallet_of (br_id brand) d0 = Some (wallet wd)
        /\ stats wd = brand_wallet_stats now (wallet wd)
        /\ getOrCreateBrandWallet now' userId d0
           = (Ok (mkBrandWalletResponse (wallet wd) (package wd)
                    (brand_wallet_stats now' (wallet wd))), d0)
        /\ getOrCreateBrandWallet now userId d0 = (Ok wd, d0)
        /\ (forall n, now <= now' ->
              package_days_remaining (stats wd) = Some n ->
              exists n',
                package_days_remaining (brand_wallet_stats now' (wallet wd))
                = Some n'
                /\ 0 <= n' <= n)
        /\ (forall w, brand_wallet_of (br_id brand) d = Some w ->
              wallet wd = w /\ d0 = d)
        /\ (brand_wallet_of (br_id brand) d = None ->
              brand_wallets d0 = brand_wallets d ++ [wallet wd]
              /\ token_balance (wallet wd) = total_tokens_credited (wallet wd)
              /\ total_tokens_debited (wallet wd) = 0
              /\ escrow_balance (wallet wd) = 0
              /\ escrow_on_hold (wallet wd) = 0
              /\ total_escrow_deposited (wallet wd) = 0
              /\ total_escrow_released (wallet wd) = 0)).
Proof.
  cbv zeta.
  destruct (getOrCreateBrandWallet now userId d) as [[wd|e] d0] eqn:Hg.
  - right.
    destruct (getOrCreateBrandWallet_success _ _ _ _ _ Hg)
      as (brand & Hb & Hbid & Hw0 & Hp & Hbr & _).
    exists brand, wd, d0.
    split; [exact Hb|]. split; [reflexivity|]. split; [exact Hbid|].
    split; [exact Hw0|].
    pose proof (getOrCreateBrandWallet_stats _ _ _ _ _ Hg) as Hst.
    split; [exact Hst|].
    split; [apply (getOrCreateBrandWallet_again now now' _ _ _ _ Hg)|].
    split.
    { rewrite (getOrCreateBrandWallet_again now now _ _ _ _ Hg), <- Hst.
      destruct wd; reflexivity. }
    split.
    { intros n Hle Hn. rewrite Hst in Hn.
      eapply days_remaining_decrease; eassumption. }
    split.
    { intros w Hw.
      destruct (getOrCreateBrandWallet_existing now userId d brand w Hb Hw)
        as (pkg & Hrun & _).
      rewrite Hrun in Hg. injection Hg as <- <-. split; reflexivity. }
    intros Hnone. revert Hg.
    unfold getOrCreateBrandWallet, getBrandByUserId, getPackageByName,
      getFreeBrandPackage.
    run. rewrite Hb, Hnone.
    destruct (first_by_sort_order _) as [fp|].
    + destruct (0 <? tokens_included fp); db_simpl; cbn [current_package];
        destruct (String.eqb (pk_name fp) EmptyString
                  || String.eqb (pk_name fp) "none");
        intros [= <- <-]; simpl; repeat split.
    + db_simpl. simpl. intros [= <- <-]. simpl. repeat split.
  - left. destruct (getOrCreateBrandWallet_error _ _ _ _ _ Hg) as [-> ->].
    split; [|reflexivity].
    revert Hg. unfold getOrCreateBrandWallet, getBrandByUserId. run.
    destruct (find _ (brands d)) as [brand|]; [|reflexivity].
    intros Hg. exfalso. revert Hg.
    unfold getPackageByName, getFreeBrandPackage. run.
    destruct (brand_wallet_of (br_id brand) d) as [w|].
    + destruct (String.eqb (current_package w) EmptyString
                || String.eqb (current_package w) "none"); discriminate.
    + destruct (first_by_sort_order _) as [fp|].
      * destruct (0 <? tokens_included fp); db_simpl; cbn [current_package];
          destruct (String.eqb (pk_name fp) EmptyString
                    || String.eqb (pk_name fp) "none"); discriminate.
      * db_simpl. simpl. discriminate.
Qed.

(** X25. getUnlockCost predicts unlockCreator.  With the cost and balance the
    preview reports: for a creator that exists and is not yet unlocked,
    unlockCreator succeeds exactly when the preview says the brand can
    unlock, spends the previewed cost and leaves the previewed balance minus
    that cost; when the preview says it cannot, unlockCreator throws the
    insufficient-balance error with the previewed figures and writes
    nothing. *)
Theorem getUnlockCost_predicts_unlock
    (now now' : Timestamp) (brandUserId : Id) (d d0 : Db) (c : UnlockCost) :
  getUnlockCost now brandUserId d = (Ok c, d0) ->
  exists wd,
    getOrCreateBrandWallet now brandUserId d = (Ok wd, d0)
    /\ uc_current_balance c = token_balance (wallet wd)
    /\ forall creator usr,
         find (unlocked_pair (bw_brand_id (wallet wd)) creator)
              (brand_unlocked_creators d0) = None ->
         find (fun u => Nat.eqb (u_id u) creator) (ce_users d0) = Some usr ->
         (can_unlock c = true ->
          exists r d1,
            unlockCreator now' (mkUnlockCreatorInput brandUserId creator) d0
              = (Ok r, d1)
            /\ ur_tokens_spent r = token_cost c
            /\ remaining_token_balance r = uc_current_balance c - token_cost c
            /\ 0 <= remaining_token_balance r)
         /\ (can_unlock c = false ->
             unlockCreator now' (mkUnlockCreatorInput brandUserId creator) d0
             = (Err (InsufficientTokenBalance (token_cost c)
                       (uc_current_balance c)), d0)).
Proof.
  unfold getUnlockCost. run.
  destruct (getOrCreateBrandWallet now brandUserId d) as [[wd|e] d1] eqn:Hg;
    [|discriminate].
  destruct (package wd) as [pkg|] eqn:Hpkg; [|discriminate].
  intros [= <- <-]. exists wd. split; [reflexivity|]. split; [reflexivity|].
  intros creator usr Hnot Hex. simpl.
  pose proof (getOrCreateBrandWallet_again now now' _ _ _ _ Hg) as Hagain.
  unfold unlockCreator; cbv zeta. run. simpl.
  rewrite Hagain. cbn [wallet package]. rewrite Hpkg.
  unfold unlocked_pair in Hnot. rewrite Hnot, Hex.
  split; intros Hcan.
  - apply Z.leb_le in Hcan.
    destruct (Z.ltb_spec (token_balance (wallet wd))
                (num_or (report_token_cost pkg) 5)); [lia|].
    db_simpl. do 2 eexists. split; [reflexivity|]. simpl.
    repeat split; lia.
  - apply Z.leb_gt in Hcan.
    destruct (Z.ltb_spec (token_balance (wallet wd))
                (num_or (report_token_cost pkg) 5)); [reflexivity | lia].
Qed.

(** X26. An unlock shows in every lookup.  After a successful unlockCreator
    the pair, not unlocked before, is reported unlocked by isCreatorUnlocked
    and by checkUnlockedCreators for any list naming the creator, and the
    next preview starts from the remaining balance the unlock returned. *)
Theorem unlockCreator_is_visible
    (now now' : Timestamp) (input : UnlockCreatorInput) (d d1 : Db)
    (r : UnlockCreatorResult) :
  unlockCreator now input d = (Ok r, d1) ->
  exists wd d0,
    getOrCreateBrandWallet now (brand_user_id input) d = (Ok wd, d0)
    /\ isCreatorUnlocked (bw_brand_id (wallet wd)) (creator_id input) d0
       = (Ok false, d0)
    /\ isCreatorUnlocked (bw_brand_id (wallet wd)) (creator_id input) d1
       = (Ok true, d1)
    /\ (forall ids, In (creator_id input) ids ->
          exists l,
            checkUnlockedCreators now' (brand_user_id input) ids d1 = (Ok l, d1)
            /\ In (creator_id input, true) l)
    /\ (exists c,
          getUnlockCost now' (brand_user_id input) d1 = (Ok c, d1)
          /\ token_cost c = ur_tokens_spent r
          /\ uc_current_balance c = remaining_token_balance r).
Proof.
  intros Hrun.
  destruct (unlockCreator_success _ _ _ _ _ Hrun)
    as (wd & d0 & pkg & bt & rec & Hg & Hpkg & Hle & Hspent & Hrem & Hbw & _ & _
        & _ & _ & _ & Hnot & Huc & Hrb & Hrc & Hbr & Hpk).
  destruct (getOrCreateBrandWallet_success _ _ _ _ _ Hg)
    as (brand & Hb & Hbid & Hw0 & Hp & Hbr0 & _).
  exists wd, d0. split; [exact Hg|].
  split.
  { unfold isCreatorUnlocked, gets, unlocked_pair. rewrite Hnot. reflexivity. }
  assert (Hin : In rec (brand_unlocked_creators d1)).
  { rewrite Huc. apply in_or_app. right. left. reflexivity. }
  split.
  { unfold isCreatorUnlocked, gets.
    destruct (find (unlocked_pair (bw_brand_id (wallet wd)) (creator_id input))
                (brand_unlocked_creators d1)) eqn:Hf; [reflexivity|].
    pose proof (find_none _ _ Hf rec Hin) as Hc.
    unfold unlocked_pair in Hc. rewrite Hrb, Hrc, !Nat.eqb_refl in Hc.
    discriminate. }
  set (f := fun w : BrandWallet =>
         touch now
           (set_total_tokens_debited (total_tokens_debited w + ur_tokens_spent r)
           (set_token_balance (remaining_token_balance r) w))) in *.
  assert (Hw1 : brand_wallet_of (br_id brand) d1 = Some (f (wallet wd))).
  { unfold brand_wallet_of. rewrite Hbw, Hbid.
    rewrite find_update_where by reflexivity.
    unfold brand_wallet_of in Hw0. rewrite Hw0. reflexivity. }
  assert (Hb1 : find (fun b => Nat.eqb (br_user_id b) (brand_user_id input))
                  (brands d1) = Some brand).
  { rewrite Hbr, Hbr0. exact Hb. }
  destruct (getOrCreateBrandWallet_existing now' (brand_user_id input) d1 brand
              (f (wallet wd)) Hb1 Hw1) as (pkg1 & Hrun1 & Hpkg1).
  assert (Hpkg1' : pkg1 = Some pkg).
  { rewrite Hpkg1. simpl. rewrite Hpk. rewrite <- Hp. exact Hpkg. }
  rewrite Hpkg1' in Hrun1. clear Hpkg1 Hpkg1'.
  split.
  - intros ids Hids. unfold checkUnlockedCreators.
    destruct ids as [|i ids']; [contradiction|].
    run. rewrite Hrun1. remember (i :: ids') as ids eqn:E.
    cbn [wallet package fst snd bw_brand_id f touch set_total_tokens_debited
         set_token_balance].
    eexists. split; [reflexivity|].
    apply in_map_iff. exists (creator_id input).
    split; [|apply unique_In; exact Hids].
    f_equal. apply mem_In. unfold unlocked_among.
    apply in_map_iff. exists rec. split; [exact Hrc|].
    apply filter_In. split; [exact Hin|].
    rewrite Hrb, Hrc, Nat.eqb_refl. simpl. apply mem_In. exact Hids.
  - unfold getUnlockCost. run. rewrite Hrun1. simpl.
    eexists. split; [reflexivity|]. simpl. split; [symmetry; exact Hspent|].
    reflexivity.
Qed.

(** Where each id of the loop ends, for a positive cost: already unlocked,
    unknown, unlocked by this run, or short of tokens at the end. *)
Lemma bulk_unlock_loop_trace now b u pkg cost aset ex ids :
  0 < cost ->
  forall tb r d,
  exists tb' r' d' recs,
    bulk_unlock_loop now b u pkg cost aset ex ids tb r d = (Ok (tb', r'), d')
    /\ tb' <= tb
    /\ brand_unlocked_creators d' = brand_unlocked_creators d ++ recs
    /\ (forall c, In c ids ->
          mem c aset = true
          \/ find (fun x => Nat.eqb (u_id x) c) ex = None
          \/ In c (map uc_creator_id recs)
          \/ tb' < cost).
Proof.
  intros Hcost.
  induction ids as [|c rest IH]; intros tb r d.
  - exists tb, r, d, []. simpl. rewrite app_nil_r.
    repeat split; [lia | contradiction].
  - cbn [bulk_unlock_loop]. cbv zeta.
    destruct (mem c aset) eqn:Hmem.
    { destruct (IH tb (push_skipped c "Already unlocked" r) d)
        as (tb' & r' & d' & recs & Hrun & Hle & Hrecs & Hall).
      exists tb', r', d', recs. repeat split; try assumption.
      intros x [<- | Hx]; [left; exact Hmem | apply Hall; exact Hx]. }
    destruct (find (fun x => Nat.eqb (u_id x) c) ex) as [usr|] eqn:Hex.
    2:{ destruct (IH tb (push_failed c "Creator not found" r) d)
          as (tb' & r' & d' & recs & Hrun & Hle & Hrecs & Hall).
        exists tb', r', d', recs. repeat split; try assumption.
        intros x [<- | Hx]; [right; left; exact Hex | apply Hall; exact Hx]. }
    destruct (Z.ltb_spec tb cost) as [Hlt|Hge].
    { destruct (IH tb (push_failed c "Insufficient token balance" r) d)
        as (tb' & r' & d' & recs & Hrun & Hle & Hrecs & Hall).
      exists tb', r', d', recs. repeat split; try assumption.
      intros x [<- | Hx]; [right; right; right; lia | apply Hall; exact Hx]. }
    run. db_simpl.
    match goal with
    | |- context [bulk_unlock_loop _ _ _ _ _ _ _ rest ?tb1 ?r1 ?d1] =>
      destruct (IH tb1 r1 d1)
        as (tb' & r' & d' & recs & Hrun & Hle & Hrecs & Hall)
    end.
    db_simpl.
    exists tb', r', d'.
    match type of Hrecs with
    | _ = (_ ++ [?rec]) ++ _ => exists (rec :: recs)
    end.
    split; [exact Hrun|]. split; [lia|].
    split; [rewrite Hrecs, <- app_assoc; reflexivity|].
    intros x [<- | Hx].
    + right; right; left. left. reflexivity.
    + destruct (Hall x Hx) as [H|[H|[H|H]]]; auto.
      right; right; left. right. exact H.
Qed.

(** A loop in which every id is already unlocked, unknown or beyond the
    balance unlocks nothing and writes nothing. *)
Lemma bulk_unlock_loop_noop now b u pkg cost aset ex ids tb :
  (forall c, In c ids ->
     mem c aset = true
     \/ find (fun x => Nat.eqb (u_id x) c) ex = None
     \/ tb < cost) ->
  forall r d,
  exists r',
    bulk_unlock_loop now b u pkg cost aset ex ids tb r d = (Ok (tb, r'), d)
    /\ total_requested r' = total_requested r
    /\ total_unlocked r' = total_unlocked r
    /\ total_tokens_spent r' = total_tokens_spent r
    /\ unlocked r' = unlocked r
    /\ (forall c, In c ids -> mem c aset = true ->
          In (c, "Already unlocked") (skipped r'))
    /\ (forall e, In e (skipped r) -> In e (skipped r')).
Proof.
  induction ids as [|c rest IH]; intros Hall r d.
  - exists r. simpl. repeat split; auto. contradiction.
  - assert (Hrest : forall x, In x rest ->
              mem x aset = true
              \/ find (fun y => Nat.eqb (u_id y) x) ex = None \/ tb < cost)
      by (intros x Hx; apply Hall; right; exact Hx).
    cbn [bulk_unlock_loop]. cbv zeta.
    destruct (mem c aset) eqn:Hmem.
    { destruct (IH Hrest (push_skipped c "Already unlocked" r) d)
        as (r' & Hrun & H1 & H2 & H3 & H4 & H5 & H6).
      exists r'. simpl in *. repeat split; try assumption.
      - intros x [<- | Hx] Hm; [|apply H5; assumption].
        apply H6. apply in_or_app. right. left. reflexivity.
      - intros e He. apply H6. apply in_or_app. left. exact He. }
    destruct (find (fun x => Nat.eqb (u_id x) c) ex) as [usr|] eqn:Hex.
    2:{ destruct (IH Hrest (push_failed c "Creator not found" r) d)
          as (r' & Hrun & H1 & H2 & H3 & H4 & H5 & H6).
        exists r'. simpl in *. repeat split; try assumption.
        intros x [<- | Hx] Hm; [congruence | apply H5; assumption]. }
    destruct (Z.ltb_spec tb cost) as [Hlt|Hge].
    { destruct (IH Hrest (push_failed c "Insufficient token balance" r) d)
        as (r' & Hrun & H1 & H2 & H3 & H4 & H5 & H6).
      exists r'. simpl in *. repeat split; try assumption.
      intros x [<- | Hx] Hm; [congruence | apply H5; assumption]. }
    exfalso. destruct (Hall c (or_introl eq_refl)) as [H|[H|H]];
      [congruence | congruence | lia].
Qed.

Lemma num_or_positive (n dflt : Z) : 0 <= n -> 0 < dflt -> 0 < num_or n dflt.
Proof.
  intros Hn Hd. unfold num_or. destruct (Z.eqb_spec n 0); lia.
Qed.

(** X27. A bulk unlock can be retried without a second charge.  With report
    token costs of 0 or more in the catalogue, repeating a successful
    bulkUnlockCreators for the same ids unlocks nobody, spends nothing,
    reports the same remaining balance, lists every creator the first call
    unlocked as already unlocked and leaves the store as the first call left
    it. *)
Theorem bulkUnlockCreators_retry_charges_nothing
    (now now' : Timestamp) (brandUserId : Id) (creatorIds : list Id)
    (d d1 : Db) (r : BulkUnlockResult) :
  (forall p, In p (packages d) -> 0 <= report_token_cost p) ->
  bulkUnlockCreators now brandUserId creatorIds d = (Ok r, d1) ->
  exists r2,
    bulkUnlockCreators now' brandUserId creatorIds d1 = (Ok r2, d1)
    /\ total_requested r2 = total_requested r
    /\ total_unlocked r2 = 0%nat
    /\ total_tokens_spent r2 = 0
    /\ unlocked r2 = []
    /\ bulk_remaining_token_balance r2 = bulk_remaining_token_balance r
    /\ (forall e, In e (unlocked r) ->
          In (ue_creator_id e, "Already unlocked") (skipped r2)).
Proof.
  intros Hcosts.
  unfold bulkUnlockCreators at 1. cbv zeta. run.
  destruct (getOrCreateBrandWallet now brandUserId d) as [[wd|e] d0] eqn:Hg;
    [|discriminate].
  destruct (package wd) as [pkg|] eqn:Hpkg; [|discriminate].
  destruct (getOrCreateBrandWallet_success _ _ _ _ _ Hg)
    as (brand & Hb & Hbid & Hw0 & Hp & Hbr0 & Hpk0 & _).
  assert (Hcost : 0 < num_or (report_token_cost pkg) 5).
  { apply num_or_positive; [|lia]. apply Hcosts. rewrite <- Hpk0.
    rewrite Hp in Hpkg.
    destruct (String.eqb (current_package (wallet wd)) EmptyString
              || String.eqb (current_package (wallet wd)) "none");
      [discriminate|].
    apply find_some in Hpkg. apply Hpkg. }
  set (b := bw_brand_id (wallet wd)) in *.
  set (cost := num_or (report_token_cost pkg) 5) in *.
  set (ids := unique creatorIds) in *.
  set (aset := unlocked_among b ids d0).
  set (ex := filter (fun x : User => mem (u_id x) ids) (ce_users d0)).
  set (r0 := mkBulkUnlockResult (List.length ids) 0 0 0 [] [] []).
  destruct (bulk_unlock_loop_spec now b brandUserId pkg cost aset ex ids
              (token_balance (wallet wd)) r0 d0)
    as (tb' & r' & d' & k & recs & bts & Hloop & H1 & H2 & H3 & H4 & H5 & H6
        & H7 & H8 & H9 & H10 & H11 & H12 & H13 & H14 & H15 & H16 & H17 & _).
  destruct (bulk_unlock_loop_trace now b brandUserId pkg cost aset ex ids Hcost
              (token_balance (wallet wd)) r0 d0)
    as (tb2 & r2' & d2' & recs2 & Hloop2 & Hle & Hrecs2 & Hall).
  rewrite Hloop in Hloop2. injection Hloop2 as <- <- <-.
  rewrite H9 in Hrecs2. apply app_inv_head in Hrecs2. subst recs2.
  rewrite Hloop. cbn [fst snd]. simpl in H1, H3, H5, H8.
  set (f := fun w : BrandWallet =>
         touch now
           (set_total_tokens_debited (total_tokens_debited w + total_tokens_spent r')
           (set_token_balance tb' w))).
  set (w1 := if Nat.ltb 0 (total_unlocked r') then f (wallet wd) else wallet wd).
  set (dd := if Nat.ltb 0 (total_unlocked r')
             then set_brand_wallets
                    (update_where (by_brand_id b) f (brand_wallets d')) d'
             else d').
  intros Hrun.
  assert (Hres : r = set_bulk_remaining tb' r' /\ d1 = dd).
  { unfold dd. destruct (Nat.ltb 0 (total_unlocked r')); db_simpl;
      injection Hrun as <- <-; split; reflexivity. }
  destruct Hres as [-> ->]. clear Hrun.
  assert (Hw1 : brand_wallet_of (br_id brand) dd = Some w1).
  { unfold dd, w1, brand_wallet_of. rewrite <- Hbid. fold b.
    destruct (Nat.ltb 0 (total_unlocked r')); db_simpl.
    - rewrite find_update_where by reflexivity. rewrite H14.
      unfold brand_wallet_of in Hw0. rewrite <- Hbid in Hw0. fold b in Hw0.
      rewrite Hw0. reflexivity.
    - rewrite H14. unfold brand_wallet_of in Hw0. rewrite <- Hbid in Hw0.
      exact Hw0. }
  assert (Hdd : brands dd = brands d /\ packages dd = packages d0
                /\ ce_users dd = ce_users d0
                /\ brand_unlocked_creators dd = brand_unlocked_creators d0 ++ recs).
  { unfold dd. destruct (Nat.ltb 0 (total_unlocked r')); db_simpl;
      repeat split; congruence. }
  destruct Hdd as (Hbr & Hpk & Hus & Huc).
  assert (Hw1f : token_balance w1 = tb' /\ bw_brand_id w1 = b
                 /\ current_package w1 = current_package (wallet wd)).
  { unfold w1. destruct (Nat.ltb_spec 0 (total_unlocked r')); simpl.
    - repeat split.
    - repeat split. assert (k = 0%nat) by lia. subst k. lia. }
  destruct Hw1f as (Htb1 & Hb1 & Hcp1).
  rewrite <- Hbr in Hb.
  destruct (getOrCreateBrandWallet_existing now' brandUserId dd brand w1 Hb Hw1)
    as (pkg1 & Hrun1 & Hpkg1).
  assert (Hpkg1' : pkg1 = Some pkg).
  { rewrite Hpkg1, Hcp1, Hpk, <- Hp. exact Hpkg. }
  rewrite Hpkg1' in Hrun1. clear Hpkg1 Hpkg1' pkg1.
  unfold bulkUnlockCreators. cbv zeta. run. rewrite Hrun1.
  cbn [wallet package]. rewrite Hb1, Htb1. fold cost ids. rewrite Hus. fold ex.
  destruct (bulk_unlock_loop_noop now' b brandUserId pkg cost
              (unlocked_among b ids dd) ex ids tb') with (r := r0) (d := dd)
    as (r2 & Hloop2 & G1 & G2 & G3 & G4 & G5 & _).
  { intros c Hc. destruct (Hall c Hc) as [H|[H|[H|H]]].
    - left. apply mem_In. apply mem_In in H. unfold unlocked_among in *.
      rewrite Huc, filter_app, map_app. apply in_or_app. left. exact H.
    - right. left. exact H.
    - left. apply mem_In. unfold unlocked_among.
      rewrite Huc, filter_app, map_app. apply in_or_app. right.
      apply in_map_iff in H as (rec & Hrc & Hrec).
      apply in_map_iff. exists rec. split; [exact Hrc|].
      apply filter_In. split; [exact Hrec|].
      destruct (H11 rec Hrec) as (Hrb & Hin & _).
      rewrite Hrb, Nat.eqb_refl. simpl. apply mem_In. exact Hin.
    - right. right. exact H. }
  unfold r0 in Hloop2. rewrite Hloop2. cbn [fst snd]. simpl in G1, G2, G3, G4.
  rewrite G2. simpl.
  exists (set_bulk_remaining tb' r2).
  split; [reflexivity|]. simpl.
  split; [congruence|]. split; [exact G2|]. split; [exact G3|].
  split; [exact G4|]. split; [reflexivity|].
  intros e He. apply G5.
  - assert (Hin : In (ue_creator_id e) (map uc_creator_id recs)).
    { rewrite <- H8. apply in_map. exact He. }
    apply in_map_iff in Hin as (rec & Hrc & Hrec).
    rewrite <- Hrc. apply (H11 rec Hrec).
  - apply mem_In. unfold unlocked_among.
    rewrite Huc, filter_app, map_app. apply in_or_app. right.
    assert (Hin : In (ue_creator_id e) (map uc_creator_id recs)).
    { rewrite <- H8. apply in_map. exact He. }
    apply in_map_iff in Hin as (rec & Hrc & Hrec).
    apply in_map_iff. exists rec. split; [exact Hrc|].
    apply filter_In. split; [exact Hrec|].
    destruct (H11 rec Hrec) as (Hrb & Hin & _).
    rewrite Hrb, Nat.eqb_refl. simpl. apply mem_In. exact Hin.
Qed.

(** ** Cross-service readings *)

Lemma sum_case_app p types f rows t :
  sum_case p types f (rows ++ [t])
  = sum_case p types f rows
    + (if p t then (if types (t_transaction_type t) then f (t_amount t) else 0)
       else 0).
Proof.
  unfold sum_case. rewrite filter_app, map_app.
  induction (map (fun t0 => if types (t_transaction_type t0)
                            then f (t_amount t0) else 0) (filter p rows))
    as [|x l IH]; simpl.
  - destruct (p t); simpl; lia.
  - unfold sumZ in *. simpl in IH. rewrite IH. lia.
Qed.

(** X28. Escrow earnings do not reach the transaction summary.  A release
    raises the creator's wallet total_earnings by the amount and records a
    completed creator transaction of type earning; getTransactionSummary
    counts only gift_received and campaign_earning rows as earnings, so every
    figure it reports for the creator is the same as before the release,
    while getWalletSummary reports the raised total. *)
Theorem release_earnings_missing_from_summary
    (now : Timestamp) (input : ReleaseEscrowInput) (d : Db) (w : BrandWallet) :
  brand_wallet_of (re_brand_id input) d = Some w ->
  0 < re_amount input ->
  re_amount input <= escrow_on_hold w ->
  exists r d' s,
    releaseEscrow now input d = (Ok r, d')
    /\ creator_total_earnings (re_creator_id input) d'
       = creator_total_earnings (re_creator_id input) d + re_amount input
    /\ transaction_summary_of (re_creator_id input) d'
       = transaction_summary_of (re_creator_id input) d
    /\ getWalletSummary (re_creator_id input) d' = (Ok s, d')
    /\ ws_total_earnings s
       = creator_total_earnings (re_creator_id input) d + re_amount input.
Proof.
  intros Hw Hpos Hle.
  destruct (releaseEscrow_succeeds now input d w Hpos Hw Hle)
    as (r & d' & w' & cw' & bt & ct & Hrun & _ & _ & _ & _ & Hcw & _ & Hearn
        & _ & Htx & _ & _ & _ & _ & _ & Hu & _ & Hty & Hst & _).
  exists r, d'. eexists. split; [exact Hrun|].
  split.
  { unfold creator_total_earnings at 1. rewrite Hcw. exact Hearn. }
  split.
  { unfold transaction_summary_of, getTransactionSummary, gets, unsettled_total.
    cbn [fst]. rewrite Htx, !sum_case_app.
    rewrite filter_app. simpl.
    unfold unsettled_withdrawal at 2. rewrite Hty, Hst, Hu. simpl.
    rewrite Nat.eqb_refl. simpl.
    rewrite app_nil_r, !Z.add_0_r. reflexivity. }
  unfold getWalletSummary. run. fold (getOrCreateWallet (re_creator_id input) d').
  rewrite getOrCreateWallet_found with (w := cw') by exact Hcw.
  split; [reflexivity|]. simpl. exact Hearn.
Qed.

(** X29. The two readings of the report token cost differ on the default.
    For a brand whose wallet names an active package, getTokenCosts and
    getUnlockCost both read the package's report_token_cost; they agree when
    it is not 0, and for 0 getTokenCosts reports 1 while getUnlockCost, like
    the unlock itself, charges 5. *)
Theorem report_token_cost_defaults_differ
    (now : Timestamp) (userId : Id) (d : Db) (brand : Brand) (w : BrandWallet)
    (pkg : Package) :
  find (fun b => Nat.eqb (br_user_id b) userId) (brands d) = Some brand ->
  brand_wallet_of (br_id brand) d = Some w ->
  String.eqb (current_package w) EmptyString
  || String.eqb (current_package w) "none" = false ->
  find (fun p => String.eqb (user_type p) "brand"
                 && String.eqb (pk_name p) (current_package w) && pk_is_active p)
       (packages d) = Some pkg ->
  exists tc uc,
    getTokenCosts userId d = (Ok (Some tc), d)
    /\ getUnlockCost now userId d = (Ok uc, d)
    /\ tc_report_token_cost tc = num_or (report_token_cost pkg) 1
    /\ token_cost uc = num_or (report_token_cost pkg) 5
    /\ (report_token_cost pkg <> 0 -> tc_report_token_cost tc = token_cost uc)
    /\ (report_token_cost pkg = 0 ->
        tc_report_token_cost tc = 1 /\ token_cost uc = 5).
Proof.
  intros Hb Hw Hname Hpkg.
  destruct (getOrCreateBrandWallet_existing now userId d brand w Hb Hw)
    as (p & Hrun & Hp).
  rewrite Hname, Hpkg in Hp. subst p.
  do 2 eexists. split.
  { unfold getTokenCosts, getBrandByUserId, getPackageByName. run.
    rewrite Hb, Hw, Hname, Hpkg. reflexivity. }
  split.
  { unfold getUnlockCost. run. rewrite Hrun. reflexivity. }
  simpl. split; [reflexivity|]. split; [reflexivity|].
  unfold num_or. split.
  - intros Hne. apply Z.eqb_neq in Hne. rewrite Hne. reflexivity.
  - intros ->. split; reflexivity.
Qed.

Lemma no_pending_after_fail i o e p rows :
  find (pending_by_id_and_order i o)
       (update_where (bt_by_id i) (bt_fail e p) rows) = None.
Proof.
  apply find_update_where_none.
  - intros x. unfold pending_by_id_and_order. simpl. apply andb_false_r.
  - intros x. apply pending_by_id_and_order_id.
Qed.

(** X30. A rejected signature is final.  When verifyRecharge or
    verifyEscrowDeposit finds the pending transaction and the payment
    signature is not accepted, it throws the verification error, marks the
    rows with that id failed and changes no wallet; any later verification of
    that transaction id, also with an accepted signature, fails as not found
    or already processed and changes nothing. *)
Theorem rejected_signature_is_final
    (verifyPaymentSignature : string -> string -> string -> bool)
    (now now' : Timestamp) (input input' : VerifyInput) (d : Db)
    (t : BrandTransaction) :
  find (pending_by_id_and_order (transaction_id input) (razorpay_order_id input))
       (brand_transactions d) = Some t ->
  verifyPaymentSignature (razorpay_order_id input) (razorpay_payment_id input)
    (razorpay_signature input) = false ->
  transaction_id input' = transaction_id input ->
  (exists d',
     verifyRecharge verifyPaymentSignature now input d
       = (Err PaymentVerificationFailed, d')
     /\ brand_wallets d' = brand_wallets d
     /\ (forall t', In t' (brand_transactions d') ->
           bt_id t' = transaction_id input -> bt_status t' = failed)
     /\ verifyRecharge verifyPaymentSignature now' input' d'
        = (Err TransactionNotFoundOrProcessed, d')
     /\ verifyEscrowDeposit verifyPaymentSignature now' input' d'
        = (Err TransactionNotFoundOrProcessed, d'))
  /\ (exists d',
        verifyEscrowDeposit verifyPaymentSignature now input d
          = (Err PaymentVerificationFailed, d')
        /\ brand_wallets d' = brand_wallets d
        /\ (forall t', In t' (brand_transactions d') ->
              bt_id t' = transaction_id input -> bt_status t' = failed)
        /\ verifyRecharge verifyPaymentSignature now' input' d'
           = (Err TransactionNotFoundOrProcessed, d')
        /\ verifyEscrowDeposit verifyPaymentSignature now' input' d'
           = (Err TransactionNotFoundOrProcessed, d')).
Proof.
  intros Ht Hsig Hid.
  assert (Hfailed : forall e p t',
            In t' (update_where (bt_by_id (transaction_id input)) (bt_fail e p)
                     (brand_transactions d)) ->
            bt_id t' = transaction_id input -> bt_status t' = failed).
  { intros e p t' Hin Hi. unfold update_where in Hin.
    apply in_map_iff in Hin as (x & <- & _).
    unfold bt_by_id in *.
    destruct (Nat.eqb_spec (bt_id x) (transaction_id input)) as [_|Hne];
      [reflexivity | contradiction]. }
  split.
  - eexists. split.
    { unfold verifyRecharge; cbv zeta. run. rewrite Ht, Hsig. reflexivity. }
    db_simpl. split; [reflexivity|]. split; [apply Hfailed|].
    split.
    + unfold verifyRecharge; cbv zeta. run. db_simpl.
      rewrite Hid, no_pending_after_fail. reflexivity.
    + unfold verifyEscrowDeposit; cbv zeta. run. db_simpl.
      rewrite Hid, no_pending_after_fail. reflexivity.
  - eexists. split.
    { unfold verifyEscrowDeposit; cbv zeta. run. rewrite Ht, Hsig. reflexivity. }
    db_simpl. split; [reflexivity|]. split; [apply Hfailed|].
    split.
    + unfold verifyRecharge; cbv zeta. run. db_simpl.
      rewrite Hid, no_pending_after_fail. reflexivity.
    + unfold verifyEscrowDeposit; cbv zeta. run. db_simpl.
      rewrite Hid, no_pending_after_fail. reflexivity.
Qed.

(** * Further properties on the sample store *)

(** X3, witness: the sample wallet's books balance (1000 available,
    500 on hold, 1500 deposited) and still do after a hold and after a
    release of 300. *)
Lemma escrow_books_stay_balanced_witness :
  escrow_books_balance sample_db
  /\ escrow_books_balance
       (exec (holdEscrow 7 (mkHoldEscrowInput 1 10 300 9 "Launch")) sample_db)
  /\ escrow_books_balance (exec (releaseEscrow 7 (sample_release 300)) sample_db).
Proof.
  assert (H : escrow_books_balance sample_db).
  { intros b w. unfold brand_wallet_of. cbn [sample_db brand_wallets find].
    destruct (by_brand_id b sample_brand_wallet); [|discriminate].
    intros [= <-]. reflexivity. }
  split; [exact H|].
  destruct (escrow_books_stay_balanced 7 sample_db H) as (Hh & Hr & _).
  split; [apply Hh | apply Hr].
Defined.

(** X6, witness: a total of 2500 against a balance of 1000: 1500 is paid, the
    balance becomes 2500 and the hold of 2500 leaves 0. *)
Lemma escrow_deposit_covers_shortfall_witness :
  let input := mkInitiateEscrowDepositInput 2500 1 10 None in
  brand_wallet_of 1 sample_db = Some sample_brand_wallet
  /\ escrow_balance sample_brand_wallet < 2500
  /\ brand_transaction_ids_fresh sample_db = true
  /\ sample_verifyPaymentSignature "order_9" "pay_1" "sig_ok" = true
  /\ exists d1 d2 d3,
       initiateEscrowDeposit "order_9" input sample_db
         = (Ok (mkInitiateEscrowDepositResponse true 1500 1000 (Some "order_9")
                  (Some 1000%nat)), d1)
       /\ verifyEscrowDeposit sample_verifyPaymentSignature 7
            (mkVerifyInput "order_9" "pay_1" "sig_ok" 1000) d1
          = (Ok (mkVerifyEscrowDepositResult 2500 1500 1000), d2)
       /\ holdEscrow 8 (mkHoldEscrowInput 1 10 2500 9 "Launch") d2
          = (Ok (mkHoldEscrowResult 0 3000), d3).
Proof.
  intros input.
  split; [reflexivity|]. split; [reflexivity|]. split; [reflexivity|].
  split; [reflexivity|].
  destruct (escrow_deposit_covers_shortfall sample_verifyPaymentSignature 7 8
              "order_9" "pay_1" "sig_ok" input 10 9 "Launch" sample_db
              sample_brand_wallet eq_refl eq_refl eq_refl eq_refl eq_refl)
    as (d1 & d2 & d3 & H1 & H2 & _ & H4).
  exists d1, d2, d3. split; [exact H1|]. split; [exact H2 | exact H4].
Defined.

(** X10, witness: creator 20 adds an account (id 1000) and asks for 500:
    rejected until the account is verified. *)
Lemma withdrawal_needs_verified_account_witness :
  let d1 := exec (addBankAccount 20 "ICICI Bank" "000987") sample_db in
  bank_account_ids_fresh sample_db = true
  /\ wallet_of 20 sample_db = Some sample_wallet
  /\ 500 <= balance sample_wallet
  /\ requestWithdrawal 7 20 500 1000 d1 = (Err BankAccountNotVerified, d1)
  /\ exists d3,
       requestWithdrawal 7 20 500 1000 (exec (verifyBankAccount 1000 true) d1)
       = (Ok (withdrawal_row 1001 20 500 1000), d3).
Proof.
  intros d1.
  split; [reflexivity|]. split; [reflexivity|]. split; [simpl; lia|].
  pose proof (withdrawal_needs_verified_account 7 20 "ICICI Bank" "000987" 500
                sample_db sample_wallet eq_refl eq_refl ltac:(simpl; lia)) as H.
  cbv zeta in H. destruct H as (H1 & _ & H3 & _).
  split; [exact H1 | exact H3].
Defined.

(** X13, witness: balance 10000, request of 500: the balance is 9500 and the
    reported availability 9000. *)
Lemma reserved_amount_is_deducted_twice_witness :
  wallet_of 20 sample_db = Some sample_wallet
  /\ 0 <= 500 <= balance sample_wallet
  /\ pending_balance sample_wallet = 0
  /\ unsettled_total 20 sample_db = 0
  /\ exists tx d1,
       requestWithdrawal 7 20 500 30 sample_db = (Ok tx, d1)
       /\ getBalance 20 d1 = (Ok (mkBalance 9500 500 9000), d1).
Proof.
  split; [reflexivity|]. split; [simpl; lia|]. split; [reflexivity|].
  split; [reflexivity|].
  destruct (reserved_amount_is_deducted_twice 7 20 30 500 sample_db sample_wallet
              (mkBankAccount 30 20 "HDFC Bank" "000123456" vs_verified true true)
              eq_refl eq_refl eq_refl ltac:(simpl; lia) eq_refl eq_refl)
    as (tx & d1 & w1 & H1 & _ & _ & H4 & _).
  exists tx, d1. split; [exact H1 | exact H4].
Defined.

(** X19, witness: the deposit of 1500 initiated under "order_9" is completed
    by the webhook with the escrow balance still 1000. *)
Lemma webhook_completes_escrow_deposit_witness :
  let d1 := sample_db_deposit "order_9" 2500 in
  let payload := mkWebhookPayload (Some (mkPaymentEntity "order_9" "pay_1")) in
  brand_wallet_of 1 sample_db = Some sample_brand_wallet
  /\ find (pending_by_order "order_9") (brand_transactions sample_db) = None
  /\ exists d2 w2,
       handleWebhook true sample_webhookExpectedSignature 7 "payment.captured"
         payload "hmac_ok" d1
       = (Ok (mkWebhookResult true PaymentProcessed), d2)
       /\ brand_wallet_of 1 d2 = Some w2
       /\ escrow_balance w2 = 1000
       /\ current_package w2 = "unknown"
       /\ verifyEscrowDeposit sample_verifyPaymentSignature 8
            (mkVerifyInput "order_9" "pay_1" "sig_ok" 1000) d2
          = (Err TransactionNotFoundOrProcessed, d2).
Proof.
  intros d1 payload. split; [reflexivity|]. split; [reflexivity|].
  pose proof (webhook_completes_escrow_deposit true sample_webhookExpectedSignature
                sample_verifyPaymentSignature 7 8 "order_9" "pay_1" "pay_1"
                "hmac_ok" "sig_ok" (mkInitiateEscrowDepositInput 2500 1 10 None)
                sample_db sample_brand_wallet) as H.
  cbv zeta in H.
  destruct (H eq_refl eq_refl eq_refl eq_refl eq_refl)
    as (d1' & d2 & w2 & H1 & H2 & H3 & H4 & _ & _ & H7 & H8).
  assert (E : d1' = d1).
  { unfold d1, sample_db_deposit, exec. rewrite H1. reflexivity. }
  rewrite E in H2.
  exists d2, w2. split; [exact H2|]. split; [exact H3|]. split; [exact H4|].
  split; [exact H7 | exact H8].
Defined.

(** X22, witness: the "pro" purchase (50 tokens, 30 days) is credited in full
    after the catalogue was emptied, and 30 days remain. *)
Lemma recharge_credits_the_purchased_snapshot_witness :
  let d1 := set_packages [] (sample_db_initiated "order_1" 100) in
  brand_wallet_of 1 sample_db = Some sample_brand_wallet
  /\ brand_transaction_ids_fresh sample_db = true
  /\ exists r d2 w2,
       verifyRecharge sample_verifyPaymentSignature 7 (sample_verify "order_1") d1
       = (Ok r, d2)
       /\ vr_tokens_credited r = 50
       /\ brand_wallet_of 1 d2 = Some w2
       /\ token_balance w2 = 70
       /\ calculatePackageDaysRemaining 7 (package_expires_at w2) = Some 30.
Proof.
  intros d1. split; [reflexivity|]. split; [reflexivity|].
  pose proof (recharge_credits_the_purchased_snapshot sample_verifyPaymentSignature
                6 7 "order_1" "pay_1" "sig_ok" (mkInitiateRechargeInput 100 1 10)
                sample_db pro_package sample_brand_wallet []
                eq_refl eq_refl eq_refl eq_refl eq_refl eq_refl eq_refl) as H.
  cbv zeta in H.
  destruct H as (r & d2 & w2 & H1 & H2 & _ & H4 & H5 & _ & _ & _ & Hsub & _).
  destruct (Hsub eq_refl) as (_ & _ & _ & Hdays).
  destruct (Hdays 30 eq_refl eq_refl) as [_ Hd].
  exists r, d2, w2. split; [exact H1|]. split; [exact H2|]. split; [exact H4|].
  split; [exact H5 | exact Hd].
Defined.

(** X25, witness: the preview for the brand of user 10 says 5 tokens out of
    20, and the unlock of creator 20 spends 5 and leaves 15. *)
Lemma getUnlockCost_predicts_unlock_witness :
  getUnlockCost 7 10 sample_db = (Ok (mkUnlockCost 5 20 true), sample_db)
  /\ exists r d1,
       unlockCreator 8 sample_unlock sample_db = (Ok r, d1)
       /\ ur_tokens_spent r = 5
       /\ remaining_token_balance r = 15.
Proof.
  split; [reflexivity|].
  destruct (getUnlockCost_predicts_unlock 7 8 10 sample_db sample_db
              (mkUnlockCost 5 20 true) eq_refl) as (wd & _ & _ & Hall).
  destruct (Hall 20%nat (mkUser 20 "creator") eq_refl eq_refl) as [Hcan _].
  destruct (Hcan eq_refl) as (r & d1 & H1 & H2 & H3 & _).
  exists r, d1. split; [exact H1|]. split; [exact H2 | exact H3].
Defined.

(** X26, witness: after the brand of user 10 unlocks creator 20 the pair is
    reported unlocked and the next preview starts from 15 tokens. *)
Lemma unlockCreator_is_visible_witness :
  let d1 := exec (unlockCreator 7 sample_unlock) sample_db in
  unlockCreator 7 sample_unlock sample_db
    = (Ok (mkUnlockCreatorResult 1001 20 5 15 7), d1)
  /\ isCreatorUnlocked 1 20 d1 = (Ok true, d1)
  /\ exists c, getUnlockCost 8 10 d1 = (Ok c, d1) /\ uc_current_balance c = 15.
Proof.
  intros d1. split; [reflexivity|].
  destruct (unlockCreator_is_visible 7 8 sample_unlock sample_db d1
              (mkUnlockCreatorResult 1001 20 5 15 7) eq_refl)
    as (wd & d0 & Hg & _ & H3 & _ & (c & Hc1 & _ & Hc3)).
  vm_compute in Hg. injection Hg as <- <-.
  split; [exact H3|]. exists c. split; [exact Hc1 | exact Hc3].
Defined.

(** X27, witness: a bulk unlock of creators 20 and 21 (20 named twice) unlocks
    creator 20 for 5 tokens; repeated, it unlocks nobody and still reports 15
    tokens. *)
Lemma bulkUnlockCreators_retry_charges_nothing_witness :
  let ids := [20; 21; 20]%nat in
  let d1 := exec (bulkUnlockCreators 7 10 ids) sample_db in
  bulkUnlockCreators 7 10 ids sample_db
    = (Ok (mkBulkUnlockResult 2 1 5 15 [mkUnlockedEntry 20 1001 5] []
             [(21%nat, "Creator not found")]), d1)
  /\ exists r2,
       bulkUnlockCreators 8 10 ids d1 = (Ok r2, d1)
       /\ total_unlocked r2 = 0%nat
       /\ total_tokens_spent r2 = 0
       /\ bulk_remaining_token_balance r2 = 15.
Proof.
  intros ids d1. split; [reflexivity|].
  assert (Hcosts : forall p, In p (packages sample_db) -> 0 <= report_token_cost p).
  { intros p [<- | [<- | [<- | []]]]; simpl; lia. }
  destruct (bulkUnlockCreators_retry_charges_nothing 7 8 10 ids sample_db d1
              (mkBulkUnlockResult 2 1 5 15 [mkUnlockedEntry 20 1001 5] []
                 [(21%nat, "Creator not found")]) Hcosts eq_refl)
    as (r2 & H1 & _ & H3 & H4 & _ & H6 & _).
  exists r2. split; [exact H1|]. split; [exact H3|]. split; [exact H4 | exact H6].
Defined.

(** X28, witness: a release of 300 to creator 20 raises the wallet's total
    earnings to 10300 and leaves the transaction summary at zero earnings. *)
Lemma release_earnings_missing_from_summary_witness :
  brand_wallet_of 1 sample_db = Some sample_brand_wallet
  /\ 300 <= escrow_on_hold sample_brand_wallet
  /\ exists r d',
       releaseEscrow 7 (sample_release 300) sample_db = (Ok r, d')
       /\ creator_total_earnings 20 d' = 10300
       /\ transaction_summary_of 20 d' = mkTransactionSummary 0 0 0 0 0.
Proof.
  split; [reflexivity|]. split; [simpl; lia|].
  destruct (release_earnings_missing_from_summary 7 (sample_release 300) sample_db
              sample_brand_wallet eq_refl eq_refl ltac:(simpl; lia))
    as (r & d' & s & H1 & H2 & H3 & _).
  exists r, d'. split; [exact H1|]. split; [exact H2 | exact H3].
Defined.

(** X29, witness: the brand of user 10 on the "pro" package, whose report
    token cost is 5. *)
Lemma report_token_cost_defaults_differ_witness :
  find (fun b => Nat.eqb (br_user_id b) 10) (brands sample_db)
    = Some (mkBrand 1 10 "Acme")
  /\ brand_wallet_of 1 sample_db = Some sample_brand_wallet
  /\ exists tc uc,
       getTokenCosts 10 sample_db = (Ok (Some tc), sample_db)
       /\ getUnlockCost 7 10 sample_db = (Ok uc, sample_db)
       /\ tc_report_token_cost tc = 5
       /\ token_cost uc = 5.
Proof.
  split; [reflexivity|]. split; [reflexivity|].
  destruct (report_token_cost_defaults_differ 7 10 sample_db (mkBrand 1 10 "Acme")
              sample_brand_wallet pro_package eq_refl eq_refl eq_refl eq_refl)
    as (tc & uc & H1 & H2 & H3 & H4 & _).
  exists tc, uc. split; [exact H1|]. split; [exact H2|].
  split; [exact H3 | exact H4].
Defined.

(** X30, witness: the "pro" purchase verified with a forged signature is
    failed, and the valid signature afterwards is turned away. *)
Lemma rejected_signature_is_final_witness :
  let d := sample_db_initiated "order_1" 100 in
  sample_verifyPaymentSignature "order_1" "pay_1" "forged" = false
  /\ exists d',
       verifyRecharge sample_verifyPaymentSignature 7
         (mkVerifyInput "order_1" "pay_1" "forged" 1000) d
       = (Err PaymentVerificationFailed, d')
       /\ verifyRecharge sample_verifyPaymentSignature 8 (sample_verify "order_1") d'
          = (Err TransactionNotFoundOrProcessed, d').
Proof.
  intros d. split; [reflexivity|].
  destruct (proj1 (rejected_signature_is_final sample_verifyPaymentSignature 7 8
                     (mkVerifyInput "order_1" "pay_1" "forged" 1000)
                     (sample_verify "order_1") d
                     (recharge_row 1000 "order_1" (mkInitiateRechargeInput 100 1 10)
                        pro_package sample_brand_wallet)
                     eq_refl eq_refl eq_refl))
    as (d' & H1 & _ & _ & H4 & _).
  exists d'. split; [exact H1 | exact H4].
Defined.
